(** * devcheck: the finding/rule evaluation engine

    A shallow embedding of the checks of [internal/checker/checker.go], the
    profile filter of [internal/profiles/profiles.go], the data model of
    [internal/models] and the version comparator of [internal/tools/tools.go],
    with the properties the specification states about them; then the rest
    of the scan: the other checks and [CheckWithOptions], the report of
    [internal/models/artifact.go], the tool version requirements, the
    detector of [internal/detector/detector.go] and the end of [runScan].

    Conventions.
    - A Go [string] is a [string] of bytes.  The library functions the code
      calls ([strings.TrimSpace], [strings.Trim], [bufio.Scanner], [regexp])
      are written out on bytes; where Go decodes UTF-8 (white space, character
      classes) the byte-level definition is the one that agrees with it.
    - Go's [int] is 64 bits wide; counters that cannot overflow on a real
      input (line numbers) are plain [Z].
    - The file system is read only.  [ReadFile p] is what [os.Open] /
      [os.ReadFile] deliver for the path [p]: [None] when the file is missing
      or unreadable.  [Join] is [filepath.Join].
    - Go leaves the iteration order of a [map] unspecified.  A loop over a
      map is modelled over [map_to_list] (or [elements]), and what is proved
      about its output is stated up to permutation wherever the order shows. *)

From Stdlib Require Import ZArith NArith Ascii String List Bool Lia.
From stdpp Require Import base gmap strings list fin_maps fin_sets.

Set Warnings "-register-all".
Local Open Scope Z_scope.

(* ===================================================================== *)
(** * Package [strings] *)
(* ===================================================================== *)

Module Strings.

Definition byte (a : ascii) : N := N_of_ascii a.

Fixpoint rev_append (s acc : string) : string :=
  match s with
  | EmptyString => acc
  | String a s' => rev_append s' (String a acc)
  end.

Definition rev (s : string) : string := rev_append s EmptyString.

Fixpoint drop (n : nat) (s : string) : string :=
  match n, s with
  | O, _ => s
  | S n', String _ s' => drop n' s'
  | S _, EmptyString => EmptyString
  end.

Fixpoint take (n : nat) (s : string) : string :=
  match n, s with
  | S n', String a s' => String a (take n' s')
  | _, _ => EmptyString
  end.

(** [strings.HasPrefix]. *)
Fixpoint HasPrefix (s prefix : string) : bool :=
  match prefix, s with
  | EmptyString, _ => true
  | String p prefix', String a s' => if ascii_dec a p then HasPrefix s' prefix' else false
  | String _ _, EmptyString => false
  end.

(** [strings.TrimPrefix]: [s] without the leading [prefix], or [s] itself. *)
Definition TrimPrefix (s prefix : string) : string :=
  if HasPrefix s prefix then drop (String.length prefix) s else s.

(** [strings.TrimLeftFunc] for a predicate that is decided on single bytes. *)
Fixpoint TrimLeftFunc (s : string) (f : ascii -> bool) : string :=
  match s with
  | EmptyString => EmptyString
  | String a s' => if f a then TrimLeftFunc s' f else s
  end.

Definition TrimRightFunc (s : string) (f : ascii -> bool) : string :=
  rev (TrimLeftFunc (rev s) f).

(** [strings.TrimFunc]: leading and trailing bytes satisfying [f] removed. *)
Definition TrimFunc (s : string) (f : ascii -> bool) : string :=
  TrimRightFunc (TrimLeftFunc s f) f.

Fixpoint ContainsByte (cutset : string) (a : ascii) : bool :=
  match cutset with
  | EmptyString => false
  | String c cutset' => if ascii_dec a c then true else ContainsByte cutset' a
  end.

(** [strings.Trim] with an ASCII cutset: every leading and trailing byte that
    is in [cutset] is removed. *)
Definition Trim (s cutset : string) : string := TrimFunc s (ContainsByte cutset).

(** The one-byte white space of [unicode.IsSpace]:
    ['\t'], ['\n'], ['\v'], ['\f'], ['\r'], [' ']. *)
Definition asciiSpace (a : ascii) : bool :=
  let b := byte a in ((9 <=? b) && (b <=? 13) || (b =? 32))%N.

(** The two-byte white space: U+0085 (C2 85) and U+00A0 (C2 A0). *)
Definition space2 (a b : ascii) : bool :=
  ((byte a =? 194) && ((byte b =? 133) || (byte b =? 160)))%N.

(** The three-byte white space: U+1680 (E1 9A 80), U+2000..U+200A
    (E2 80 80..8A), U+2028, U+2029, U+202F (E2 80 A8, A9, AF),
    U+205F (E2 81 9F) and U+3000 (E3 80 80). *)
Definition space3 (a b c : ascii) : bool :=
  let '(x, y, z) := (byte a, byte b, byte c) in
  ((x =? 225) && (y =? 154) && (z =? 128)
   || (x =? 226) && (y =? 128)
        && ((128 <=? z) && (z <=? 138) || (z =? 168) || (z =? 169) || (z =? 175))
   || (x =? 226) && (y =? 129) && (z =? 159)
   || (x =? 227) && (y =? 128) && (z =? 128))%N.

(** Leading white space removed, one encoded rune at a time. *)
Fixpoint TrimLeftSpace (s : string) : string :=
  match s with
  | EmptyString => EmptyString
  | String a s1 =>
      if asciiSpace a then TrimLeftSpace s1 else
      match s1 with
      | EmptyString => s
      | String b s2 =>
          if space2 a b then TrimLeftSpace s2 else
          match s2 with
          | EmptyString => s
          | String c s3 => if space3 a b c then TrimLeftSpace s3 else s
          end
      end
  end.

(** The same from the end, on the reversed string: the bytes of a rune are
    met last byte first. *)
Fixpoint TrimLeftSpaceRev (s : string) : string :=
  match s with
  | EmptyString => EmptyString
  | String c s1 =>
      if asciiSpace c then TrimLeftSpaceRev s1 else
      match s1 with
      | EmptyString => s
      | String b s2 =>
          if space2 b c then TrimLeftSpaceRev s2 else
          match s2 with
          | EmptyString => s
          | String a s3 => if space3 a b c then TrimLeftSpaceRev s3 else s
          end
      end
  end.

(** [strings.TrimSpace]: [TrimFunc s unicode.IsSpace]. *)
Definition TrimSpace (s : string) : string :=
  rev (TrimLeftSpaceRev (rev (TrimLeftSpace s))).

(** [strings.Split s sep] for a one-byte separator: the pieces between the
    separators, [[s]] when there is none (never the empty list). *)
Fixpoint SplitFrom (cur : string) (s : string) (sep : ascii) : list string :=
  match s with
  | EmptyString => [rev cur]
  | String a s' =>
      if ascii_dec a sep then rev cur :: SplitFrom EmptyString s' sep
      else SplitFrom (String a cur) s' sep
  end.

Definition Split (s : string) (sep : ascii) : list string :=
  SplitFrom EmptyString s sep.

(** [strings.SplitN s sep 2] for a one-byte separator: [[s]] when [sep] does
    not occur, otherwise the text before and the text after its first
    occurrence. *)
Fixpoint SplitN2From (cur : string) (s : string) (sep : ascii) : list string :=
  match s with
  | EmptyString => [rev cur]
  | String a s' =>
      if ascii_dec a sep then [rev cur; s'] else SplitN2From (String a cur) s' sep
  end.

Definition SplitN2 (s : string) (sep : ascii) : list string :=
  SplitN2From EmptyString s sep.

(** [strings.Index] for a one-byte separator. *)
Fixpoint IndexByte (s : string) (sep : ascii) : option nat :=
  match s with
  | EmptyString => None
  | String a s' =>
      if ascii_dec a sep then Some O else S <$> IndexByte s' sep
  end.

End Strings.

(* ===================================================================== *)
(** * Package [bufio] *)
(* ===================================================================== *)

Module Bufio.

(** [bufio.MaxScanTokenSize]. *)
Definition MaxScanTokenSize : N := 65536.

(** [dropCR]: one trailing carriage return removed.  The argument is the
    line in reverse. *)
Definition dropCR (rcur : string) : string :=
  match rcur with
  | String a rest => if (Strings.byte a =? 13)%N then Strings.rev rest else Strings.rev rcur
  | EmptyString => EmptyString
  end.

(** The buffer overflows ([ErrTooLong]) once it holds [MaxScanTokenSize]
    bytes without a newline among them. *)
Definition tooLong (rcur : string) : bool :=
  (MaxScanTokenSize <=? N.of_nat (String.length rcur))%N.

(** The lines a [bufio.Scanner] with the default split function
    ([ScanLines]) and the default buffer delivers, [Scan] after [Scan]: the
    text between newlines, one trailing carriage return dropped; a last line
    without newline is delivered unless it is empty; scanning stops at a line
    that does not fit the buffer. *)
Fixpoint scanFrom (rcur : string) (data : string) : list string :=
  match data with
  | EmptyString =>
      match rcur with
      | EmptyString => []
      | _ => if tooLong rcur then [] else [dropCR rcur]
      end
  | String a data' =>
      if (Strings.byte a =? 10)%N
      then if tooLong rcur then [] else dropCR rcur :: scanFrom EmptyString data'
      else scanFrom (String a rcur) data'
  end.

Definition Lines (data : string) : list string := scanFrom EmptyString data.

End Bufio.

(* ===================================================================== *)
(** * Package [models] *)
(* ===================================================================== *)

Module Models.

(** [Severity]: the three constants every finding of the code is built with. *)
Inductive Severity := SeverityBlocking | SeverityWarning | SeverityInfo.

#[global] Instance Severity_eq_dec : EqDecision Severity.
Proof. solve_decision. Defined.

Record SourceLocation := mkSourceLocation {
  File : string;
  Line : Z;
  Column : Z
}.

#[global] Instance SourceLocation_eq_dec : EqDecision SourceLocation.
Proof. solve_decision. Defined.

Record Finding := mkFinding {
  Code : string;
  Severity_ : Severity;
  Title : string;
  Details : string;
  Files : list SourceLocation;
  SuggestedFix : string
}.

#[global] Instance Finding_eq_dec : EqDecision Finding.
Proof. solve_decision. Defined.

Definition NewFinding (code : string) (severity : Severity) (title : string) : Finding :=
  {| Code := code; Severity_ := severity; Title := title;
     Details := EmptyString; Files := []; SuggestedFix := EmptyString |}.

Definition WithDetails (f : Finding) (details : string) : Finding :=
  {| Code := Code f; Severity_ := Severity_ f; Title := Title f;
     Details := details; Files := Files f; SuggestedFix := SuggestedFix f |}.

Definition WithFile (f : Finding) (file : string) (line : Z) : Finding :=
  {| Code := Code f; Severity_ := Severity_ f; Title := Title f;
     Details := Details f;
     Files := Files f ++ [ {| File := file; Line := line; Column := 0 |} ];
     SuggestedFix := SuggestedFix f |}.

Definition WithFix (f : Finding) (fix_ : string) : Finding :=
  {| Code := Code f; Severity_ := Severity_ f; Title := Title f;
     Details := Details f; Files := Files f; SuggestedFix := fix_ |}.

(** [SeverityLevel]; its [default] branch is for strings that are none of
    the three constants. *)
Definition SeverityLevel (s : Severity) : Z :=
  match s with
  | SeverityBlocking => 3
  | SeverityWarning => 2
  | SeverityInfo => 1
  end.

Record Artifact := mkArtifact {
  Path : string;
  Found : bool
}.

Record Artifacts := mkArtifacts {
  ComposeFiles : list Artifact;
  EnvFiles : list Artifact;
  EnvExamples : list Artifact
}.

Fixpoint anyFound (l : list Artifact) : bool :=
  match l with
  | [] => false
  | e :: l' => if Found e then true else anyFound l'
  end.

Definition HasCompose (a : Artifacts) : bool := anyFound (ComposeFiles a).
Definition HasEnv (a : Artifacts) : bool := anyFound (EnvFiles a).
Definition HasEnvExample (a : Artifacts) : bool := anyFound (EnvExamples a).

End Models.

(* ===================================================================== *)
(** * Package [config] *)
(* ===================================================================== *)

Module Config.

Record CustomRule := mkCustomRule {
  ID : string;
  Pattern : string;
  Required : bool;
  Description : string;
  Severity : string
}.

Record Config := mkConfig {
  CustomRules : list CustomRule;
  IgnoreCodes : list string;
  RequiredEnvVars : list string
}.

Fixpoint ShouldIgnoreCode (ignoreCodes : list string) (code : string) : bool :=
  match ignoreCodes with
  | [] => false
  | ignore :: rest => if string_dec ignore code then true else ShouldIgnoreCode rest code
  end.

End Config.

(* ===================================================================== *)
(** * Package [profiles] *)
(* ===================================================================== *)

Module Profiles.
Import Models.

Record Profile := mkProfile {
  Name : string;
  MinSeverity : Severity;
  EnabledChecks : list string;
  DisabledChecks : list string;
  EnableSourceScanning : bool;
  IncludeInfo : bool
}.

Definition default : Profile :=
  {| Name := "default"; MinSeverity := SeverityInfo; EnabledChecks := [];
     DisabledChecks := []; EnableSourceScanning := false; IncludeInfo := true |}.
Definition strict : Profile :=
  {| Name := "strict"; MinSeverity := SeverityInfo; EnabledChecks := [];
     DisabledChecks := []; EnableSourceScanning := true; IncludeInfo := true |}.
Definition ci : Profile :=
  {| Name := "ci"; MinSeverity := SeverityWarning; EnabledChecks := [];
     DisabledChecks := []; EnableSourceScanning := false; IncludeInfo := false |}.
Definition minimal : Profile :=
  {| Name := "minimal"; MinSeverity := SeverityBlocking; EnabledChecks := [];
     DisabledChecks := []; EnableSourceScanning := false; IncludeInfo := false |}.
Definition full : Profile :=
  {| Name := "full"; MinSeverity := SeverityInfo; EnabledChecks := [];
     DisabledChecks := []; EnableSourceScanning := true; IncludeInfo := true |}.

(** [BuiltinProfiles] and [Get]. *)
Definition Get (name : string) : option Profile :=
  if string_dec name "default" then Some default
  else if string_dec name "strict" then Some strict
  else if string_dec name "ci" then Some ci
  else if string_dec name "minimal" then Some minimal
  else if string_dec name "full" then Some full
  else None.

Fixpoint contains (slice : list string) (s : string) : bool :=
  match slice with
  | [] => false
  | item :: rest => if string_dec item s then true else contains rest s
  end.

(** One turn of the loop of [FilterFindings]: the finding is appended unless
    one of the four [continue]s is taken. *)
Definition FilterFindings_step (p : Profile) (filtered : list Finding) (f : Finding)
  : list Finding :=
  if SeverityLevel (Severity_ f) <? SeverityLevel (MinSeverity p) then filtered
  else if bool_decide (Severity_ f = SeverityInfo) && negb (IncludeInfo p) then filtered
  else if (0 <? Z.of_nat (length (EnabledChecks p))) && negb (contains (EnabledChecks p) (Code f))
       then filtered
  else if contains (DisabledChecks p) (Code f) then filtered
  else filtered ++ [f].

Definition FilterFindings (p : Profile) (findings : list Finding) : list Finding :=
  fold_left (FilterFindings_step p) findings [].

End Profiles.

(* ===================================================================== *)
(** * Package [tools]: the version comparator *)
(* ===================================================================== *)

Module Tools.

Definition isDigit (a : ascii) : bool :=
  ((48 <=? Strings.byte a) && (Strings.byte a <=? 57))%N.

Definition digitVal (a : ascii) : Z := Z.of_N (Strings.byte a) - 48.

Definition maxUint64 : Z := 2 ^ 64 - 1.
Definition maxInt : Z := 2 ^ 63 - 1.

(** What [strconv.ParseUint s 10 64] returns: the number, a syntax error or
    a range error. *)
Inductive parsed := Number (n : Z) | ErrSyntax | ErrRange.

(** The loop of [ParseUint], byte after byte: a byte that is no digit is a
    syntax error; a running value that leaves 64 bits is a range error; the
    first of the two that is met ends the loop. *)
Fixpoint ParseUintFrom (n : Z) (s : string) : parsed :=
  match s with
  | EmptyString => Number n
  | String c s' =>
      if isDigit c then
        let n1 := n * 10 + digitVal c in
        if n1 >? maxUint64 then ErrRange else ParseUintFrom n1 s'
      else ErrSyntax
  end.

Definition ParseUint (s : string) : parsed :=
  match s with
  | EmptyString => ErrSyntax
  | _ => ParseUintFrom 0 s
  end.

(** The value [strconv.Atoi] returns, its error dropped as the caller does
    ([n, _ := strconv.Atoi(numStr)]): 0 on a syntax error, the nearest int on
    a range error. *)
Definition Atoi (s : string) : Z :=
  let '(neg, digits) :=
    match s with
    | String "-"%char r => (true, r)
    | String "+"%char r => (false, r)
    | _ => (false, s)
    end in
  match ParseUint digits with
  | ErrSyntax => 0
  | ErrRange => if neg then - (maxInt + 1) else maxInt
  | Number un =>
      if negb neg && (un >? maxInt) then maxInt
      else if neg && (un >? maxInt + 1) then - (maxInt + 1)
      else if neg then - un else un
  end.

(** The loop body of [parseVersion] for one part. *)
Definition parsePart (p : string) : Z :=
  let numStr := Strings.TrimFunc p (fun r => negb (isDigit r)) in
  Atoi numStr.

Definition parseVersion (v : string) : list Z :=
  let v := Strings.TrimPrefix v "v" in
  let parts := Strings.Split v "." in
  fold_left (fun result p => result ++ [parsePart p]) parts [].

(** The loop [for i := 0; i < 3; i++] of [CompareVersions], with [steps]
    turns left. *)
Fixpoint CompareVersions_loop (parts1 parts2 : list Z) (i steps : nat) : Z :=
  match steps with
  | O => 0
  | S steps' =>
      let p1 := if (i <? length parts1)%nat then nth i parts1 0 else 0 in
      let p2 := if (i <? length parts2)%nat then nth i parts2 0 else 0 in
      if p1 <? p2 then -1
      else if p1 >? p2 then 1
      else CompareVersions_loop parts1 parts2 (S i) steps'
  end.

Definition CompareVersions (v1 v2 : string) : Z :=
  let parts1 := parseVersion v1 in
  let parts2 := parseVersion v2 in
  CompareVersions_loop parts1 parts2 0 3.

End Tools.

(* ===================================================================== *)
(** * Package [regexp] *)
(* ===================================================================== *)

Module Regexp.

(** The fragment of the syntax the fixed patterns of the checker are written
    in: literals, character classes, a greedy star over a class, sequence, a
    greedy optional group and a capturing group.  A class is matched byte by
    byte; the classes that hold bytes beyond ASCII are only used under a star
    or plus, where matching bytes and matching runes agree. *)
Inductive re :=
| Eps
| Chr (p : ascii -> bool)
| Star (p : ascii -> bool)
| Seq (a b : re)
| Opt (a : re)
| Cap (a : re).

Definition Plus (p : ascii -> bool) : re := Seq (Chr p) (Star p).

Fixpoint Lit (s : string) : re :=
  match s with
  | EmptyString => Eps
  | String a s' => Seq (Chr (fun c => if ascii_dec c a then true else false)) (Lit s')
  end.

Fixpoint Cat (rs : list re) : re :=
  match rs with
  | [] => Eps
  | r :: rs' => Seq r (Cat rs')
  end.

(** Classes. *)
Definition inRange (lo hi : N) (c : ascii) : bool :=
  ((lo <=? Strings.byte c) && (Strings.byte c <=? hi))%N.
Definition isUpper := inRange 65 90.
Definition isLower := inRange 97 122.
Definition isUnderscore := inRange 95 95.
(** [[A-Za-z_]] *)
Definition identStart (c : ascii) : bool := isUpper c || isLower c || isUnderscore c.
(** [[A-Za-z0-9_]] *)
Definition identChar (c : ascii) : bool := identStart c || inRange 48 57 c.
(** [\s], which is [[\t\n\f\r ]] *)
Definition perlSpace (c : ascii) : bool :=
  inRange 9 10 c || inRange 12 13 c || inRange 32 32 c.
(** the class of the single and the double quote *)
Definition anyQuote (c : ascii) : bool := inRange 34 34 c || inRange 39 39 c.
Definition dquote : re := Chr (inRange 34 34).
(** [[^...]] for a set of ASCII bytes *)
Definition noneOf (set : string) (c : ascii) : bool := negb (Strings.ContainsByte set c).

(** Greedy star with backtracking: the longest run first, then shorter. *)
Fixpoint star {R} (p : ascii -> bool) (s : string) (k : string -> option R) : option R :=
  match s with
  | EmptyString => k s
  | String c s' =>
      if p c then
        match star p s' k with
        | Some r => Some r
        | None => k s
        end
      else k s
  end.

(** A backtracking matcher in continuation-passing style: [run r s cap k]
    matches [r] at the head of [s] and hands the rest of the text and the
    text of the capture group to [k]; alternatives are tried in the order of
    preference of the syntax (leftmost-first, as package [regexp] does). *)
Fixpoint run {R} (r : re) (s : string) (cap : string)
    (k : string -> string -> option R) : option R :=
  match r with
  | Eps => k s cap
  | Chr p =>
      match s with
      | String c s' => if p c then k s' cap else None
      | EmptyString => None
      end
  | Star p => star p s (fun s' => k s' cap)
  | Seq a b => run a s cap (fun s' cap' => run b s' cap' k)
  | Opt a =>
      match run a s cap k with
      | Some x => Some x
      | None => k s cap
      end
  | Cap a =>
      run a s cap (fun s' _ => k s' (Strings.take (String.length s - String.length s') s))
  end.

(** A match of [r] at the head of [s]: the capture and the text left. *)
Definition matchHere (r : re) (s : string) : option (string * string) :=
  run r s EmptyString (fun s' cap => Some (cap, s')).

(** [FindAllStringSubmatch(s, -1)], reduced to [match[1]] of each match:
    successive non-overlapping matches, leftmost first.  [skip] bytes are
    still covered by the last match.  (No pattern of the checker matches the
    empty text.) *)
Fixpoint findAllFrom (r : re) (skip : nat) (s : string) : list string :=
  match s with
  | EmptyString => []
  | String _ s' =>
      match skip with
      | S n => findAllFrom r n s'
      | O =>
          match matchHere r s with
          | Some (cap, rest) =>
              cap :: findAllFrom r (String.length s - String.length rest - 1) s'
          | None => findAllFrom r 0 s'
          end
      end
  end.

Definition FindAllStringSubmatch1 (r : re) (s : string) : list string :=
  findAllFrom r 0 s.

End Regexp.

(* ===================================================================== *)
(** * Package [yaml]: the part of [yaml.Node] the checker reads *)
(* ===================================================================== *)

Module Yaml.

Inductive Kind :=
| KindZero | DocumentNode | SequenceNode | MappingNode | ScalarNode | AliasNode.

#[global] Instance Kind_eq_dec : EqDecision Kind.
Proof. solve_decision. Defined.

(** A node: its kind, its scalar value and its children.  The children of a
    mapping node are key, value, key, value, ... *)
Inductive Node := mkNode (kind : Kind) (value : string) (content : list Node).

Definition Kind_ (n : Node) : Kind := let 'mkNode k _ _ := n in k.
Definition Value (n : Node) : string := let 'mkNode _ v _ := n in v.
Definition Content (n : Node) : list Node := let 'mkNode _ _ c := n in c.

(** The zero value of [yaml.Node]: what a service without [depends_on] has. *)
Definition zero : Node := mkNode KindZero EmptyString [].
Definition scalar (v : string) : Node := mkNode ScalarNode v [].
Definition sequence (items : list Node) : Node := mkNode SequenceNode EmptyString items.
Definition mapping (kvs : list (Node * Node)) : Node :=
  mkNode MappingNode EmptyString (flat_map (fun kv => [fst kv; snd kv]) kvs).

End Yaml.

(* ===================================================================== *)
(** * Package [filepath]: the tree [filepath.Walk] visits *)
(* ===================================================================== *)

Module Filepath.

(** What lies at a path: a file with what [os.ReadFile] delivers for it
    ([None]: the read fails), or a directory with its entries in the order
    [Walk] visits them (lexical order of the names). *)
Inductive entry :=
| File (name : string) (content : option string)
| Dir (name : string) (entries : list entry).

Definition Name (e : entry) : string :=
  match e with File n _ => n | Dir n _ => n end.

(** [filepath.Ext], on the last element of the path: the suffix beginning at
    its final dot, empty when it has no dot.  [rname] is the name reversed. *)
Fixpoint extFrom (acc : string) (rname : string) : string :=
  match rname with
  | EmptyString => EmptyString
  | String a rest =>
      if ascii_dec a "."%char then String a acc else extFrom (String a acc) rest
  end.

Definition Ext (name : string) : string := extFrom EmptyString (Strings.rev name).

Fixpoint joinWith (sep : string) (elems : list string) : string :=
  match elems with
  | [] => EmptyString
  | [e] => e
  | e :: rest => e +:+ sep +:+ joinWith sep rest
  end.

(** [filepath.Rel(basePath, path)] for a path that lies [elems] below
    [basePath]. *)
Definition Rel (elems : list string) : string :=
  match elems with
  | [] => "."
  | _ => joinWith "/" elems
  end.

Inductive walkResult := Continue | SkipDir.

(** [filepath.Walk] for a function that returns [nil] or [SkipDir]: the
    function is called on the root and then, depth first, on the entries of
    every directory it did not skip.  [elems] are the names from the root
    down to the entry. *)
Fixpoint walk {St : Type}
    (fn : list string -> entry -> St -> St * walkResult)
    (elems : list string) (e : entry) (st : St) : St :=
  match e with
  | File _ _ => fst (fn elems e st)
  | Dir _ entries =>
      match fn elems e st with
      | (st', SkipDir) => st'
      | (st', Continue) =>
          (fix walkEntries (es : list entry) (st : St) : St :=
             match es with
             | [] => st
             | e' :: es' => walkEntries es' (walk fn (elems ++ [Name e']) e' st)
             end) entries st'
      end
  end.

Definition Walk {St : Type} (root : entry)
    (fn : list string -> entry -> St -> St * walkResult) (st : St) : St :=
  walk fn [] root st.

End Filepath.

(* ===================================================================== *)
(** * Package [checker] *)
(* ===================================================================== *)

Module Checker.
Import Models Regexp.

(** The cutset of [strings.Trim(value, ...)]: the double and the single quote. *)
Definition quotes : string := String "034" (String "039" EmptyString).

(** [isStandardVar]; the map literal [standard] has these nine keys, each
    with the value [true]. *)
Definition standard : gset string :=
  list_to_set ["HOME"; "USER"; "PATH"; "PWD"; "SHELL"; "TERM"; "HOSTNAME"; "UID"; "GID"].

Definition isStandardVar (name : string) : bool := bool_decide (name ∈ standard).

(** The findings the checks build. *)
Definition env001 (varName composePath : string) (lineNum : Z) : Finding :=
  WithFix
    (WithFile
       (WithDetails
          (NewFinding "ENV001" SeverityBlocking
             ("${" +:+ varName +:+ "} referenced but not defined"))
          ("Variable ${" +:+ varName +:+ "} is used in " +:+ composePath
             +:+ " but is not defined in any .env file"))
       composePath lineNum)
    ("Add " +:+ varName +:+ "=<value> to .env file").

Definition env003 (examplePath : string) : Finding :=
  WithFix
    (WithFile
       (WithDetails
          (NewFinding "ENV003" SeverityWarning ".env.example exists but .env is missing")
          (examplePath +:+ " exists but no .env file found"))
       examplePath 0)
    "Copy .env.example to .env and fill in values".

Definition env002 (examplePath key envPath : string) : Finding :=
  WithFix
    (WithDetails
       (NewFinding "ENV002" SeverityWarning
          (examplePath +:+ " has " +:+ key +:+ " but " +:+ envPath +:+ " does not"))
       ("Variable " +:+ key +:+ " is defined in " +:+ examplePath
          +:+ " but missing from " +:+ envPath))
    ("Add " +:+ key +:+ "=<value> to " +:+ envPath).

Definition cmp001 (svcName dep composePath : string) : Finding :=
  WithFix
    (WithFile
       (WithDetails
          (NewFinding "CMP001" SeverityBlocking
             ("Service " +:+ svcName +:+ " depends on unknown service " +:+ dep))
          ("depends_on references " +:+ dep +:+ " which is not defined in " +:+ composePath))
       composePath 0)
    ("Add service " +:+ dep +:+ " to " +:+ composePath +:+ " or remove from depends_on").

Definition src001 (varName relPath : string) (line : Z) : Finding :=
  WithFix
    (WithFile
       (WithDetails
          (NewFinding "SRC001" SeverityWarning
             ("Environment variable '" +:+ varName +:+ "' used in source but not defined"))
          ("Variable " +:+ varName
             +:+ " is accessed in source code but not found in any .env file"))
       relPath line)
    ("Add " +:+ varName +:+ "=<value> to .env file").

Definition customFinding (rule : Config.CustomRule) (severity : Severity) : Finding :=
  WithFix
    (WithDetails
       (NewFinding ("CUSTOM-" +:+ Config.ID rule) severity
          ("Custom rule '" +:+ Config.ID rule +:+ "' not satisfied"))
       (Config.Description rule))
    ("Define a variable matching pattern: " +:+ Config.Pattern rule).

(** The pattern of [checkComposeEnvRefs]: a dollar sign and an opening
    brace; the captured name, one or more bytes other than the closing brace
    and the colon; optionally a colon, a minus sign and any bytes other than
    the closing brace; the closing brace. *)
Definition varRefRegex : Regexp.re :=
  Regexp.Cat [Regexp.Lit "${";
              Regexp.Cap (Regexp.Plus (Regexp.noneOf "}:"));
              Regexp.Opt (Regexp.Cat [Regexp.Lit ":-"; Regexp.Star (Regexp.noneOf "}")]);
              Regexp.Lit "}"].

(** The captured identifier (a letter or underscore, then letters, digits
    and underscores), optional white space, and a single or double quote. *)
Definition ident : Regexp.re :=
  Regexp.Cap (Regexp.Seq (Regexp.Chr Regexp.identStart) (Regexp.Star Regexp.identChar)).
Definition ws : Regexp.re := Regexp.Star Regexp.perlSpace.
Definition quote : Regexp.re := Regexp.Chr Regexp.anyQuote.

(** The patterns of [checkSourceCodeEnvRefs], in the order of the source:
    Node.js, Go, Python dict, Python getenv, Java, C#, Rust. *)
Definition patterns : list re :=
  [ Cat [Lit "process.env."; ident];
    Cat [Lit "os.Getenv"; ws; Lit "("; ws; dquote; ident; dquote; ws; Lit ")"];
    Cat [Lit "os.environ"; ws; Lit "["; ws; quote; ident; quote; ws; Lit "]"];
    Cat [Lit "os.getenv"; ws; Lit "("; ws; quote; ident; quote];
    Cat [Lit "System.getenv"; ws; Lit "("; ws; dquote; ident; dquote; ws; Lit ")"];
    Cat [Lit "Environment.GetEnvironmentVariable"; ws; Lit "("; ws; dquote; ident; dquote;
         ws; Lit ")"];
    Cat [Lit "env::var"; ws; Lit "("; ws; dquote; ident; dquote; ws; Lit ")"] ].

Definition extensions : gset string :=
  list_to_set [".go"; ".js"; ".ts"; ".jsx"; ".tsx"; ".py"; ".java"; ".cs"; ".rs"].

(** The directories the walk does not enter. *)
Definition skippedDir (name : string) : bool :=
  bool_decide (name = "node_modules") || bool_decide (name = "vendor")
  || bool_decide (name = ".git") || bool_decide (name = "__pycache__")
  || bool_decide (name = "target") || bool_decide (name = "bin")
  || bool_decide (name = "obj").

(** [extractDependsOn]: the loop [for i := 0; i < len(node.Content); i += 2]
    of the map form. *)
Fixpoint mapFormDeps (content : list Yaml.Node) (deps : list string) : list string :=
  match content with
  | [] => deps
  | [k] => deps ++ [Yaml.Value k]
  | k :: _ :: rest => mapFormDeps rest (deps ++ [Yaml.Value k])
  end.

Definition extractDependsOn (node : Yaml.Node) : list string :=
  match Yaml.Kind_ node with
  | Yaml.KindZero => []
  | Yaml.SequenceNode =>
      fold_left
        (fun deps item =>
           if bool_decide (Yaml.Kind_ item = Yaml.ScalarNode)
           then deps ++ [Yaml.Value item] else deps)
        (Yaml.Content node) []
  | Yaml.MappingNode => mapFormDeps (Yaml.Content node) []
  | _ => []
  end.

(** [filterIgnoredFindings] *)
Definition filterIgnoredFindings (findings : list Finding) (cfg : Config.Config)
  : list Finding :=
  if (length (Config.IgnoreCodes cfg) =? 0)%nat then findings
  else fold_left
         (fun filtered f =>
            if negb (Config.ShouldIgnoreCode (Config.IgnoreCodes cfg) (Code f))
            then filtered ++ [f] else filtered)
         findings [].

(** The first artifact of a list that was found. *)
Fixpoint firstFound (l : list Artifact) : option Artifact :=
  match l with
  | [] => None
  | e :: l' => if Found e then Some e else firstFound l'
  end.

(** The first found environment file whose path is [.env] or [.env.local]. *)
Fixpoint firstPrimary (l : list Artifact) : option Artifact :=
  match l with
  | [] => None
  | e :: l' =>
      if Found e && (bool_decide (Path e = ".env") || bool_decide (Path e = ".env.local"))
      then Some e else firstPrimary l'
  end.

(** The severity of a custom rule. *)
Definition ruleSeverity (rule : Config.CustomRule) : Severity :=
  if bool_decide (Config.Severity rule = "blocking") then SeverityBlocking
  else if bool_decide (Config.Severity rule = "info") then SeverityInfo
  else SeverityWarning.

Section Checks.

(** [os.Open] / [os.ReadFile]: the content of the file at a path, [None]
    when it is missing or unreadable. *)
Variable ReadFile : string -> option string.
(** [filepath.Join]. *)
Variable Join : string -> string -> string.
(** [yaml.Unmarshal] into the struct with the field [Services]: the
    [depends_on] node of every service, [None] when the text does not parse. *)
Variable Unmarshal : string -> option (gmap string Yaml.Node).
(** [regexp.Compile], and [MatchString] of the compiled pattern; [None] when
    the pattern does not compile. *)
Variable Compile : string -> option (string -> bool).

(** One turn of the loop of [parseEnvFile] over the scanned lines. *)
Definition parseEnvFile_step (result : gmap string string) (text : string)
  : gmap string string :=
  let line := Strings.TrimSpace text in
  if bool_decide (line = EmptyString) || Strings.HasPrefix line "#" then result
  else
    let parts := Strings.SplitN2 line "=" in
    if (length parts =? 2)%nat then
      let key := Strings.TrimSpace (nth 0 parts EmptyString) in
      let value := Strings.TrimSpace (nth 1 parts EmptyString) in
      let value := Strings.Trim value quotes in
      <[key := value]> result
    else result.

Definition parseEnvFile (path : string) : gmap string string :=
  match ReadFile path with
  | None => ∅
  | Some data => fold_left parseEnvFile_step (Bufio.Lines data) ∅
  end.

(** The loop that opens [checkComposeEnvRefs], [checkSourceCodeEnvRefs],
    [checkCustomRules] and [checkRequiredEnvVars]: the names defined in the
    environment files that were found ([definedVars[k] = true]). *)
Definition collectDefinedVars (basePath : string) (artifacts : Artifacts) : gset string :=
  fold_left
    (fun definedVars envFile =>
       if Found envFile
       then let vars := parseEnvFile (Join basePath (Path envFile)) in
            fold_left (fun dv k => {[k]} ∪ dv) (map fst (map_to_list vars)) definedVars
       else definedVars)
    (EnvFiles artifacts) ∅.

(** ** [checkComposeEnvRefs] *)

Definition composeMatch_step (definedVars : gset string) (composePath : string)
    (lineNum : Z) (findings : list Finding) (varName : string) : list Finding :=
  if negb (bool_decide (varName ∈ definedVars)) && negb (isStandardVar varName)
  then findings ++ [env001 varName composePath lineNum]
  else findings.

(** One [scanner.Scan()] turn: the state is the line counter and the
    findings.  Every match of the pattern has its capture, so the test
    [len(match) > 1] of the source always holds. *)
Definition composeLine_step (definedVars : gset string) (composePath : string)
    (st : Z * list Finding) (line : string) : Z * list Finding :=
  let lineNum := fst st + 1 in
  let matches := FindAllStringSubmatch1 varRefRegex line in
  (lineNum, fold_left (composeMatch_step definedVars composePath lineNum) matches (snd st)).

Definition composeFile_step (basePath : string) (definedVars : gset string)
    (findings : list Finding) (composeFile : Artifact) : list Finding :=
  if negb (Found composeFile) then findings
  else match ReadFile (Join basePath (Path composeFile)) with
       | None => findings
       | Some content =>
           snd (fold_left (composeLine_step definedVars (Path composeFile))
                  (Bufio.Lines content) (0, findings))
       end.

Definition checkComposeEnvRefs (basePath : string) (artifacts : Artifacts) : list Finding :=
  let definedVars := collectDefinedVars basePath artifacts in
  fold_left (composeFile_step basePath definedVars) (ComposeFiles artifacts) [].

(** ** [checkEnvExample] *)

Definition checkEnvExample (basePath : string) (artifacts : Artifacts) : list Finding :=
  let findings := [] in
  let hasExample := HasEnvExample artifacts in
  let hasEnv := HasEnv artifacts in
  let findings :=
    if hasExample && negb hasEnv then
      let examplePath :=
        match firstFound (EnvExamples artifacts) with
        | Some e => Path e
        | None => EmptyString
        end in
      findings ++ [env003 examplePath]
    else findings in
  if hasExample && hasEnv then
    let '(examplePath, exampleVars) :=
      match firstFound (EnvExamples artifacts) with
      | Some e => (Path e, Some (parseEnvFile (Join basePath (Path e))))
      | None => (EmptyString, None)
      end in
    let '(envPath, envVars) :=
      match firstPrimary (EnvFiles artifacts) with
      | Some e => (Path e, Some (parseEnvFile (Join basePath (Path e))))
      | None => (EmptyString, None)
      end in
    match exampleVars, envVars with
    | Some exampleVars, Some envVars =>
        fold_left
          (fun findings key =>
             match envVars !! key with
             | Some _ => findings
             | None => findings ++ [env002 examplePath key envPath]
             end)
          (map fst (map_to_list exampleVars)) findings
    | _, _ => findings
    end
  else findings.

(** ** [checkComposeDependsOn] *)

Definition dependsOn_step (serviceNames : gset string) (svcName composePath : string)
    (findings : list Finding) (dep : string) : list Finding :=
  if negb (bool_decide (dep ∈ serviceNames))
  then findings ++ [cmp001 svcName dep composePath]
  else findings.

Definition dependsOnFile_step (basePath : string) (findings : list Finding)
    (composeFile : Artifact) : list Finding :=
  if negb (Found composeFile) then findings
  else match ReadFile (Join basePath (Path composeFile)) with
       | None => findings
       | Some content =>
           match Unmarshal content with
           | None => findings
           | Some services =>
               let serviceNames : gset string :=
                 fold_left (fun names name => {[name]} ∪ names)
                   (map fst (map_to_list services)) ∅ in
               fold_left
                 (fun findings svc =>
                    let deps := extractDependsOn (snd svc) in
                    fold_left (dependsOn_step serviceNames (fst svc) (Path composeFile))
                      deps findings)
                 (map_to_list services) findings
           end
       end.

Definition checkComposeDependsOn (basePath : string) (artifacts : Artifacts) : list Finding :=
  fold_left (dependsOnFile_step basePath) (ComposeFiles artifacts) [].

(** ** [checkSourceCodeEnvRefs] *)

(** What the walk function shares across its calls: [foundUndefined] and
    [findings]. *)
Definition scanState : Type := gset string * list Finding.

Definition sourceMatch_step (definedVars : gset string) (relPath : string) (lineNum : Z)
    (st : scanState) (varName : string) : scanState :=
  let '(foundUndefined, findings) := st in
  if negb (bool_decide (varName ∈ definedVars)) && negb (isStandardVar varName)
     && negb (bool_decide (varName ∈ foundUndefined))
  then ({[varName]} ∪ foundUndefined, findings ++ [src001 varName relPath (lineNum + 1)])
  else st.

Definition sourcePattern_step (definedVars : gset string) (relPath : string) (lineNum : Z)
    (line : string) (st : scanState) (pattern : re) : scanState :=
  fold_left (sourceMatch_step definedVars relPath lineNum)
    (FindAllStringSubmatch1 pattern line) st.

(** One turn of [for lineNum, line := range lines]: the state carries the
    index of the line.  Every match has its capture ([len(match) >= 2]). *)
Definition sourceLine_step (definedVars : gset string) (relPath : string)
    (acc : Z * scanState) (line : string) : Z * scanState :=
  let '(lineNum, st) := acc in
  (lineNum + 1, fold_left (sourcePattern_step definedVars relPath lineNum line) patterns st).

(** The function handed to [filepath.Walk]. *)
Definition walkFn (definedVars : gset string) (elems : list string) (e : Filepath.entry)
    (st : scanState) : scanState * Filepath.walkResult :=
  match e with
  | Filepath.Dir name _ =>
      if skippedDir name then (st, Filepath.SkipDir) else (st, Filepath.Continue)
  | Filepath.File name content =>
      let ext := Filepath.Ext name in
      if negb (bool_decide (ext ∈ extensions)) then (st, Filepath.Continue)
      else match content with
           | None => (st, Filepath.Continue)
           | Some content =>
               let relPath := Filepath.Rel elems in
               let lines := Strings.Split content "010" in
               (snd (fold_left (sourceLine_step definedVars relPath) lines (0, st)),
                Filepath.Continue)
           end
  end.

(** [tree] is what lies at [basePath]. *)
Definition checkSourceCodeEnvRefs (basePath : string) (tree : Filepath.entry)
    (artifacts : Artifacts) : list Finding :=
  let definedVars := collectDefinedVars basePath artifacts in
  snd (Filepath.Walk tree (walkFn definedVars) (∅, [])).

(** ** [checkCustomRules] *)

Definition customRule_step (definedVars : gset string) (findings : list Finding)
    (rule : Config.CustomRule) : list Finding :=
  if negb (Config.Required rule) then findings
  else match Compile (Config.Pattern rule) with
       | None => findings
       | Some pattern =>
           let found := existsb pattern (elements definedVars) in
           if negb found
           then findings ++ [customFinding rule (ruleSeverity rule)]
           else findings
       end.

Definition checkCustomRules (basePath : string) (artifacts : Artifacts)
    (cfg : Config.Config) : list Finding :=
  if (length (Config.CustomRules cfg) =? 0)%nat then []
  else
    let definedVars := collectDefinedVars basePath artifacts in
    fold_left (customRule_step definedVars) (Config.CustomRules cfg) [].

End Checks.

(** The two filters as a scan applies them to the raw findings:
    [filterIgnoredFindings] at the end of [CheckWithOptions], then
    [profile.FilterFindings] in [runScan]. *)
Definition filterScan (cfg : Config.Config) (profile : Profiles.Profile)
    (raw : list Finding) : list Finding :=
  Profiles.FilterFindings profile (filterIgnoredFindings raw cfg).

End Checker.

(* ===================================================================== *)
(** * The specification's side *)
(* ===================================================================== *)

(** What the specification says in words, written down independently of the
    loops above, to compare the code with. *)
Module Spec.
Import Models Checker.

(** ** Environment Resolver (4.1) *)


(** Every leading and trailing quote character removed, whatever their
    number and kind. *)
Definition trimQuotes (v : string) : string := Strings.Trim v quotes.

(** What is left of a string after trimming starts with a byte that was not
    to be trimmed. *)
Definition headKept (f : ascii -> bool) (t : string) : Prop :=
  match t with
  | EmptyString => True
  | String a _ => f a = false
  end.

(** A map with one more binding, or as it was. *)
Definition bind (result : gmap string string) (b : option (string * string))
  : gmap string string :=
  match b with
  | Some (k, v) => <[k := v]> result
  | None => result
  end.

(** The binding a line contributes, if any: blank lines, comment lines and
    lines without an equals sign contribute none; the others are split at the
    first equals sign, key and value trimmed, the value unquoted. *)
Definition bindingOf (unquote : string -> string) (text : string)
  : option (string * string) :=
  let line := Strings.TrimSpace text in
  match line with
  | EmptyString => None
  | String c _ =>
      if ascii_dec c "#"%char then None
      else match Strings.IndexByte line "="%char with
           | None => None
           | Some i =>
               Some (Strings.TrimSpace (Strings.take i line),
                     unquote (Strings.TrimSpace (Strings.drop (S i) line)))
           end
  end.

(** The value of the last binding of [k] in a list of bindings. *)
Fixpoint lastBinding (k : string) (bs : list (string * string)) : option string :=
  match bs with
  | [] => None
  | (k', v) :: rest =>
      match lastBinding k rest with
      | Some v' => Some v'
      | None => if string_dec k' k then Some v else None
      end
  end.


(** ** Version Comparator (4.9) *)

Fixpoint decimalFrom (n : Z) (s : string) : Z :=
  match s with
  | EmptyString => n
  | String c s' => decimalFrom (n * 10 + Tools.digitVal c) s'
  end.

Fixpoint allDigits (s : string) : bool :=
  match s with
  | EmptyString => true
  | String c s' => Tools.isDigit c && allDigits s'
  end.

Fixpoint leadingDigits (s : string) : string :=
  match s with
  | EmptyString => EmptyString
  | String c s' => if Tools.isDigit c then String c (leadingDigits s') else EmptyString
  end.

(** "Non-digit characters stripped before parsing": the digits of the
    segment, read as a decimal number. *)
Fixpoint digitsOf (s : string) : string :=
  match s with
  | EmptyString => EmptyString
  | String c s' => if Tools.isDigit c then String c (digitsOf s') else digitsOf s'
  end.

Definition strippedValue (seg : string) : Z := decimalFrom 0 (digitsOf seg).

(** What the code makes of a segment: non-digits trimmed from both ends; the
    rest read as a decimal number and capped at the largest int; 0 when the
    rest is empty or still holds a non-digit (the largest int again if its
    leading digits alone already leave 64 bits). *)
Definition segmentValue (seg : string) : Z :=
  let t := Strings.TrimFunc seg (fun r => negb (Tools.isDigit r)) in
  match t with
  | EmptyString => 0
  | _ =>
      if allDigits t then Z.min (decimalFrom 0 t) Tools.maxInt
      else if decimalFrom 0 (leadingDigits t) >? Tools.maxUint64 then Tools.maxInt
      else 0
  end.

(** Segment [i] of a version, 0 when the version has no such segment. *)
Definition segmentAt (value : string -> Z) (v : string) (i : nat) : Z :=
  match Strings.Split v "."%char !! i with
  | Some seg => value seg
  | None => 0
  end.

(** The sign of the first difference of two lists of numbers. *)
Fixpoint firstDifference (a b : list Z) : Z :=
  match a, b with
  | x :: a', y :: b' => if x =? y then firstDifference a' b' else Z.sgn (x - y)
  | _, _ => 0
  end.

Definition compareSegments (value : string -> Z) (v1 v2 : string) : Z :=
  firstDifference (map (segmentAt value v1) [0; 1; 2]%nat)
                  (map (segmentAt value v2) [0; 1; 2]%nat).

(** ** Reference scanners (4.2, 4.4) *)

(** An occurrence of a variable: where and which. *)
Record occurrence := mkOccurrence {
  occFile : string;
  occLine : Z;
  occVar : string
}.

Fixpoint numberFrom (n : Z) (lines : list string) : list (Z * string) :=
  match lines with
  | [] => []
  | l :: ls => (n, l) :: numberFrom (n + 1) ls
  end.

(** A name is defined when some environment file that was found binds it. *)
Definition definedAnywhere (ReadFile : string -> option string)
    (Join : string -> string -> string) (basePath : string) (artifacts : Artifacts)
    (name : string) : bool :=
  existsb
    (fun e => Found e
              && bool_decide (is_Some (parseEnvFile ReadFile (Join basePath (Path e)) !! name)))
    (EnvFiles artifacts).

(** The references of one compose file, line after line, left to right. *)
Definition composeFileOccurrences (ReadFile : string -> option string)
    (Join : string -> string -> string) (basePath : string) (composeFile : Artifact)
  : list occurrence :=
  if Found composeFile then
    match ReadFile (Join basePath (Path composeFile)) with
    | Some content =>
        flat_map
          (fun nl => map (mkOccurrence (Path composeFile) (fst nl))
                       (Regexp.FindAllStringSubmatch1 varRefRegex (snd nl)))
          (numberFrom 1 (Bufio.Lines content))
    | None => []
    end
  else [].

Definition composeOccurrences (ReadFile : string -> option string)
    (Join : string -> string -> string) (basePath : string) (artifacts : Artifacts)
  : list occurrence :=
  flat_map (composeFileOccurrences ReadFile Join basePath) (ComposeFiles artifacts).

(** The names the patterns extract from the text of one source file, in the
    order of the scan: line after line, pattern after pattern. *)
Definition sourceFileOccurrences (relPath content : string) : list occurrence :=
  flat_map
    (fun nl =>
       flat_map
         (fun pattern => map (mkOccurrence relPath (fst nl))
                           (Regexp.FindAllStringSubmatch1 pattern (snd nl)))
         patterns)
    (numberFrom 1 (Strings.Split content "010"%char)).

(** The names extracted from the tree: directories of the fixed list are not
    entered, files need a supported extension and a readable content. *)
Fixpoint sourceOccurrences (elems : list string) (e : Filepath.entry) : list occurrence :=
  match e with
  | Filepath.File name content =>
      if bool_decide (Filepath.Ext name ∈ extensions) then
        match content with
        | Some text => sourceFileOccurrences (Filepath.Rel elems) text
        | None => []
        end
      else []
  | Filepath.Dir name entries =>
      if skippedDir name then []
      else (fix below (es : list Filepath.entry) : list occurrence :=
              match es with
              | [] => []
              | e' :: es' => sourceOccurrences (elems ++ [Filepath.Name e']) e' ++ below es'
              end) entries
  end.

(** An occurrence is reported when its name is neither defined nor standard. *)
Definition reportable (ReadFile : string -> option string)
    (Join : string -> string -> string) (basePath : string) (artifacts : Artifacts)
    (o : occurrence) : bool :=
  negb (definedAnywhere ReadFile Join basePath artifacts (occVar o))
  && negb (isStandardVar (occVar o)).

(** The finding an occurrence is reported with. *)
Definition env001Of (o : occurrence) : Finding := env001 (occVar o) (occFile o) (occLine o).
Definition src001Of (o : occurrence) : Finding := src001 (occVar o) (occFile o) (occLine o).

(** Of the occurrences of each name, the first alone. *)
Fixpoint firstPerName (occs : list occurrence) : list occurrence :=
  match occs with
  | [] => []
  | o :: rest =>
      o :: List.filter (fun o' => negb (bool_decide (occVar o' = occVar o)))
             (firstPerName rest)
  end.

(** What the source scan does with one occurrence, given the names that are
    defined: the step of its innermost loop. *)
Definition scanStep (definedVars : gset string) (st : scanState) (o : occurrence)
  : scanState :=
  sourceMatch_step definedVars (occFile o) (occLine o - 1) st (occVar o).

(** The first occurrence of a name in a list of occurrences. *)
Definition firstOccurrence (name : string) (occs : list occurrence) : option occurrence :=
  find (fun o => bool_decide (occVar o = name)) occs.

(** The titles by which a finding names its variable. *)
Definition env001Title (name : string) : string :=
  "${" +:+ name +:+ "} referenced but not defined".
Definition src001Title (name : string) : string :=
  "Environment variable '" +:+ name +:+ "' used in source but not defined".

(** ** Env-example diff (4.3) and dependency graph (4.5) *)

(** The keys of the example that the primary file lacks. *)
Definition missingKeys (exampleVars envVars : gmap string string) : list string :=
  elements (dom exampleVars ∖ dom envVars).

Fixpoint evens {A : Type} (l : list A) : list A :=
  match l with
  | [] => []
  | [x] => [x]
  | x :: _ :: rest => x :: evens rest
  end.

(** The services a [depends_on] node refers to: the scalar items of a list,
    the keys of a mapping. *)
Definition references (node : Yaml.Node) : list string :=
  match Yaml.Kind_ node with
  | Yaml.SequenceNode =>
      omap (fun item => if bool_decide (Yaml.Kind_ item = Yaml.ScalarNode)
                        then Some (Yaml.Value item) else None)
        (Yaml.Content node)
  | Yaml.MappingNode => map Yaml.Value (evens (Yaml.Content node))
  | _ => []
  end.

(** The references to services that are not declared, each with the service
    that makes it. *)
Definition unknownReferences (services : gmap string Yaml.Node) : list (string * string) :=
  flat_map
    (fun svc => map (pair (fst svc))
                  (List.filter (fun dep => negb (bool_decide (is_Some (services !! dep))))
                     (references (snd svc))))
    (map_to_list services).

Definition composeFileUnknown (ReadFile : string -> option string)
    (Join : string -> string -> string)
    (Unmarshal : string -> option (gmap string Yaml.Node))
    (basePath : string) (composeFile : Artifact) : list Finding :=
  if Found composeFile then
    match ReadFile (Join basePath (Path composeFile)) with
    | Some content =>
        match Unmarshal content with
        | Some services =>
            map (fun r => cmp001 (fst r) (snd r) (Path composeFile))
              (unknownReferences services)
        | None => []
        end
    | None => []
    end
  else [].

(** ** Filters (4.10) *)

Definition notIgnored (cfg : Config.Config) (f : Finding) : bool :=
  negb (bool_decide (Code f ∈ Config.IgnoreCodes cfg)).

Definition passesProfile (p : Profiles.Profile) (f : Finding) : bool :=
  (SeverityLevel (Profiles.MinSeverity p) <=? SeverityLevel (Severity_ f))
  && (negb (bool_decide (Severity_ f = SeverityInfo)) || Profiles.IncludeInfo p)
  && (bool_decide (Profiles.EnabledChecks p = [])
      || bool_decide (Code f ∈ Profiles.EnabledChecks p))
  && negb (bool_decide (Code f ∈ Profiles.DisabledChecks p)).

Definition hasSeverity (s : Severity) (f : Finding) : bool :=
  bool_decide (Severity_ f = s).

End Spec.

(* ===================================================================== *)
(** * Sample projects *)
(* ===================================================================== *)

Module Demo.
Import Models.

Definition nl : string := String "010" EmptyString.
Definition dq : string := String "034" EmptyString.

(** [filepath.Join] on a clean base path and a relative name. *)
Definition join (basePath name : string) : string := basePath +:+ "/" +:+ name.

(** A project directory: an environment file with a value quoted twice and a
    value that is a lone quote, an example file, and two compose files. *)
Definition envText : string :=
  "# settings" +:+ nl
  +:+ "A=1" +:+ nl
  +:+ "K=" +:+ dq +:+ dq +:+ "v" +:+ dq +:+ dq +:+ nl
  +:+ "SEP=" +:+ dq +:+ "'" +:+ dq +:+ nl
  +:+ "A=2" +:+ nl.

(** The samples of the specification: a key bound twice, a value in double
    quotes and a value in single quotes. *)
Definition quotedText : string :=
  "A=1" +:+ nl +:+ "A=2" +:+ nl
  +:+ "KEY=" +:+ dq +:+ "v" +:+ dq +:+ nl
  +:+ "  OTHER = 'v'  " +:+ nl
  +:+ "not a binding" +:+ nl.

Definition exampleText : string := "A=" +:+ nl +:+ "B=" +:+ nl.

Definition composeText : string :=
  "services:" +:+ nl
  +:+ "  web:" +:+ nl
  +:+ "    image: ${IMAGE:-nginx}" +:+ nl
  +:+ "    environment:" +:+ nl
  +:+ "      - URL=${DATABASE_URL}" +:+ nl
  +:+ "      - HOME=${HOME} A=${A} AGAIN=${DATABASE_URL}" +:+ nl
  +:+ "    depends_on: [cache]" +:+ nl.

Definition composeMapText : string :=
  "services:" +:+ nl
  +:+ "  web:" +:+ nl
  +:+ "    depends_on:" +:+ nl
  +:+ "      cache:" +:+ nl
  +:+ "        condition: service_healthy" +:+ nl.

Definition files (path : string) : option string :=
  if string_dec path "/app/.env" then Some envText
  else if string_dec path "/app/.env.local" then Some quotedText
  else if string_dec path "/app/.env.development" then Some envText
  else if string_dec path "/app/.env.example" then Some exampleText
  else if string_dec path "/app/compose.yaml" then Some composeText
  else if string_dec path "/app/compose.yml" then Some composeMapText
  else None.

(** What [yaml.Unmarshal] makes of the two compose files. *)
Definition unmarshal (text : string) : option (gmap string Yaml.Node) :=
  if string_dec text composeText
  then Some {[ "web" := Yaml.sequence [Yaml.scalar "cache"] ]}
  else if string_dec text composeMapText
  then Some {[ "web" :=
                 Yaml.mapping
                   [(Yaml.scalar "cache",
                     Yaml.mapping [(Yaml.scalar "condition",
                                    Yaml.scalar "service_healthy")])] ]}
  else None.

(** A stand-in for [regexp.Compile] on the patterns of the samples: a caret
    followed by plain text matches the names with that prefix; an opening
    parenthesis that is never closed does not compile. *)
Definition compile (pattern : string) : option (string -> bool) :=
  match pattern with
  | String "^"%char prefix =>
      if Strings.ContainsByte prefix "("%char then None
      else Some (fun name => Strings.HasPrefix name prefix)
  | _ => None
  end.

Definition artifacts : Artifacts :=
  {| ComposeFiles := [mkArtifact "compose.yaml" true];
     EnvFiles := [mkArtifact ".env" true; mkArtifact ".env.local" false;
                  mkArtifact ".env.development" false; mkArtifact ".env.dev" false];
     EnvExamples := [mkArtifact ".env.example" true] |}.

(** The same project with no environment file at all. *)
Definition artifactsNoEnv : Artifacts :=
  {| ComposeFiles := [mkArtifact "compose.yaml" true];
     EnvFiles := [mkArtifact ".env" false; mkArtifact ".env.local" false;
                  mkArtifact ".env.development" false; mkArtifact ".env.dev" false];
     EnvExamples := [mkArtifact ".env.example" true] |}.

(** The same project with [.env.development] as its only environment file. *)
Definition artifactsDevOnly : Artifacts :=
  {| ComposeFiles := [mkArtifact "compose.yaml" true];
     EnvFiles := [mkArtifact ".env" false; mkArtifact ".env.local" false;
                  mkArtifact ".env.development" true; mkArtifact ".env.dev" false];
     EnvExamples := [mkArtifact ".env.example" true] |}.

(** The same project with the compose file in the mapping form. *)
Definition artifactsMapForm : Artifacts :=
  {| ComposeFiles := [mkArtifact "compose.yml" true];
     EnvFiles := [mkArtifact ".env" true];
     EnvExamples := [] |}.

(** The source tree below [/app]. *)
Definition tree : Filepath.entry :=
  Filepath.Dir "app"
    [ Filepath.File "main.go"
        (Some ("package main" +:+ nl
               +:+ "var port = os.Getenv(" +:+ dq +:+ "PORT" +:+ dq +:+ ")" +:+ nl
               +:+ "var home = os.Getenv(" +:+ dq +:+ "HOME" +:+ dq +:+ ")" +:+ nl));
      Filepath.Dir "node_modules"
        [ Filepath.File "dep.js" (Some "process.env.HIDDEN") ];
      Filepath.Dir "web"
        [ Filepath.File "app.js"
            (Some ("const a = process.env.A;" +:+ nl
                   +:+ "const p = process.env.PORT || process.env.API_KEY;" +:+ nl));
          Filepath.File "notes.txt" (Some "process.env.NOTE") ] ].

Definition rules : list Config.CustomRule :=
  [ Config.mkCustomRule "DB_REQUIRED" "^DATABASE_" true
      "Database configuration variables must be defined" "blocking";
    Config.mkCustomRule "A_REQUIRED" "^A" true "A must be defined" "info";
    Config.mkCustomRule "BROKEN" "^(" true "does not compile" "blocking";
    Config.mkCustomRule "OPTIONAL" "^REDIS_" false "never evaluated" "blocking";
    Config.mkCustomRule "LOUD" "^SMTP_" true "severity not recognized" "BLOCKING" ].

Definition config : Config.Config :=
  {| Config.CustomRules := rules; Config.IgnoreCodes := ["HINT001"];
     Config.RequiredEnvVars := [] |}.

Definition sixFindings : list Finding :=
  [ NewFinding "LANG001" SeverityInfo "Detected go project";
    NewFinding "ENV003" SeverityWarning ".env.example exists but .env is missing";
    NewFinding "ENV001" SeverityBlocking "${DATABASE_URL} referenced but not defined";
    NewFinding "HINT001" SeverityInfo "Likely entrypoint: go run (from README)";
    NewFinding "SRC001" SeverityWarning
      "Environment variable 'PORT' used in source but not defined";
    NewFinding "LANG001" SeverityInfo "Detected go project with go mod" ].

End Demo.


(* ===================================================================== *)
(** * Package [models]: the report *)
(* ===================================================================== *)

Module Report.

Record ReportSummary := mkReportSummary {
  TotalFindings : Z;
  BlockingCount : Z;
  WarningCount : Z;
  InfoCount : Z
}.

Record Report := mkReport {
  Path : string;
  Artifacts : Models.Artifacts;
  Findings : list Models.Finding;
  Summary : ReportSummary
}.

(** One turn of the loop of [CalculateSummary]. *)
Definition CalculateSummary_step (s : ReportSummary) (f : Models.Finding) : ReportSummary :=
  let total := TotalFindings s + 1 in
  match Models.Severity_ f with
  | Models.SeverityBlocking =>
      {| TotalFindings := total; BlockingCount := BlockingCount s + 1;
         WarningCount := WarningCount s; InfoCount := InfoCount s |}
  | Models.SeverityWarning =>
      {| TotalFindings := total; BlockingCount := BlockingCount s;
         WarningCount := WarningCount s + 1; InfoCount := InfoCount s |}
  | Models.SeverityInfo =>
      {| TotalFindings := total; BlockingCount := BlockingCount s;
         WarningCount := WarningCount s; InfoCount := InfoCount s + 1 |}
  end.

(** [CalculateSummary] overwrites [r.Summary]; the report with the new
    summary is returned. *)
Definition CalculateSummary (r : Report) : Report :=
  {| Path := Path r; Artifacts := Artifacts r; Findings := Findings r;
     Summary := fold_left CalculateSummary_step (Findings r) (mkReportSummary 0 0 0 0) |}.

Definition HasBlocking (r : Report) : bool := BlockingCount (Summary r) >? 0.

Definition FilterBySeverity (r : Report) (minSeverity : Models.Severity)
  : list Models.Finding :=
  let minLevel := Models.SeverityLevel minSeverity in
  fold_left
    (fun result f =>
       if Models.SeverityLevel (Models.Severity_ f) >=? minLevel
       then result ++ [f] else result)
    (Findings r) [].

End Report.

(* ===================================================================== *)
(** * Package [profiles]: the registry *)
(* ===================================================================== *)

Module Registry.

(** [BuiltinProfiles], the map [Profiles.Get] looks a name up in. *)
Definition BuiltinProfiles : gmap string Profiles.Profile :=
  list_to_map
    [ ("default", Profiles.default); ("strict", Profiles.strict); ("ci", Profiles.ci);
      ("minimal", Profiles.minimal); ("full", Profiles.full) ].

(** [List]: the names, in the order the map is ranged over. *)
Definition List : list string :=
  fold_left (fun names kv => names ++ [fst kv]) (map_to_list BuiltinProfiles) [].

End Registry.

(* ===================================================================== *)
(** * Package [tools]: the version requirements *)
(* ===================================================================== *)

Module VersionCheck.

Record ToolInfo := mkToolInfo {
  Name : string;
  Version : string;
  Path : string;
  Available : bool;
  Error : string
}.

(** The zero value, which a map lookup gives for a tool that is not a key. *)
Definition zeroToolInfo : ToolInfo :=
  mkToolInfo EmptyString EmptyString EmptyString false EmptyString.

Record VersionCheck := mkVersionCheck {
  Tool : string;
  Current : string;
  Required : string;
  Satisfied : bool;
  CheckAvailable : bool;
  CheckError : string
}.

(** One turn of the loop of [CheckVersions]; [tools] is what [DetectTools]
    returned. *)
Definition CheckVersions_step (tools : gmap string ToolInfo)
    (results : list VersionCheck) (req : string * string) : list VersionCheck :=
  let '(tool, minVersion) := req in
  if bool_decide (minVersion = EmptyString) then results
  else
    let '(info, exists_) :=
      match tools !! tool with
      | Some info => (info, true)
      | None => (zeroToolInfo, false)
      end in
    if negb exists_ || negb (Available info) then
      results ++
        [ {| Tool := tool; Current := EmptyString; Required := minVersion;
             Satisfied := false; CheckAvailable := false;
             CheckError := if negb (bool_decide (Error info = EmptyString))
                           then Error info else "tool not found" |} ]
    else
      results ++
        [ {| Tool := tool; Current := Version info; Required := minVersion;
             Satisfied := Tools.CompareVersions (Version info) minVersion >=? 0;
             CheckAvailable := true; CheckError := EmptyString |} ].

Definition CheckVersions (tools : gmap string ToolInfo) (requirements : gmap string string)
  : list VersionCheck :=
  fold_left (CheckVersions_step tools) (map_to_list requirements) [].

(** [config.ToolVersions]. *)
Record ToolVersions := mkToolVersions {
  Docker : string;
  DockerCompose : string;
  Go : string;
  Node : string;
  Python : string
}.

Definition tool001 (check : VersionCheck) : Models.Finding :=
  Models.WithFix
    (Models.WithDetails
       (Models.NewFinding "TOOL001" Models.SeverityBlocking
          ("Required tool '" +:+ Tool check +:+ "' not found"))
       ("Tool " +:+ Tool check +:+ " is required but not installed or not in PATH"))
    ("Install " +:+ Tool check +:+ " version " +:+ Required check +:+ " or higher").

Definition tool002 (check : VersionCheck) : Models.Finding :=
  Models.WithFix
    (Models.WithDetails
       (Models.NewFinding "TOOL002" Models.SeverityWarning
          ("Tool '" +:+ Tool check +:+ "' version too old: " +:+ Current check
             +:+ " < " +:+ Required check))
       ("Tool " +:+ Tool check +:+ " version " +:+ Current check
          +:+ " is installed but minimum " +:+ Required check +:+ " is required"))
    ("Upgrade " +:+ Tool check +:+ " to version " +:+ Required check +:+ " or higher").

(** The map [requirements] that [checkToolVersions] fills. *)
Definition requirementsOf (versions : ToolVersions) : gmap string string :=
  let put (key value : string) (requirements : gmap string string) :=
    if negb (bool_decide (value = EmptyString)) then <[key := value]> requirements
    else requirements in
  put "python" (Python versions)
    (put "node" (Node versions)
       (put "go" (Go versions)
          (put "docker-compose" (DockerCompose versions)
             (put "docker" (Docker versions) ∅)))).

Definition checkToolVersions_step (findings : list Models.Finding) (check : VersionCheck)
  : list Models.Finding :=
  if negb (CheckAvailable check) then findings ++ [tool001 check]
  else if negb (Satisfied check) then findings ++ [tool002 check]
  else findings.

Definition checkToolVersions (tools : gmap string ToolInfo) (versions : ToolVersions)
  : list Models.Finding :=
  fold_left checkToolVersions_step (CheckVersions tools (requirementsOf versions)) [].

End VersionCheck.

(* ===================================================================== *)
(** * Package [strings], continued *)
(* ===================================================================== *)

Module StringsMore.

(** [strings.Contains]: [substr] begins at some position of [s]. *)
Fixpoint Contains (s substr : string) : bool :=
  Strings.HasPrefix s substr
  || match s with
     | EmptyString => false
     | String _ s' => Contains s' substr
     end.

End StringsMore.

(* ===================================================================== *)
(** * Package [checker]: the other checks and [CheckWithOptions] *)
(* ===================================================================== *)

Module Scan.
Import Models.

(** The fields of [models.Artifacts] that the record [Models.Artifacts]
    leaves out. *)
Record Detected := mkDetected {
  Manifests : list Artifact;
  Readme : option Artifact;
  Makefile : option Artifact;
  DetectedLang : string;
  PackageManager : string
}.

(** [config.Config] with the field [ToolVersions], a pointer, beside the
    fields of [Config.Config]. *)
Record Settings := mkSettings {
  Base : Config.Config;
  ToolVersions : option VersionCheck.ToolVersions
}.

(** [config.DefaultConfig]: no rules, nothing ignored, nothing required, no
    tool versions. *)
Definition DefaultConfig : Settings :=
  {| Base := Config.mkConfig [] [] []; ToolVersions := None |}.

(** [checker.Options]. *)
Record Options := mkOptions {
  EnableSourceScanning : bool;
  Config_ : option Settings;
  CheckToolVersions : bool
}.

(** What [yaml.Unmarshal] puts into the field [Build interface{}] of a
    service: nothing, a string, a mapping with string keys (of whose values
    only the strings matter), or anything else. *)
Inductive Value := VString (s : string) | VOther.
Inductive Build :=
| BuildNil
| BuildString (s : string)
| BuildMap (m : gmap string Value)
| BuildOther.

Definition lang001 (details : string) : Finding :=
  NewFinding "LANG001" SeverityInfo details.

Definition hint001 (hint : string) : Finding :=
  NewFinding "HINT001" SeverityInfo ("Likely entrypoint: " +:+ hint +:+ " (from README)").

Definition req001 (required : string) : Finding :=
  WithFix
    (WithDetails
       (NewFinding "REQ001" SeverityBlocking
          ("Required variable '" +:+ required +:+ "' not defined"))
       ("Variable " +:+ required
          +:+ " is configured as required in .devcheck.yaml but is not defined"))
    ("Add " +:+ required +:+ "=<value> to .env file").

Definition build001 (svcName dockerfile context joined composePath : string) : Finding :=
  WithFix
    (WithFile
       (WithDetails
          (NewFinding "BUILD001" SeverityBlocking
             ("Dockerfile not found for service " +:+ svcName))
          ("Service " +:+ svcName +:+ " expects " +:+ dockerfile +:+ " at " +:+ joined
             +:+ " but it doesn't exist"))
       composePath 0)
    ("Create " +:+ dockerfile +:+ " in " +:+ context +:+ " or update build.context").

Definition build002 (svcName context composePath : string) : Finding :=
  WithFix
    (WithFile
       (WithDetails
          (NewFinding "BUILD002" SeverityBlocking
             ("Build context directory not found for service " +:+ svcName))
          ("Service " +:+ svcName +:+ " references build context " +:+ context
             +:+ " which doesn't exist"))
       composePath 0)
    ("Create directory " +:+ context +:+ " or update build.context").

(** The table of [checkReadmeHints]: pattern and hint. *)
Definition hintPatterns : list (string * string) :=
  [ ("docker compose up", "docker compose up");
    ("docker-compose up", "docker-compose up");
    ("pnpm install", "pnpm install");
    ("pnpm dev", "pnpm dev");
    ("npm install", "npm install");
    ("npm run dev", "npm run dev");
    ("yarn install", "yarn install");
    ("yarn dev", "yarn dev");
    ("go run", "go run");
    ("make run", "make run");
    ("make dev", "make dev") ].

(** The loop over the table, left at the first pattern the text contains. *)
Fixpoint firstHint (text : string) (patterns : list (string * string))
    (findings : list Finding) : list Finding :=
  match patterns with
  | [] => findings
  | p :: rest =>
      if StringsMore.Contains text (fst p) then findings ++ [hint001 (snd p)]
      else firstHint text rest findings
  end.

(** [addLanguageInfo] *)
Definition addLanguageInfo (detected : Detected) : list Finding :=
  if negb (bool_decide (DetectedLang detected = EmptyString)) then
    let details := "Detected " +:+ DetectedLang detected +:+ " project" in
    let details :=
      if negb (bool_decide (PackageManager detected = EmptyString))
      then details +:+ " with " +:+ PackageManager detected
      else details in
    [lang001 details]
  else [].

(** The context and the dockerfile of a [build] value, by the type switch of
    [checkBuildContexts]. *)
Definition buildContext (build : Build) : string * string :=
  match build with
  | BuildString s => (s, "Dockerfile")
  | BuildMap m =>
      (match m !! "context" with Some (VString c) => c | _ => EmptyString end,
       match m !! "dockerfile" with Some (VString df) => df | _ => "Dockerfile" end)
  | _ => (EmptyString, "Dockerfile")
  end.

Section Checks.

Variable ReadFile : string -> option string.
Variable Join : string -> string -> string.
(** [filepath.Join] of three elements. *)
Variable Join3 : string -> string -> string -> string.
Variable Unmarshal : string -> option (gmap string Yaml.Node).
(** [yaml.Unmarshal] into the struct whose services have the field [Build]. *)
Variable UnmarshalBuild : string -> option (gmap string Build).
Variable Compile : string -> option (string -> bool).
(** [strings.ToLower]. *)
Variable ToLower : string -> string.
(** Whether [os.Stat] fails on a path with an error that [os.IsNotExist]
    accepts. *)
Variable NotExist : string -> bool.
(** What [tools.DetectTools] returns. *)
Variable DetectTools : gmap string VersionCheck.ToolInfo.

(** ** [checkReadmeHints] *)

Definition checkReadmeHints (basePath : string) (detected : Detected) : list Finding :=
  match Readme detected with
  | None => []
  | Some readme =>
      if negb (Found readme) then []
      else match ReadFile (Join basePath (Path readme)) with
           | None => []
           | Some content =>
               let text := ToLower content in
               firstHint text hintPatterns []
           end
  end.

(** ** [checkBuildContexts] *)

Definition buildService_step (basePath composePath : string)
    (findings : list Finding) (svc : string * Build) : list Finding :=
  let '(svcName, build) := svc in
  match build with
  | BuildNil => findings
  | _ =>
      let '(context, dockerfile) := buildContext build in
      if bool_decide (context = EmptyString) then findings
      else
        let findings :=
          if NotExist (Join3 basePath context dockerfile)
          then findings ++ [build001 svcName dockerfile context (Join context dockerfile)
                              composePath]
          else findings in
        if NotExist (Join basePath context)
        then findings ++ [build002 svcName context composePath]
        else findings
  end.

Definition buildFile_step (basePath : string) (findings : list Finding)
    (composeFile : Artifact) : list Finding :=
  if negb (Found composeFile) then findings
  else match ReadFile (Join basePath (Path composeFile)) with
       | None => findings
       | Some content =>
           match UnmarshalBuild content with
           | None => findings
           | Some services =>
               fold_left (buildService_step basePath (Path composeFile))
                 (map_to_list services) findings
           end
       end.

Definition checkBuildContexts (basePath : string) (artifacts : Artifacts) : list Finding :=
  fold_left (buildFile_step basePath) (ComposeFiles artifacts) [].

(** ** [checkRequiredEnvVars] *)

Definition checkRequiredEnvVars (basePath : string) (artifacts : Artifacts)
    (cfg : Config.Config) : list Finding :=
  if (length (Config.RequiredEnvVars cfg) =? 0)%nat then []
  else
    let definedVars := Checker.collectDefinedVars ReadFile Join basePath artifacts in
    fold_left
      (fun findings required =>
         if negb (bool_decide (required ∈ definedVars))
         then findings ++ [req001 required] else findings)
      (Config.RequiredEnvVars cfg) [].

(** ** [CheckWithOptions] and [Check] *)

Definition CheckWithOptions (basePath : string) (tree : Filepath.entry)
    (artifacts : Artifacts) (detected : Detected) (opts : Options) : list Finding :=
  let findings := [] in
  let findings := findings ++ Checker.checkComposeEnvRefs ReadFile Join basePath artifacts in
  let findings := findings ++ Checker.checkEnvExample ReadFile Join basePath artifacts in
  let findings :=
    findings ++ Checker.checkComposeDependsOn ReadFile Join Unmarshal basePath artifacts in
  let findings := findings ++ checkBuildContexts basePath artifacts in
  let findings := findings ++ addLanguageInfo detected in
  let findings := findings ++ checkReadmeHints basePath detected in
  let findings :=
    if EnableSourceScanning opts
    then findings ++ Checker.checkSourceCodeEnvRefs ReadFile Join basePath tree artifacts
    else findings in
  let findings :=
    match CheckToolVersions opts, Config_ opts with
    | true, Some cfg =>
        match ToolVersions cfg with
        | Some versions => findings ++ VersionCheck.checkToolVersions DetectTools versions
        | None => findings
        end
    | _, _ => findings
    end in
  let findings :=
    match Config_ opts with
    | Some cfg =>
        let findings :=
          findings ++ Checker.checkCustomRules ReadFile Join Compile basePath artifacts
                        (Base cfg) in
        findings ++ checkRequiredEnvVars basePath artifacts (Base cfg)
    | None => findings
    end in
  match Config_ opts with
  | Some cfg => Checker.filterIgnoredFindings findings (Base cfg)
  | None => findings
  end.

Definition Check (basePath : string) (tree : Filepath.entry)
    (artifacts : Artifacts) (detected : Detected) : list Finding :=
  CheckWithOptions basePath tree artifacts detected (mkOptions false None false).

(** ** The end of [runScan] *)



End Checks.

End Scan.

(* ===================================================================== *)
(** * Package [detector] *)
(* ===================================================================== *)

Module Detector.
Import Models.

Definition composeCandidates : list string :=
  [ "compose.yaml"; "compose.yml"; "docker-compose.yaml"; "docker-compose.yml";
    "docker-compose.override.yaml"; "docker-compose.override.yml" ].

Definition envCandidates : list string :=
  [ ".env"; ".env.local"; ".env.development"; ".env.dev" ].

Definition exampleCandidates : list string :=
  [ ".env.example"; ".env.sample"; ".env.template"; "example.env" ].

Definition readmeCandidates : list string :=
  [ "README.md"; "README.MD"; "readme.md"; "README.txt"; "README" ].

Definition makefileCandidates : list string := [ "Makefile"; "makefile"; "GNUmakefile" ].

(** A row of the table of [detectManifests]; the details of a row are not
    read by any check and are left out. *)
Record manifest := mkManifest {
  file : string;
  lang : string;
  pkgMgr : string
}.

Definition manifests : list manifest :=
  [ mkManifest "package.json" "nodejs" "";
    mkManifest "pnpm-lock.yaml" "nodejs" "pnpm";
    mkManifest "yarn.lock" "nodejs" "yarn";
    mkManifest "package-lock.json" "nodejs" "npm";
    mkManifest "go.mod" "go" "go mod";
    mkManifest "pyproject.toml" "python" "";
    mkManifest "requirements.txt" "python" "pip";
    mkManifest "Pipfile" "python" "pipenv";
    mkManifest "poetry.lock" "python" "poetry";
    mkManifest "Cargo.toml" "rust" "cargo";
    mkManifest "pom.xml" "java" "maven";
    mkManifest "build.gradle" "java" "gradle";
    mkManifest "build.gradle.kts" "java" "gradle";
    mkManifest "*.csproj" "csharp" "dotnet";
    mkManifest "*.sln" "csharp" "dotnet" ].

Section Detect.

(** [fileExists]: [os.Stat] succeeds on the path and it is no directory. *)
Variable fileExists : string -> bool.
Variable Join : string -> string -> string.
(** [filepath.IsAbs]. *)
Variable IsAbs : string -> bool.
(** [filepath.Glob], its error dropped as the caller does. *)
Variable Glob : string -> list string.
(** [filepath.Base]. *)
Variable BaseName : string -> string.

(** [detectComposeFiles]: the new value of [artifacts.ComposeFiles]. *)
Definition detectComposeFiles (basePath override : string) (composeFiles : list Artifact)
  : list Artifact :=
  let '(composeFiles, returned) :=
    if negb (bool_decide (override = EmptyString)) then
      let fullPath := if negb (IsAbs override) then Join basePath override else override in
      let found := fileExists fullPath in
      (composeFiles ++ [mkArtifact override found], found)
    else (composeFiles, false) in
  if returned then composeFiles
  else
    fold_left
      (fun composeFiles name =>
         if fileExists (Join basePath name)
         then composeFiles ++ [mkArtifact name true] else composeFiles)
      composeCandidates composeFiles.

(** [detectEnvFiles]: the new values of [artifacts.EnvFiles] and
    [artifacts.EnvExamples]. *)
Definition detectEnvFiles (basePath : string) (overrides : list string)
    (envFiles envExamples : list Artifact) : list Artifact * list Artifact :=
  if (0 <? length overrides)%nat then
    fold_left
      (fun st override =>
         let fullPath := if negb (IsAbs override) then Join basePath override else override in
         let found := fileExists fullPath in
         if StringsMore.Contains override "example"
         then (fst st, snd st ++ [mkArtifact override found])
         else (fst st ++ [mkArtifact override found], snd st))
      overrides (envFiles, envExamples)
  else
    let envFiles :=
      fold_left
        (fun envFiles name => envFiles ++ [mkArtifact name (fileExists (Join basePath name))])
        envCandidates envFiles in
    let envExamples :=
      fold_left
        (fun envExamples name =>
           if fileExists (Join basePath name)
           then envExamples ++ [mkArtifact name true] else envExamples)
        exampleCandidates envExamples in
    (envFiles, envExamples).

(** The state of the loop of [detectManifests]: the manifests found, the
    detected language and the package manager. *)
Definition manifestState : Type := list Artifact * string * string.

Definition detectManifests_step (basePath : string) (st : manifestState) (m : manifest)
  : manifestState :=
  let '(found_, detectedLang, packageManager) := st in
  let '(found, actualPath) :=
    if StringsMore.Contains (file m) "*" then
      let matches := Glob (Join basePath (file m)) in
      match matches with
      | first :: _ => (true, BaseName first)
      | [] => (false, EmptyString)
      end
    else (fileExists (Join basePath (file m)), file m) in
  if found then
    (found_ ++ [mkArtifact actualPath true],
     if bool_decide (detectedLang = EmptyString) then lang m else detectedLang,
     if negb (bool_decide (pkgMgr m = EmptyString)) && bool_decide (packageManager = EmptyString)
     then pkgMgr m else packageManager)
  else st.

Definition detectManifests (basePath : string) (st : manifestState) : manifestState :=
  fold_left (detectManifests_step basePath) manifests st.

(** [detectReadme] and [detectMakefile]: the first candidate that exists. *)
Fixpoint firstExisting (basePath : string) (candidates : list string) : option Artifact :=
  match candidates with
  | [] => None
  | name :: rest =>
      if fileExists (Join basePath name) then Some (mkArtifact name true)
      else firstExisting basePath rest
  end.

Definition detectReadme (basePath : string) : option Artifact :=
  firstExisting basePath readmeCandidates.

Definition detectMakefile (basePath : string) : option Artifact :=
  firstExisting basePath makefileCandidates.

(** [Detect], from the empty [NewArtifacts()]. *)
Definition Detect (basePath composeOverride : string) (envOverrides : list string)
  : Artifacts * Scan.Detected :=
  let composeFiles := detectComposeFiles basePath composeOverride [] in
  let '(envFiles, envExamples) := detectEnvFiles basePath envOverrides [] [] in
  let '(found_, detectedLang, packageManager) :=
    detectManifests basePath ([], EmptyString, EmptyString) in
  ({| ComposeFiles := composeFiles; EnvFiles := envFiles; EnvExamples := envExamples |},
   {| Scan.Manifests := found_; Scan.Readme := detectReadme basePath;
      Scan.Makefile := detectMakefile basePath; Scan.DetectedLang := detectedLang;
      Scan.PackageManager := packageManager |}).

End Detect.

End Detector.

(* ===================================================================== *)
(** * Words for the properties of the report and the scan *)
(* ===================================================================== *)

Module Props.
Import Models.

(** The number of findings of a severity. *)
Definition countSeverity (s : Severity) (l : list Finding) : Z :=
  Z.of_nat (length (List.filter (Spec.hasSeverity s) l)).

(** A finding is at or above a severity. *)
Definition atLeast (minSeverity : Severity) (f : Finding) : bool :=
  SeverityLevel minSeverity <=? SeverityLevel (Severity_ f).

(** A text without digits and without dots, such as the [v] or [go] in
    front of a version number. *)
Fixpoint noDigitNoDot (p : string) : bool :=
  match p with
  | EmptyString => true
  | String c p' =>
      negb (Tools.isDigit c) && negb (bool_decide (c = "."%char)) && noDigitNoDot p'
  end.

End Props.

Module ScanProps.
Import Models.

(** What a configured minimum version of a tool leads to, given what the
    probe found: nothing for an empty minimum; [TOOL001] when the tool is
    unknown or unavailable; [TOOL002] when its version compares below the
    minimum. *)
Definition toolOutcome (tools : gmap string VersionCheck.ToolInfo) (req : string * string)
  : list Finding :=
  if bool_decide (snd req = EmptyString) then []
  else
    match tools !! fst req with
    | Some info =>
        if VersionCheck.Available info then
          if Tools.CompareVersions (VersionCheck.Version info) (snd req) <? 0
          then [VersionCheck.tool002
                  (VersionCheck.mkVersionCheck (fst req) (VersionCheck.Version info)
                     (snd req) false true EmptyString)]
          else []
        else [VersionCheck.tool001
                (VersionCheck.mkVersionCheck (fst req) EmptyString (snd req) false false
                   EmptyString)]
    | None =>
        [VersionCheck.tool001
           (VersionCheck.mkVersionCheck (fst req) EmptyString (snd req) false false
              EmptyString)]
    end.

(** The five tools a configuration can set a minimum for. *)
Definition configuredTools (versions : VersionCheck.ToolVersions) : list (string * string) :=
  [ ("docker", VersionCheck.Docker versions);
    ("docker-compose", VersionCheck.DockerCompose versions);
    ("go", VersionCheck.Go versions);
    ("node", VersionCheck.Node versions);
    ("python", VersionCheck.Python versions) ].

(** What the [build] value of a service leads to. *)
Definition buildOutcome (NotExist : string -> bool) (Join : string -> string -> string)
    (Join3 : string -> string -> string -> string) (basePath composePath : string)
    (svc : string * Scan.Build) : list Finding :=
  let '(context, dockerfile) := Scan.buildContext (snd svc) in
  if bool_decide (context = EmptyString) then []
  else
    (if NotExist (Join3 basePath context dockerfile)
     then [Scan.build001 (fst svc) dockerfile context (Join context dockerfile) composePath]
     else [])
    ++ (if NotExist (Join basePath context)
        then [Scan.build002 (fst svc) context composePath] else []).

Definition buildFileOutcome (ReadFile : string -> option string)
    (UnmarshalBuild : string -> option (gmap string Scan.Build))
    (NotExist : string -> bool) (Join : string -> string -> string)
    (Join3 : string -> string -> string -> string) (basePath : string)
    (composeFile : Artifact) : list Finding :=
  if Found composeFile then
    match ReadFile (Join basePath (Path composeFile)) with
    | Some content =>
        match UnmarshalBuild content with
        | Some services =>
            flat_map (buildOutcome NotExist Join Join3 basePath (Path composeFile))
              (map_to_list services)
        | None => []
        end
    | None => []
    end
  else [].

(** The fixed codes and their severities. *)
Definition taxonomy : list (string * Severity) :=
  [ ("ENV001", SeverityBlocking); ("ENV002", SeverityWarning); ("ENV003", SeverityWarning);
    ("CMP001", SeverityBlocking); ("BUILD001", SeverityBlocking);
    ("BUILD002", SeverityBlocking); ("LANG001", SeverityInfo); ("HINT001", SeverityInfo);
    ("SRC001", SeverityWarning); ("TOOL001", SeverityBlocking);
    ("TOOL002", SeverityWarning); ("REQ001", SeverityBlocking) ].

(** The rules of the configuration of a scan, if it has one. *)
Definition rulesOf (opts : Scan.Options) : list Config.CustomRule :=
  match Scan.Config_ opts with
  | Some cfg => Config.CustomRules (Scan.Base cfg)
  | None => []
  end.

(** A finding has a fixed code with its severity, or the code and the
    severity of one of the custom rules. *)
Definition wellCoded (rules : list Config.CustomRule) (f : Finding) : Prop :=
  In (Code f, Severity_ f) taxonomy
  \/ exists rule, In rule rules
                  /\ Code f = "CUSTOM-" +:+ Config.ID rule
                  /\ Severity_ f = Checker.ruleSeverity rule.

(** The codes of the checks that run without options. *)
Definition basicCodes : list string :=
  [ "ENV001"; "ENV002"; "ENV003"; "CMP001"; "BUILD001"; "BUILD002"; "LANG001"; "HINT001" ].

End ScanProps.

(* ===================================================================== *)
(** * A second sample project *)
(* ===================================================================== *)

Module Sample.
Import Models.

(** [strings.ToLower] on ASCII text. *)
Definition lowerByte (c : ascii) : ascii :=
  let n := nat_of_ascii c in
  if ((65 <=? n) && (n <=? 90))%nat then ascii_of_nat (n + 32) else c.

Fixpoint toLower (s : string) : string :=
  match s with
  | EmptyString => EmptyString
  | String c s' => String (lowerByte c) (toLower s')
  end.

Definition join3 (a b c : string) : string := Demo.join (Demo.join a b) c.

(** A README that names two of the commands of the table, the later one of
    the table first. *)
Definition readmeText : string :=
  "# App" +:+ Demo.nl
  +:+ "Run `NPM install`, then `Docker-Compose up`." +:+ Demo.nl.

Definition buildText : string :=
  "services:" +:+ Demo.nl
  +:+ "  api:" +:+ Demo.nl
  +:+ "    build: ./api" +:+ Demo.nl
  +:+ "  web:" +:+ Demo.nl
  +:+ "    build:" +:+ Demo.nl
  +:+ "      context: ./web" +:+ Demo.nl
  +:+ "      dockerfile: Dockerfile.dev" +:+ Demo.nl
  +:+ "  db:" +:+ Demo.nl
  +:+ "    image: postgres" +:+ Demo.nl.

Definition files (path : string) : option string :=
  if string_dec path "/app/README.md" then Some readmeText
  else if string_dec path "/app/docker-compose.yml" then Some buildText
  else Demo.files path.

Definition unmarshalBuild (text : string) : option (gmap string Scan.Build) :=
  if string_dec text buildText
  then Some {[ "api" := Scan.BuildString "./api";
               "web" := Scan.BuildMap {[ "context" := Scan.VString "./web";
                                         "dockerfile" := Scan.VString "Dockerfile.dev" ]};
               "db" := Scan.BuildNil ]}
  else if string_dec text Demo.composeText then Some {[ "web" := Scan.BuildNil ]}
  else None.

(** The directory [api] with its Dockerfile exists; the directory [web]
    exists without [Dockerfile.dev]. *)
Definition notExist (path : string) : bool :=
  negb (bool_decide (path ∈ ["/app/./api"; "/app/./api/Dockerfile"; "/app/./web"])).

Definition detected : Scan.Detected :=
  {| Scan.Manifests := [mkArtifact "go.mod" true];
     Scan.Readme := Some (mkArtifact "README.md" true);
     Scan.Makefile := None;
     Scan.DetectedLang := "go";
     Scan.PackageManager := "go mod" |}.

Definition artifacts : Artifacts :=
  {| ComposeFiles := [mkArtifact "docker-compose.yml" true; mkArtifact "compose.yaml" true];
     EnvFiles := [mkArtifact ".env" true; mkArtifact ".env.local" false;
                  mkArtifact ".env.development" false; mkArtifact ".env.dev" false];
     EnvExamples := [mkArtifact ".env.example" true] |}.

(** What the probe found: docker is installed, node is not. *)
Definition tools : gmap string VersionCheck.ToolInfo :=
  {[ "docker" := VersionCheck.mkToolInfo "docker" "24.0.7" "/usr/bin/docker" true "";
     "node" := VersionCheck.mkToolInfo "node" "" "" false "not found" ]}.

Definition versions : VersionCheck.ToolVersions :=
  {| VersionCheck.Docker := "25.0"; VersionCheck.DockerCompose := "";
     VersionCheck.Go := ""; VersionCheck.Node := "18"; VersionCheck.Python := "3.11" |}.

Definition config : Config.Config :=
  {| Config.CustomRules := Demo.rules; Config.IgnoreCodes := ["HINT001"; "ENV002"];
     Config.RequiredEnvVars := ["A"; "HOME"; "SECRET_KEY"; "HOME"] |}.

Definition settings : Scan.Settings :=
  {| Scan.Base := config; Scan.ToolVersions := Some versions |}.

Definition options : Scan.Options :=
  {| Scan.EnableSourceScanning := true; Scan.Config_ := Some settings;
     Scan.CheckToolVersions := true |}.

(** The findings of the full scan of the sample. *)
Definition findings : list Finding :=
  Scan.CheckWithOptions files Demo.join join3 Demo.unmarshal unmarshalBuild Demo.compile
    toLower notExist tools "/app" Demo.tree artifacts detected options.

End Sample.

Module DetectProps.
Import Models.

Section Words.
Variable fileExists : string -> bool.
Variable Join : string -> string -> string.
Variable IsAbs : string -> bool.
Variable Glob : string -> list string.
Variable BaseName : string -> string.
Variable basePath : string.

(** A standard name exists below the base path. *)
Definition present (name : string) : bool := fileExists (Join basePath name).

(** The artifact of a standard name that exists. *)
Definition foundArtifact (name : string) : Artifact := mkArtifact name true.

(** The artifact of a standard name, found or not. *)
Definition candidateArtifact (name : string) : Artifact := mkArtifact name (present name).

(** The artifact of an override: the path as it was given, found when the
    file exists at the path, taken below the base path unless absolute. *)
Definition overrideArtifact (override : string) : Artifact :=
  mkArtifact override
    (fileExists (if negb (IsAbs override) then Join basePath override else override)).

Definition isExample (override : string) : bool := StringsMore.Contains override "example".

Definition isPrimaryName (name : string) : bool :=
  bool_decide (name = ".env") || bool_decide (name = ".env.local").

(** A row of the manifest table is found, and the path it is listed with. *)
Definition manifestFound (m : Detector.manifest) : bool :=
  if StringsMore.Contains (Detector.file m) "*"
  then match Glob (Join basePath (Detector.file m)) with [] => false | _ :: _ => true end
  else present (Detector.file m).

Definition manifestArtifact (m : Detector.manifest) : Artifact :=
  if StringsMore.Contains (Detector.file m) "*"
  then mkArtifact
         (match Glob (Join basePath (Detector.file m)) with
          | first :: _ => BaseName first
          | [] => EmptyString
          end) true
  else mkArtifact (Detector.file m) true.

Definition namesManager (m : Detector.manifest) : bool :=
  negb (bool_decide (Detector.pkgMgr m = EmptyString)).

End Words.

End DetectProps.

(* ===================================================================== *)
(** * Properties *)
(* ===================================================================== *)

Import Models.

(** ** Loops that append *)

Lemma fold_left_emit {A B : Type} (step : list B -> A -> list B) (emit : A -> list B) :
  (forall acc x, step acc x = acc ++ emit x) ->
  forall l acc, fold_left step l acc = acc ++ flat_map emit l.
Proof.
  intros Hstep l. induction l as [|x l IH]; intros acc; simpl.
  - by rewrite app_nil_r.
  - rewrite IH, Hstep. by rewrite <- app_assoc.
Qed.

Lemma flat_map_singleton {A B : Type} (g : A -> B) (l : list A) :
  flat_map (fun x => [g x]) l = map g l.
Proof. induction l as [|x l IH]; [done|]. cbn. by rewrite IH. Qed.

Lemma fold_left_step_ext {A B : Type} (f g : B -> A -> B) :
  (forall acc x, f acc x = g acc x) ->
  forall l acc, fold_left f l acc = fold_left g l acc.
Proof.
  intros Hfg l. induction l as [|x l IH]; intros acc; simpl; [done|].
  by rewrite Hfg, IH.
Qed.

Lemma fold_left_keep {A : Type} (keep : A -> bool) (l : list A) :
  forall acc,
    fold_left (fun filtered f => if keep f then filtered ++ [f] else filtered) l acc
    = acc ++ List.filter keep l.
Proof.
  induction l as [|x l IH]; intros acc; simpl.
  - by rewrite app_nil_r.
  - rewrite IH. destruct (keep x); simpl; [by rewrite <- app_assoc | done].
Qed.

(** ** The filters *)

Lemma ShouldIgnoreCode_spec (codes : list string) (code : string) :
  Config.ShouldIgnoreCode codes code = bool_decide (code ∈ codes).
Proof.
  induction codes as [|c codes IH]; cbn [Config.ShouldIgnoreCode].
  - symmetry. apply bool_decide_eq_false_2, not_elem_of_nil.
  - destruct (string_dec c code) as [->|Hne].
    + symmetry. apply bool_decide_eq_true_2, elem_of_cons. by left.
    + rewrite IH. apply bool_decide_ext. rewrite elem_of_cons. intuition congruence.
Qed.

Lemma contains_spec (slice : list string) (s : string) :
  Profiles.contains slice s = bool_decide (s ∈ slice).
Proof.
  induction slice as [|c slice IH]; cbn [Profiles.contains].
  - symmetry. apply bool_decide_eq_false_2, not_elem_of_nil.
  - destruct (string_dec c s) as [->|Hne].
    + symmetry. apply bool_decide_eq_true_2, elem_of_cons. by left.
    + rewrite IH. apply bool_decide_ext. rewrite elem_of_cons. intuition congruence.
Qed.

Lemma filterIgnoredFindings_spec (cfg : Config.Config) (findings : list Finding) :
  Checker.filterIgnoredFindings findings cfg = List.filter (Spec.notIgnored cfg) findings.
Proof.
  unfold Checker.filterIgnoredFindings, Spec.notIgnored.
  destruct (Config.IgnoreCodes cfg) as [|c codes] eqn:Hc; cbn [length Nat.eqb].
  - symmetry. apply forallb_filter_id. apply forallb_forall. intros f _.
    rewrite bool_decide_eq_false_2; [done | apply not_elem_of_nil].
  - rewrite (fold_left_keep
               (fun f => negb (Config.ShouldIgnoreCode (c :: codes) (Code f)))).
    cbn [app]. apply filter_ext. intros f.
    by rewrite ShouldIgnoreCode_spec.
Qed.

Lemma FilterFindings_step_spec (p : Profiles.Profile) (filtered : list Finding) (f : Finding) :
  Profiles.FilterFindings_step p filtered f
  = if Spec.passesProfile p f then filtered ++ [f] else filtered.
Proof.
  unfold Profiles.FilterFindings_step, Spec.passesProfile.
  rewrite !contains_spec.
  destruct (Z.ltb_spec (SeverityLevel (Severity_ f)) (SeverityLevel (Profiles.MinSeverity p)))
    as [Hlt|Hge].
  - rewrite (proj2 (Z.leb_gt _ _)) by lia. done.
  - rewrite (proj2 (Z.leb_le _ _)) by lia. cbn [andb].
    destruct (bool_decide (Severity_ f = SeverityInfo)), (Profiles.IncludeInfo p);
      cbn [andb orb negb]; try done.
    all: destruct (Profiles.EnabledChecks p) as [|c cs] eqn:He; cbn [length Z.of_nat].
    all: try (rewrite (bool_decide_eq_true_2 ([] = [])) by done).
    all: try (rewrite (bool_decide_eq_false_2 (_ :: _ = [])) by done).
    all: repeat match goal with |- context [bool_decide ?P] => destruct (bool_decide P) end;
      cbn; done.
Qed.

Lemma FilterFindings_spec (p : Profiles.Profile) (findings : list Finding) :
  Profiles.FilterFindings p findings = List.filter (Spec.passesProfile p) findings.
Proof.
  unfold Profiles.FilterFindings.
  rewrite (fold_left_step_ext _ _ (FilterFindings_step_spec p)).
  by rewrite fold_left_keep.
Qed.

(** ** Lists *)

Lemma flat_map_cond {A B : Type} (p : A -> bool) (g : A -> B) (l : list A) :
  flat_map (fun x => if p x then [g x] else []) l = map g (List.filter p l).
Proof.
  induction l as [|x l IH]; [done|]. cbn [flat_map List.filter].
  rewrite IH. by destruct (p x).
Qed.

Lemma filter_flat_map {A B : Type} (p : B -> bool) (h : A -> list B) (l : list A) :
  List.filter p (flat_map h l) = flat_map (fun x => List.filter p (h x)) l.
Proof.
  induction l as [|x l IH]; [done|]. cbn [flat_map].
  by rewrite List.filter_app, IH.
Qed.

Lemma map_flat_map {A B C : Type} (g : B -> C) (h : A -> list B) (l : list A) :
  map g (flat_map h l) = flat_map (fun x => map g (h x)) l.
Proof.
  induction l as [|x l IH]; [done|]. cbn [flat_map].
  by rewrite map_app, IH.
Qed.

Lemma flat_map_eq {A B : Type} (g h : A -> list B) (l : list A) :
  (forall x, g x = h x) -> flat_map g l = flat_map h l.
Proof. intros H. induction l as [|x l IH]; [done|]. cbn. by rewrite H, IH. Qed.

Lemma filter_filter {A : Type} (p q : A -> bool) (l : list A) :
  List.filter p (List.filter q l) = List.filter (fun x => q x && p x) l.
Proof.
  induction l as [|x l IH]; [done|]. cbn [List.filter].
  destruct (q x); cbn [andb List.filter]; rewrite IH; done.
Qed.

Lemma filter_none {A : Type} (p : A -> bool) (l : list A) :
  (forall x, p x = false) -> List.filter p l = [].
Proof. intros H. induction l as [|x l IH]; [done|]. cbn. by rewrite H. Qed.

Lemma filter_all {A : Type} (p : A -> bool) (l : list A) :
  (forall x, p x = true) -> List.filter p l = l.
Proof. intros H. induction l as [|x l IH]; [done|]. cbn. by rewrite H, IH. Qed.

Lemma fold_left_flat_map {A B S : Type} (f : S -> B -> S) (g : A -> list B) (l : list A) :
  forall st, fold_left f (flat_map g l) st
             = fold_left (fun st x => fold_left f (g x) st) l st.
Proof.
  induction l as [|x l IH]; intros st; [done|]. cbn [flat_map fold_left].
  by rewrite fold_left_app, IH.
Qed.

Lemma fold_left_map {A B S : Type} (f : S -> B -> S) (h : A -> B) (l : list A) :
  forall st, fold_left f (map h l) st = fold_left (fun st x => f st (h x)) l st.
Proof. induction l as [|x l IH]; intros st; [done|]. cbn. by rewrite IH. Qed.

(** ** Strings *)

Lemma app_cons (a : ascii) (s t : string) : String a s +:+ t = String a (s +:+ t).
Proof. done. Qed.

Lemma app_empty_r (s : string) : s +:+ "" = s.
Proof. induction s as [|a s IH]; [done|]. by rewrite app_cons, IH. Qed.

Lemma app_assoc_s (s t u : string) : (s +:+ t) +:+ u = s +:+ (t +:+ u).
Proof. induction s as [|a s IH]; [done|]. by rewrite !app_cons, IH. Qed.

Lemma HasPrefix_empty (s : string) : Strings.HasPrefix s "" = true.
Proof. by destruct s. Qed.

Lemma rev_append_app (s acc : string) :
  Strings.rev_append s acc = Strings.rev s +:+ acc.
Proof.
  unfold Strings.rev. revert acc.
  induction s as [|a s IH]; intros acc; [done|].
  cbn [Strings.rev_append]. rewrite IH, (IH (String a "")).
  by rewrite app_assoc_s.
Qed.

Lemma rev_cons (a : ascii) (s : string) :
  Strings.rev (String a s) = Strings.rev s +:+ String a "".
Proof. unfold Strings.rev at 1. cbn [Strings.rev_append]. apply rev_append_app. Qed.

Lemma rev_app (s t : string) : Strings.rev (s +:+ t) = Strings.rev t +:+ Strings.rev s.
Proof.
  induction s as [|a s IH]; [by rewrite app_empty_r|].
  rewrite app_cons, !rev_cons, IH. by rewrite app_assoc_s.
Qed.

Lemma rev_involutive (s : string) : Strings.rev (Strings.rev s) = s.
Proof.
  induction s as [|a s IH]; [done|].
  by rewrite rev_cons, rev_app, IH.
Qed.

Lemma length_app_s (s t : string) :
  String.length (s +:+ t) = (String.length s + String.length t)%nat.
Proof. induction s as [|a s IH]; [done|]. rewrite app_cons. cbn. by rewrite IH. Qed.

Lemma app_inj_l (s t u : string) : s +:+ u = t +:+ u -> s = t.
Proof.
  revert t. induction s as [|a s IH]; intros [|b t] H; [done| | |].
  - apply (f_equal String.length) in H. change ("" +:+ u) with u in H.
    rewrite app_cons in H. cbn [String.length] in H. rewrite length_app_s in H. lia.
  - apply (f_equal String.length) in H. change ("" +:+ u) with u in H.
    rewrite app_cons in H. cbn [String.length] in H. rewrite length_app_s in H. lia.
  - rewrite !app_cons in H. injection H as -> H. f_equal. by apply IH.
Qed.

(** A title that wraps a name between fixed texts determines the name. *)
Lemma wrap_inj (pre post s t : string) : pre +:+ s +:+ post = pre +:+ t +:+ post -> s = t.
Proof. intros H. apply String.app_inj in H. by apply app_inj_l in H. Qed.

Lemma TrimLeftFunc_head (f : ascii -> bool) (s : string) :
  Spec.headKept f (Strings.TrimLeftFunc s f).
Proof.
  induction s as [|a s IH]; [done|]. cbn [Strings.TrimLeftFunc].
  destruct (f a) eqn:Ha; [done|]. exact Ha.
Qed.

Lemma TrimLeftFunc_snoc (f : ascii -> bool) (s : string) (d : ascii) :
  f d = false ->
  Strings.TrimLeftFunc (s +:+ String d "") f = Strings.TrimLeftFunc s f +:+ String d "".
Proof.
  intros Hd. induction s as [|a s IH]; cbn [Strings.TrimLeftFunc].
  - change ("" +:+ String d "") with (String d ""). cbn [Strings.TrimLeftFunc].
    by rewrite Hd.
  - rewrite app_cons. cbn [Strings.TrimLeftFunc]. destruct (f a); [done|].
    by rewrite app_cons.
Qed.

Lemma TrimFunc_head (f : ascii -> bool) (s : string) :
  Spec.headKept f (Strings.TrimFunc s f).
Proof.
  unfold Strings.TrimFunc, Strings.TrimRightFunc.
  pose proof (TrimLeftFunc_head f s) as Hh.
  destruct (Strings.TrimLeftFunc s f) as [|d u]; [done|]. cbn in Hh.
  rewrite rev_cons, TrimLeftFunc_snoc, rev_app by done.
  exact Hh.
Qed.

(** ** The defined names *)

Lemma fold_insert_keys (keys : list string) (name : string) :
  forall dv : gset string,
    name ∈ fold_left (fun dv k => {[k]} ∪ dv) keys dv <-> name ∈ keys \/ name ∈ dv.
Proof.
  induction keys as [|k keys IH]; intros dv; cbn [fold_left].
  - rewrite elem_of_nil. tauto.
  - rewrite IH, elem_of_cons, elem_of_union, elem_of_singleton. tauto.
Qed.

Lemma elem_of_keys {V : Type} (vars : gmap string V) (name : string) :
  name ∈ map fst (map_to_list vars) <-> is_Some (vars !! name).
Proof.
  change (map fst (map_to_list vars)) with (fst <$> map_to_list vars).
  rewrite list_elem_of_fmap. split.
  - intros ([k v] & -> & Hin). apply elem_of_map_to_list in Hin. by exists v.
  - intros [v Hv]. exists (name, v). split; [done|]. by apply elem_of_map_to_list.
Qed.

Section Defined.
Variable ReadFile : string -> option string.
Variable Join : string -> string -> string.

Lemma collect_fold (envs : list Artifact) (basePath name : string) :
  forall dv : gset string,
    name ∈ fold_left
             (fun definedVars envFile =>
                if Found envFile
                then let vars := Checker.parseEnvFile ReadFile (Join basePath (Path envFile)) in
                     fold_left (fun dv k => {[k]} ∪ dv) (map fst (map_to_list vars))
                       definedVars
                else definedVars) envs dv
    <-> name ∈ dv
        \/ existsb
             (fun e => Found e
                       && bool_decide
                            (is_Some (Checker.parseEnvFile ReadFile
                                        (Join basePath (Path e)) !! name))) envs = true.
Proof.
  induction envs as [|e envs IH]; intros dv; cbn [fold_left existsb].
  - split; [tauto | intros [?|?]; [done | discriminate]].
  - rewrite IH, orb_true_iff. destruct (Found e); cbn [andb].
    + cbv zeta. rewrite fold_insert_keys, elem_of_keys, bool_decide_eq_true. tauto.
    + split; [tauto | intros [?|[?|?]]; [tauto | discriminate | tauto]].
Qed.

Lemma collectDefinedVars_spec (basePath : string) (artifacts : Artifacts) (name : string) :
  bool_decide (name ∈ Checker.collectDefinedVars ReadFile Join basePath artifacts)
  = Spec.definedAnywhere ReadFile Join basePath artifacts name.
Proof.
  unfold Checker.collectDefinedVars, Spec.definedAnywhere.
  destruct (existsb _ (EnvFiles artifacts)) eqn:He.
  - apply bool_decide_eq_true_2, collect_fold. by right.
  - apply bool_decide_eq_false_2. rewrite collect_fold, elem_of_empty, He.
    intros [[]|?]; discriminate.
Qed.

End Defined.

(** ** The environment resolver *)

Lemma SplitN2From_spec (s : string) (sep : ascii) :
  forall cur,
    Strings.SplitN2From cur s sep
    = match Strings.IndexByte s sep with
      | None => [Strings.rev cur +:+ s]
      | Some i => [Strings.rev cur +:+ Strings.take i s; Strings.drop (S i) s]
      end.
Proof.
  induction s as [|a s IH]; intros cur;
    cbn [Strings.SplitN2From Strings.IndexByte].
  - by rewrite app_empty_r.
  - destruct (ascii_dec a sep).
    + cbn [Strings.take Strings.drop]. by rewrite app_empty_r.
    + rewrite IH, rev_cons.
      destruct (Strings.IndexByte s sep) as [i|]; cbn [fmap option_fmap option_map];
        cbn [Strings.take Strings.drop]; rewrite app_assoc_s; reflexivity.
Qed.

Lemma SplitN2_spec (s : string) (sep : ascii) :
  Strings.SplitN2 s sep
  = match Strings.IndexByte s sep with
    | None => [s]
    | Some i => [Strings.take i s; Strings.drop (S i) s]
    end.
Proof. unfold Strings.SplitN2. by rewrite SplitN2From_spec. Qed.

Lemma parseEnvFile_step_spec (result : gmap string string) (text : string) :
  Checker.parseEnvFile_step result text
  = Spec.bind result (Spec.bindingOf Spec.trimQuotes text).
Proof.
  unfold Checker.parseEnvFile_step, Spec.bindingOf.
  destruct (Strings.TrimSpace text) as [|c line] eqn:Hline; [done|].
  rewrite bool_decide_eq_false_2 by done. cbn [orb Strings.HasPrefix].
  rewrite HasPrefix_empty.
  destruct (ascii_dec c "#"); [done|].
  rewrite SplitN2_spec.
  by destruct (Strings.IndexByte (String c line) "=").
Qed.

Lemma fold_bind_lookup (bs : list (string * string)) (k : string) :
  forall m : gmap string string,
    fold_left (fun m b => <[b.1 := b.2]> m) bs m !! k
    = match Spec.lastBinding k bs with
      | Some v => Some v
      | None => m !! k
      end.
Proof.
  induction bs as [|[k' v] bs IH]; intros m; cbn [fold_left Spec.lastBinding]; [done|].
  rewrite IH. destruct (Spec.lastBinding k bs); [done|]. cbn [fst snd].
  destruct (string_dec k' k) as [->|Hne].
  - by rewrite lookup_insert_eq.
  - by rewrite lookup_insert_ne.
Qed.

Lemma fold_step_bindings (lines : list string) :
  forall m : gmap string string,
    fold_left Checker.parseEnvFile_step lines m
    = fold_left (fun m b => <[b.1 := b.2]> m)
        (omap (Spec.bindingOf Spec.trimQuotes) lines) m.
Proof.
  induction lines as [|text lines IH]; intros m; [done|].
  cbn [fold_left omap list_omap]. rewrite parseEnvFile_step_spec, IH.
  by destruct (Spec.bindingOf Spec.trimQuotes text) as [[k v]|].
Qed.



(** The samples of the specification: the last binding of a key wins, and a
    value in double or in single quotes is the text between them. *)
Lemma parseEnvFile_samples :
  Checker.parseEnvFile Demo.files "/app/.env.local"
  = {[ "A" := "2"; "KEY" := "v"; "OTHER" := "v" ]}
  /\ Checker.parseEnvFile Demo.files "/app/no-such-file" = ∅.
Proof. split; vm_compute; reflexivity. Qed.

(** ** The version comparator *)

Lemma digitVal_bounds (c : ascii) : Tools.isDigit c = true -> 0 <= Tools.digitVal c <= 9.
Proof.
  unfold Tools.isDigit, Tools.digitVal. intros H.
  apply andb_true_iff in H as [H1 H2].
  apply N.leb_le in H1, H2. lia.
Qed.

Lemma decimalFrom_mono (s : string) :
  forall n, Spec.allDigits s = true -> 0 <= n -> n <= Spec.decimalFrom n s.
Proof.
  induction s as [|c s IH]; intros n Hd Hn; cbn [Spec.decimalFrom]; [lia|].
  cbn [Spec.allDigits] in Hd. apply andb_true_iff in Hd as [Hc Hs].
  pose proof (digitVal_bounds c Hc).
  specialize (IH (n * 10 + Tools.digitVal c) Hs). lia.
Qed.

Lemma leadingDigits_allDigits (s : string) : Spec.allDigits (Spec.leadingDigits s) = true.
Proof.
  induction s as [|c s IH]; [done|]. cbn [Spec.leadingDigits].
  destruct (Tools.isDigit c) eqn:Hc; [|done]. cbn [Spec.allDigits]. by rewrite Hc, IH.
Qed.

Lemma ParseUintFrom_spec (s : string) :
  forall n, 0 <= n <= Tools.maxUint64 ->
    Tools.ParseUintFrom n s
    = if Spec.allDigits s
      then if Spec.decimalFrom n s >? Tools.maxUint64 then Tools.ErrRange
           else Tools.Number (Spec.decimalFrom n s)
      else if Spec.decimalFrom n (Spec.leadingDigits s) >? Tools.maxUint64
           then Tools.ErrRange else Tools.ErrSyntax.
Proof.
  induction s as [|c s IH]; intros n Hn.
  - cbn. destruct (Z.gtb_spec n Tools.maxUint64); [lia | done].
  - cbn [Tools.ParseUintFrom Spec.allDigits Spec.leadingDigits].
    destruct (Tools.isDigit c) eqn:Hc; cbn [andb Spec.decimalFrom].
    + pose proof (digitVal_bounds c Hc) as Hd.
      destruct (Z.gtb_spec (n * 10 + Tools.digitVal c) Tools.maxUint64) as [Hgt|Hle].
      * destruct (Spec.allDigits s) eqn:Hs.
        -- pose proof (decimalFrom_mono s (n * 10 + Tools.digitVal c) Hs).
           destruct (Z.gtb_spec (Spec.decimalFrom (n * 10 + Tools.digitVal c) s)
                       Tools.maxUint64); [done | lia].
        -- pose proof (decimalFrom_mono (Spec.leadingDigits s)
                         (n * 10 + Tools.digitVal c) (leadingDigits_allDigits s)).
           destruct (Z.gtb_spec
                       (Spec.decimalFrom (n * 10 + Tools.digitVal c) (Spec.leadingDigits s))
                       Tools.maxUint64); [done | lia].
      * apply IH. lia.
    + destruct (Z.gtb_spec n Tools.maxUint64); [lia | done].
Qed.

Lemma Atoi_digit_head (a : ascii) (r : string) :
  Tools.isDigit a = true ->
  Tools.Atoi (String a r)
  = match Tools.ParseUint (String a r) with
    | Tools.ErrSyntax => 0
    | Tools.ErrRange => Tools.maxInt
    | Tools.Number un => if un >? Tools.maxInt then Tools.maxInt else un
    end.
Proof.
  intros Ha. unfold Tools.Atoi.
  destruct a as [[] [] [] [] [] [] [] []];
    try (vm_compute in Ha; discriminate Ha); reflexivity.
Qed.

Lemma parsePart_spec (seg : string) : Tools.parsePart seg = Spec.segmentValue seg.
Proof.
  unfold Tools.parsePart, Spec.segmentValue.
  pose proof (TrimFunc_head (fun r => negb (Tools.isDigit r)) seg) as Hh.
  destruct (Strings.TrimFunc seg (fun r => negb (Tools.isDigit r))) as [|a r]; [done|].
  cbn in Hh. apply negb_false_iff in Hh.
  rewrite (Atoi_digit_head a r Hh).
  change (Tools.ParseUint (String a r)) with (Tools.ParseUintFrom 0 (String a r)).
  rewrite ParseUintFrom_spec by (unfold Tools.maxUint64; lia).
  assert (Tools.maxInt < Tools.maxUint64) as Hlt by (unfold Tools.maxInt, Tools.maxUint64; lia).
  destruct (Spec.allDigits (String a r)).
  - destruct (Z.gtb_spec (Spec.decimalFrom 0 (String a r)) Tools.maxUint64); [lia|].
    destruct (Z.gtb_spec (Spec.decimalFrom 0 (String a r)) Tools.maxInt); lia.
  - by destruct (Spec.decimalFrom 0 (Spec.leadingDigits (String a r)) >? Tools.maxUint64).
Qed.

Lemma SplitFrom_head (s : string) (sep : ascii) :
  forall cur, exists h t,
    Strings.SplitFrom EmptyString s sep = h :: t
    /\ Strings.SplitFrom cur s sep = (Strings.rev cur +:+ h) :: t.
Proof.
  induction s as [|a s IH]; intros cur; cbn [Strings.SplitFrom].
  - exists EmptyString, []. by rewrite app_empty_r.
  - destruct (ascii_dec a sep).
    + exists EmptyString, (Strings.SplitFrom EmptyString s sep). by rewrite app_empty_r.
    + destruct (IH (String a EmptyString)) as (h1 & t1 & E1 & H1).
      destruct (IH (String a cur)) as (h2 & t2 & E2 & H2).
      rewrite E1 in E2. injection E2 as <- <-.
      exists (String a h1), t1. split.
      * by rewrite H1.
      * rewrite H2, rev_cons, app_assoc_s. done.
Qed.

(** The [v] that [parseVersion] drops first would be trimmed with the other
    non-digits of the first part anyway. *)
Lemma parsePart_TrimPrefix (v : string) :
  map Tools.parsePart (Strings.Split (Strings.TrimPrefix v "v") ".")
  = map Tools.parsePart (Strings.Split v ".").
Proof.
  unfold Strings.TrimPrefix.
  destruct (Strings.HasPrefix v "v") eqn:Hp; [|done].
  destruct v as [|a v]; [done|]. cbn in Hp.
  destruct (ascii_dec a "v") as [->|]; [|done].
  cbn [String.length Strings.drop]. unfold Strings.Split at 2.
  cbn [Strings.SplitFrom]. destruct (ascii_dec "v" "."); [done|].
  destruct (SplitFrom_head v "." (String "v" EmptyString)) as (h & t & H0 & H1).
  unfold Strings.Split. rewrite H0, H1. cbn [map].
  change (Strings.rev "v" +:+ h) with (String "v" h).
  assert (Tools.parsePart (String "v" h) = Tools.parsePart h) as -> by done.
  done.
Qed.

Lemma parseVersion_spec (v : string) :
  Tools.parseVersion v = map Spec.segmentValue (Strings.Split v ".").
Proof.
  unfold Tools.parseVersion.
  rewrite (fold_left_emit _ (fun p => [Tools.parsePart p])) by done.
  cbn [app]. rewrite flat_map_singleton.
  rewrite parsePart_TrimPrefix. apply map_ext, parsePart_spec.
Qed.

Lemma part_lookup (parts : list Z) (i : nat) :
  (if (i <? length parts)%nat then nth i parts 0 else 0) = default 0 (parts !! i).
Proof.
  destruct (Nat.ltb_spec i (length parts)) as [Hlt|Hge].
  - destruct (lookup_lt_is_Some_2 parts i Hlt) as [x Hx].
    rewrite Hx. cbn. by apply nth_lookup_Some with (d := 0) in Hx.
  - by rewrite lookup_ge_None_2.
Qed.

Lemma segmentAt_lookup (v : string) (i : nat) :
  default 0 (map Spec.segmentValue (Strings.Split v ".") !! i)
  = Spec.segmentAt Spec.segmentValue v i.
Proof.
  unfold Spec.segmentAt. rewrite list_lookup_fmap.
  by destruct (Strings.Split v "." !! i).
Qed.

Lemma compare_step (p1 p2 rest : Z) :
  (if p1 <? p2 then -1 else if p1 >? p2 then 1 else rest)
  = if p1 =? p2 then rest else Z.sgn (p1 - p2).
Proof.
  destruct (Z.ltb_spec p1 p2), (Z.gtb_spec p1 p2), (Z.eqb_spec p1 p2); lia.
Qed.

Lemma CompareVersions_spec (v1 v2 : string) :
  Tools.CompareVersions v1 v2 = Spec.compareSegments Spec.segmentValue v1 v2.
Proof.
  unfold Tools.CompareVersions, Spec.compareSegments.
  cbn [Tools.CompareVersions_loop map Spec.firstDifference].
  rewrite !part_lookup, !compare_step, !parseVersion_spec, !segmentAt_lookup.
  done.
Qed.

Lemma firstDifference_sign (a b : list Z) :
  Spec.firstDifference a b = -1 \/ Spec.firstDifference a b = 0
  \/ Spec.firstDifference a b = 1.
Proof.
  revert b. induction a as [|x a IH]; intros [|y b]; cbn; auto.
  destruct (Z.eqb_spec x y); [apply IH|]. lia.
Qed.

(** C2, as the code has it.  [CompareVersions] compares the first three
    dot-separated segments left to right and returns the sign of the first
    difference, 0 when there is none; a segment that is absent counts as 0; a
    segment has the non-digits trimmed from both its ends and is then read as
    a decimal number capped at the largest int, and counts as 0 when what is
    left is empty or still holds a non-digit.  The three comparisons of the
    specification come out as stated. *)
Theorem CompareVersions_segments (v1 v2 : string) :
  Tools.CompareVersions v1 v2 = Spec.compareSegments Spec.segmentValue v1 v2
  /\ (Tools.CompareVersions v1 v2 = -1 \/ Tools.CompareVersions v1 v2 = 0
      \/ Tools.CompareVersions v1 v2 = 1)
  /\ Tools.CompareVersions "20.10.0" "20.9.9" = 1
  /\ Tools.CompareVersions "18.0.0" "18.0.0" = 0
  /\ Tools.CompareVersions "1.2" "1.2.0" = 0.
Proof.
  split; [apply CompareVersions_spec|].
  split; [rewrite CompareVersions_spec; apply firstDifference_sign|].
  repeat split; vm_compute; reflexivity.
Qed.

(** C2 as stated fails: with every non-digit stripped, [2rc1] would read 21
    and [1.2rc1] would be above [1.3]; the code reads the segment as 0.  And
    a segment beyond the int range is capped, so two different numbers
    compare equal. *)
Lemma CompareVersions_not_stripped :
  Tools.CompareVersions "1.2rc1" "1.3" = -1
  /\ Spec.compareSegments Spec.strippedValue "1.2rc1" "1.3" = 1
  /\ Tools.CompareVersions "1.2rc1" "1.3"
     <> Spec.compareSegments Spec.strippedValue "1.2rc1" "1.3"
  /\ Tools.CompareVersions "9223372036854775808" "9223372036854775807" = 0
  /\ Spec.compareSegments Spec.strippedValue
       "9223372036854775808" "9223372036854775807" = 1.
Proof. repeat split; try (vm_compute; reflexivity). vm_compute. discriminate. Qed.

Lemma allDigits_app (s t : string) :
  Spec.allDigits (s +:+ t) = Spec.allDigits s && Spec.allDigits t.
Proof.
  induction s as [|a s IH]; [done|]. rewrite app_cons. cbn [Spec.allDigits].
  by rewrite IH, andb_assoc.
Qed.

Lemma allDigits_rev (s : string) : Spec.allDigits (Strings.rev s) = Spec.allDigits s.
Proof.
  induction s as [|a s IH]; [done|]. rewrite rev_cons, allDigits_app, IH.
  cbn [Spec.allDigits]. rewrite andb_true_r. apply andb_comm.
Qed.

Lemma TrimLeftFunc_digits (s : string) :
  Spec.allDigits s = true ->
  Strings.TrimLeftFunc s (fun r => negb (Tools.isDigit r)) = s.
Proof.
  destruct s as [|a s]; [done|]. cbn [Spec.allDigits Strings.TrimLeftFunc].
  intros [-> _]%andb_true_iff. done.
Qed.

Lemma digitsOf_digits (s : string) : Spec.allDigits s = true -> Spec.digitsOf s = s.
Proof.
  induction s as [|a s IH]; [done|]. cbn [Spec.allDigits Spec.digitsOf].
  intros [-> Hs]%andb_true_iff. by rewrite IH.
Qed.

(** On the versions the tool prober delivers, whose segments are plain
    numbers within the int range, reading a segment the way the code does
    and stripping its non-digits agree. *)
Lemma segmentValue_plain (seg : string) :
  Spec.allDigits seg = true ->
  Spec.decimalFrom 0 seg <= Tools.maxInt ->
  Spec.segmentValue seg = Spec.strippedValue seg.
Proof.
  intros Hd Hle. unfold Spec.segmentValue, Spec.strippedValue.
  unfold Strings.TrimFunc, Strings.TrimRightFunc.
  rewrite (TrimLeftFunc_digits seg Hd).
  rewrite TrimLeftFunc_digits by (by rewrite allDigits_rev).
  rewrite rev_involutive, (digitsOf_digits seg Hd), Hd.
  destruct seg; [done|]. lia.
Qed.

(** ** The compose reference scanner *)

Section Compose.
Variable ReadFile : string -> option string.
Variable Join : string -> string -> string.
Variable basePath : string.
Variable artifacts : Artifacts.

Local Abbreviation definedVars :=
  (Checker.collectDefinedVars ReadFile Join basePath artifacts).
Local Abbreviation reportable := (Spec.reportable ReadFile Join basePath artifacts).

Lemma composeMatch_step_spec (path : string) (n : Z) (findings : list Finding)
    (varName : string) :
  Checker.composeMatch_step definedVars path n findings varName
  = findings ++ map Spec.env001Of
                  (List.filter reportable [Spec.mkOccurrence path n varName]).
Proof.
  unfold Checker.composeMatch_step, Spec.reportable.
  rewrite collectDefinedVars_spec. cbn [List.filter Spec.occVar].
  destruct (negb (Spec.definedAnywhere _ _ _ _ varName) && negb (Checker.isStandardVar varName));
    cbn [map]; [done | by rewrite app_nil_r].
Qed.

Lemma composeMatches_spec (path : string) (n : Z) (matches : list string) :
  forall findings,
    fold_left (Checker.composeMatch_step definedVars path n) matches findings
    = findings ++ map Spec.env001Of
                    (List.filter reportable (map (Spec.mkOccurrence path n) matches)).
Proof.
  induction matches as [|v matches IH]; intros findings; cbn [fold_left map].
  - by rewrite app_nil_r.
  - rewrite IH, composeMatch_step_spec, <- app_assoc, <- map_app, <- List.filter_app.
    done.
Qed.

Lemma composeLines_spec (path : string) (lines : list string) :
  forall (n : Z) (findings : list Finding),
    snd (fold_left (Checker.composeLine_step definedVars path) lines (n, findings))
    = findings
      ++ map Spec.env001Of
           (List.filter reportable
              (flat_map
                 (fun nl => map (Spec.mkOccurrence path (fst nl))
                              (Regexp.FindAllStringSubmatch1 Checker.varRefRegex (snd nl)))
                 (Spec.numberFrom (n + 1) lines))).
Proof.
  induction lines as [|line lines IH]; intros n findings;
    cbn [fold_left Spec.numberFrom flat_map].
  - by rewrite app_nil_r.
  - unfold Checker.composeLine_step at 2. cbn [fst snd].
    rewrite IH, composeMatches_spec, <- app_assoc, <- map_app, <- List.filter_app.
    done.
Qed.

Lemma composeFile_step_spec (findings : list Finding) (composeFile : Artifact) :
  Checker.composeFile_step ReadFile Join basePath definedVars findings composeFile
  = findings
    ++ map Spec.env001Of
         (List.filter reportable
            (Spec.composeFileOccurrences ReadFile Join basePath composeFile)).
Proof.
  unfold Checker.composeFile_step, Spec.composeFileOccurrences.
  destruct (Found composeFile); cbn [negb]; [|by rewrite app_nil_r].
  destruct (ReadFile (Join basePath (Path composeFile))) as [content|];
    [|by rewrite app_nil_r].
  apply composeLines_spec.
Qed.

Lemma checkComposeEnvRefs_spec :
  Checker.checkComposeEnvRefs ReadFile Join basePath artifacts
  = map Spec.env001Of
      (List.filter reportable (Spec.composeOccurrences ReadFile Join basePath artifacts)).
Proof.
  unfold Checker.checkComposeEnvRefs, Spec.composeOccurrences.
  rewrite (fold_left_emit _ _ composeFile_step_spec). cbn [app].
  rewrite filter_flat_map, map_flat_map. done.
Qed.

End Compose.


(** On the sample project: [IMAGE] is reported although it has a default,
    [DATABASE_URL] once for each of its two references, [HOME] and the
    defined [A] not at all. *)
Lemma checkComposeEnvRefs_sample :
  Checker.checkComposeEnvRefs Demo.files Demo.join "/app" Demo.artifacts
  = [ Checker.env001 "IMAGE" "compose.yaml" 3;
      Checker.env001 "DATABASE_URL" "compose.yaml" 5;
      Checker.env001 "DATABASE_URL" "compose.yaml" 6 ].
Proof. vm_compute. reflexivity. Qed.

(** ** The source-code scanner *)

(** Induction on the tree, with the entries of a directory. *)
Lemma entry_induction (P : Filepath.entry -> Prop) :
  (forall name content, P (Filepath.File name content)) ->
  (forall name entries, Forall P entries -> P (Filepath.Dir name entries)) ->
  forall e, P e.
Proof.
  intros HF HD. fix IH 1. intros [name content|name entries].
  - apply HF.
  - apply HD. induction entries as [|e es IHes]; constructor; [apply IH | apply IHes].
Qed.

Section Source.
Variable ReadFile : string -> option string.
Variable Join : string -> string -> string.
Variable basePath : string.
Variable artifacts : Artifacts.

Local Abbreviation definedVars :=
  (Checker.collectDefinedVars ReadFile Join basePath artifacts).
Local Abbreviation reportable := (Spec.reportable ReadFile Join basePath artifacts).

Local Abbreviation scanStep := (Spec.scanStep definedVars).

Lemma sourceLines_spec (relPath : string) (lines : list string) :
  forall (n : Z) (st : Checker.scanState),
    snd (fold_left (Checker.sourceLine_step definedVars relPath) lines (n, st))
    = fold_left scanStep
        (flat_map
           (fun nl =>
              flat_map
                (fun pattern => map (Spec.mkOccurrence relPath (fst nl))
                                  (Regexp.FindAllStringSubmatch1 pattern (snd nl)))
                Checker.patterns)
           (Spec.numberFrom (n + 1) lines)) st.
Proof.
  induction lines as [|line lines IH]; intros n st;
    cbn [fold_left Spec.numberFrom flat_map]; [done|].
  rewrite fold_left_app. unfold Checker.sourceLine_step at 2.
  rewrite IH. f_equal.
  rewrite fold_left_flat_map. apply fold_left_step_ext. intros st' pattern.
  unfold Checker.sourcePattern_step. rewrite fold_left_map.
  apply fold_left_step_ext. intros st'' v. unfold Spec.scanStep. cbn [fst snd Spec.occFile
    Spec.occLine Spec.occVar]. by replace (n + 1 - 1) with n by lia.
Qed.

Lemma walk_spec (e : Filepath.entry) :
  forall (elems : list string) (st : Checker.scanState),
    Filepath.walk (Checker.walkFn definedVars) elems e st
    = fold_left scanStep (Spec.sourceOccurrences elems e) st.
Proof.
  induction e as [name content|name entries IH] using entry_induction; intros elems st.
  - cbn [Filepath.walk Checker.walkFn Spec.sourceOccurrences].
    destruct (bool_decide (Filepath.Ext name ∈ Checker.extensions)); cbn [negb]; [|done].
    destruct content as [text|]; [|done].
    cbn [fst]. unfold Spec.sourceFileOccurrences. apply sourceLines_spec.
  - cbn [Filepath.walk Checker.walkFn Spec.sourceOccurrences].
    destruct (Checker.skippedDir name); [done|].
    revert st. induction IH as [|e es He _ IHes]; intros st; [done|].
    rewrite fold_left_app, <- He. apply IHes.
Qed.

Lemma scanStep_spec (st : Checker.scanState) (o : Spec.occurrence) :
  scanStep st o
  = if reportable o && negb (bool_decide (Spec.occVar o ∈ st.1))
    then ({[Spec.occVar o]} ∪ st.1, st.2 ++ [Spec.src001Of o])
    else st.
Proof.
  unfold Spec.scanStep, Checker.sourceMatch_step, Spec.reportable.
  destruct st as [seen findings]. rewrite collectDefinedVars_spec. cbn [fst snd].
  unfold Spec.src001Of. by replace (Spec.occLine o - 1 + 1) with (Spec.occLine o) by lia.
Qed.

Lemma scan_spec (occs : list Spec.occurrence) :
  forall (seen : gset string) (findings : list Finding),
    snd (fold_left scanStep occs (seen, findings))
    = findings
      ++ map Spec.src001Of
           (List.filter (fun o => negb (bool_decide (Spec.occVar o ∈ seen)))
              (Spec.firstPerName (List.filter reportable occs))).
Proof.
  induction occs as [|o occs IH]; intros seen findings; cbn [fold_left List.filter].
  - by rewrite app_nil_r.
  - rewrite scanStep_spec. cbn [fst snd].
    destruct (reportable o) eqn:Hr; cbn [andb]; [|apply IH].
    cbn [Spec.firstPerName List.filter].
    destruct (bool_decide (Spec.occVar o ∈ seen)) eqn:Hs; cbn [negb].
    + rewrite IH. do 2 f_equal. rewrite filter_filter. apply filter_ext. intros o'.
      apply bool_decide_eq_true in Hs.
      destruct (bool_decide (Spec.occVar o' ∈ seen)) eqn:Hs'; cbn [negb].
      * by rewrite andb_false_r.
      * apply bool_decide_eq_false in Hs'. rewrite andb_true_r.
        rewrite bool_decide_eq_false_2; [done | congruence].
    + rewrite IH, <- app_assoc. cbn [app map]. do 3 f_equal.
      rewrite filter_filter. apply filter_ext. intros o'.
      destruct (bool_decide (Spec.occVar o' = Spec.occVar o)) eqn:H1;
        destruct (bool_decide (Spec.occVar o' ∈ seen)) eqn:H2; cbn [negb andb].
      all: try apply bool_decide_eq_true in H1; try apply bool_decide_eq_false in H1.
      all: try apply bool_decide_eq_true in H2; try apply bool_decide_eq_false in H2.
      all: try (rewrite bool_decide_eq_true_2;
                [done | rewrite elem_of_union, elem_of_singleton; tauto]).
      rewrite bool_decide_eq_false_2;
        [done | rewrite elem_of_union, elem_of_singleton; tauto].
Qed.

Lemma checkSourceCodeEnvRefs_spec (tree : Filepath.entry) :
  Checker.checkSourceCodeEnvRefs ReadFile Join basePath tree artifacts
  = map Spec.src001Of
      (Spec.firstPerName (List.filter reportable (Spec.sourceOccurrences [] tree))).
Proof.
  unfold Checker.checkSourceCodeEnvRefs, Filepath.Walk.
  rewrite walk_spec, scan_spec. cbn [app]. f_equal.
  apply filter_all. intros o. by rewrite bool_decide_eq_false_2 by apply not_elem_of_empty.
Qed.

End Source.

(** ** Findings and the names they are about *)

Lemma env001Title_inj (a b : string) : Spec.env001Title a = Spec.env001Title b -> a = b.
Proof. apply wrap_inj. Qed.

Lemma src001Title_inj (a b : string) : Spec.src001Title a = Spec.src001Title b -> a = b.
Proof. apply wrap_inj. Qed.

Lemma filter_title_map (mk : Spec.occurrence -> Finding) (title : string -> string) :
  (forall o, Title (mk o) = title (Spec.occVar o)) ->
  (forall a b, title a = title b -> a = b) ->
  forall (occs : list Spec.occurrence) (name : string),
    List.filter (fun f => bool_decide (Title f = title name)) (map mk occs)
    = map mk (List.filter (fun o => bool_decide (Spec.occVar o = name)) occs).
Proof.
  intros Hmk Hinj occs name. induction occs as [|o occs IH]; [done|].
  cbn [map List.filter]. rewrite IH, Hmk.
  destruct (bool_decide (Spec.occVar o = name)) eqn:Ho.
  - apply bool_decide_eq_true in Ho. by rewrite bool_decide_eq_true_2 by congruence.
  - apply bool_decide_eq_false in Ho.
    rewrite bool_decide_eq_false_2; [done|]. intros H. by apply Ho, Hinj.
Qed.

Lemma firstPerName_of_name (occs : list Spec.occurrence) (name : string) :
  List.filter (fun o => bool_decide (Spec.occVar o = name)) (Spec.firstPerName occs)
  = option_list (Spec.firstOccurrence name occs).
Proof.
  unfold Spec.firstOccurrence.
  induction occs as [|o occs IH]; [done|].
  cbn [Spec.firstPerName List.filter find].
  destruct (bool_decide (Spec.occVar o = name)) eqn:Ho.
  - apply bool_decide_eq_true in Ho. change (option_list (Some o)) with [o]. f_equal.
    rewrite filter_filter. apply filter_none. intros o'.
    destruct (bool_decide (Spec.occVar o' = Spec.occVar o)) eqn:H1; [done|].
    apply bool_decide_eq_false in H1. cbn [negb andb].
    apply bool_decide_eq_false_2. congruence.
  - apply bool_decide_eq_false in Ho. rewrite <- IH, filter_filter.
    apply filter_ext. intros o'.
    destruct (bool_decide (Spec.occVar o' = name)) eqn:H1; [|apply andb_false_r].
    apply bool_decide_eq_true in H1. rewrite andb_true_r.
    rewrite bool_decide_eq_false_2; [done | congruence].
Qed.

Lemma find_filter_same {A : Type} (p q : A -> bool) (l : list A) :
  (forall x, p x = true -> q x = true) ->
  find p (List.filter q l) = find p l.
Proof.
  intros H. induction l as [|x l IH]; [done|]. cbn [List.filter find].
  destruct (p x) eqn:Hp.
  - rewrite (H x Hp). cbn [find]. by rewrite Hp.
  - destruct (q x); cbn [find]; [by rewrite Hp|]; apply IH.
Qed.

Lemma find_filter_none {A : Type} (p q : A -> bool) (l : list A) :
  (forall x, p x = true -> q x = false) ->
  find p (List.filter q l) = None.
Proof.
  intros H. induction l as [|x l IH]; [done|]. cbn [List.filter].
  destruct (q x) eqn:Hq; [|apply IH]. cbn [find].
  destruct (p x) eqn:Hp; [|apply IH]. rewrite (H x Hp) in Hq. discriminate.
Qed.

Lemma isStandardVar_spec (name : string) :
  In name ["HOME"; "PATH"; "USER"; "PWD"; "SHELL"; "TERM"; "HOSTNAME"; "UID"; "GID"]
  <-> Checker.isStandardVar name = true.
Proof.
  unfold Checker.isStandardVar, Checker.standard.
  rewrite bool_decide_eq_true, elem_of_list_to_set, <- list_elem_of_In, !elem_of_cons,
    elem_of_nil.
  tauto.
Qed.

(** C4.  A name the patterns extract from the scanned files (those with a
    supported extension and a readable content, outside the directories the
    walk skips) that is neither defined in an environment file nor standard
    has exactly one finding in the output of [checkSourceCodeEnvRefs], the
    check a scan runs when source scanning is enabled: an [SRC001] warning
    at the file and line of its first occurrence in the order of the scan.
    Its later occurrences, in whatever file, add nothing. *)
Theorem checkSourceCodeEnvRefs_once_per_name
    (ReadFile : string -> option string) (Join : string -> string -> string)
    (basePath : string) (tree : Filepath.entry) (artifacts : Artifacts)
    (name : string) (o : Spec.occurrence) :
  Spec.firstOccurrence name (Spec.sourceOccurrences [] tree) = Some o ->
  Spec.definedAnywhere ReadFile Join basePath artifacts name = false ->
  Checker.isStandardVar name = false ->
  List.filter (fun f => bool_decide (Title f = Spec.src001Title name))
    (Checker.checkSourceCodeEnvRefs ReadFile Join basePath tree artifacts)
  = [Checker.src001 name (Spec.occFile o) (Spec.occLine o)]
  /\ Code (Checker.src001 name (Spec.occFile o) (Spec.occLine o)) = "SRC001"
  /\ Severity_ (Checker.src001 name (Spec.occFile o) (Spec.occLine o)) = SeverityWarning
  /\ Files (Checker.src001 name (Spec.occFile o) (Spec.occLine o))
     = [ {| File := Spec.occFile o; Line := Spec.occLine o; Column := 0 |} ].
Proof.
  intros Hfirst Hdef Hstd. split; [|done].
  rewrite checkSourceCodeEnvRefs_spec.
  rewrite (filter_title_map Spec.src001Of Spec.src001Title) by
    (done || apply src001Title_inj).
  rewrite firstPerName_of_name. unfold Spec.firstOccurrence in *.
  rewrite find_filter_same, Hfirst.
  - change (option_list (Some o)) with [o]. cbn [map].
    apply find_some in Hfirst as [_ Ho].
    apply bool_decide_eq_true in Ho. unfold Spec.src001Of. by rewrite Ho.
  - intros x Hx. apply bool_decide_eq_true in Hx. unfold Spec.reportable.
    by rewrite Hx, Hdef, Hstd.
Qed.

Lemma checkSourceCodeEnvRefs_once_per_name_witness :
  List.filter (fun f => bool_decide (Title f = Spec.src001Title "PORT"))
    (Checker.checkSourceCodeEnvRefs Demo.files Demo.join "/app" Demo.tree Demo.artifacts)
  = [Checker.src001 "PORT" "main.go" 2].
Proof.
  apply (checkSourceCodeEnvRefs_once_per_name Demo.files Demo.join "/app" Demo.tree
           Demo.artifacts "PORT" (Spec.mkOccurrence "main.go" 2 "PORT"));
    vm_compute; reflexivity.
Defined.

(** C5.  For a name of the standard set, the output of the compose scanner
    holds no [ENV001] finding about it and the output of the source scanner
    no [SRC001] finding about it, whatever the files reference and whatever
    the environment files define. *)
Theorem standard_vars_never_reported
    (ReadFile : string -> option string) (Join : string -> string -> string)
    (basePath : string) (tree : Filepath.entry) (artifacts : Artifacts) (name : string) :
  In name ["HOME"; "PATH"; "USER"; "PWD"; "SHELL"; "TERM"; "HOSTNAME"; "UID"; "GID"] ->
  List.filter (fun f => bool_decide (Title f = Spec.env001Title name))
    (Checker.checkComposeEnvRefs ReadFile Join basePath artifacts) = []
  /\ List.filter (fun f => bool_decide (Title f = Spec.src001Title name))
       (Checker.checkSourceCodeEnvRefs ReadFile Join basePath tree artifacts) = [].
Proof.
  intros Hstd%isStandardVar_spec.
  assert (forall x : Spec.occurrence,
             bool_decide (Spec.occVar x = name) = true ->
             Spec.reportable ReadFile Join basePath artifacts x = false) as Hnot.
  { intros x Hx. apply bool_decide_eq_true in Hx. unfold Spec.reportable.
    rewrite Hx, Hstd. apply andb_false_r. }
  split.
  - rewrite checkComposeEnvRefs_spec.
    rewrite (filter_title_map Spec.env001Of Spec.env001Title) by
      (done || apply env001Title_inj).
    rewrite filter_filter, filter_none; [done|]. intros x.
    destruct (bool_decide (Spec.occVar x = name)) eqn:Hx; [|apply andb_false_r].
    by rewrite (Hnot x Hx).
  - rewrite checkSourceCodeEnvRefs_spec.
    rewrite (filter_title_map Spec.src001Of Spec.src001Title) by
      (done || apply src001Title_inj).
    rewrite firstPerName_of_name. unfold Spec.firstOccurrence.
    by rewrite find_filter_none.
Qed.

Lemma standard_vars_never_reported_witness :
  List.filter (fun f => bool_decide (Title f = Spec.env001Title "HOME"))
    (Checker.checkComposeEnvRefs Demo.files Demo.join "/app" Demo.artifactsNoEnv) = []
  /\ List.filter (fun f => bool_decide (Title f = Spec.src001Title "HOME"))
       (Checker.checkSourceCodeEnvRefs Demo.files Demo.join "/app" Demo.tree
          Demo.artifactsNoEnv) = [].
Proof.
  apply (standard_vars_never_reported Demo.files Demo.join "/app" Demo.tree
           Demo.artifactsNoEnv "HOME").
  simpl. left. reflexivity.
Defined.

(** ** The env-example check *)

Section EnvExample.
Variable ReadFile : string -> option string.
Variable Join : string -> string -> string.
Variable basePath : string.

Lemma firstFound_anyFound (l : list Artifact) (e : Artifact) :
  Checker.firstFound l = Some e -> anyFound l = true.
Proof.
  induction l as [|x l IH]; [done|]. cbn [Checker.firstFound anyFound].
  by destruct (Found x).
Qed.

Lemma firstPrimary_anyFound (l : list Artifact) (p : Artifact) :
  Checker.firstPrimary l = Some p -> anyFound l = true.
Proof.
  induction l as [|x l IH]; [done|]. cbn [Checker.firstPrimary anyFound].
  by destruct (Found x).
Qed.

Lemma firstPrimary_none (l : list Artifact) :
  (forall e, In e l -> Found e = true -> Path e <> ".env" /\ Path e <> ".env.local") ->
  Checker.firstPrimary l = None.
Proof.
  induction l as [|x l IH]; intros H; [done|]. cbn [Checker.firstPrimary].
  destruct (Found x) eqn:Hx; cbn [andb].
  - destruct (H x (or_introl eq_refl) Hx) as [H1 H2].
    rewrite !bool_decide_eq_false_2 by done. cbn [orb]. apply IH.
    intros e He. apply H. by right.
  - apply IH. intros e He. apply H. by right.
Qed.

Lemma missing_keys_fold (examplePath envPath : string)
    (envVars : gmap string string) (keys : list string) :
  fold_left
    (fun findings key =>
       match envVars !! key with
       | Some _ => findings
       | None => findings ++ [Checker.env002 examplePath key envPath]
       end) keys []
  = map (fun key => Checker.env002 examplePath key envPath)
      (List.filter (fun key => negb (bool_decide (is_Some (envVars !! key)))) keys).
Proof.
  rewrite (fold_left_emit _
             (fun key => if negb (bool_decide (is_Some (envVars !! key)))
                         then [Checker.env002 examplePath key envPath] else [])).
  - cbn [app]. apply flat_map_cond.
  - intros acc key. destruct (envVars !! key) as [v|] eqn:Hk.
    + rewrite bool_decide_eq_true_2 by (by exists v). by rewrite app_nil_r.
    + rewrite bool_decide_eq_false_2; [done|]. by intros [v Hv].
Qed.

Lemma missing_keys_perm (exampleVars envVars : gmap string string) :
  List.filter (fun key => negb (bool_decide (is_Some (envVars !! key))))
    (map fst (map_to_list exampleVars))
  ≡ₚ Spec.missingKeys exampleVars envVars.
Proof.
  unfold Spec.missingKeys. apply NoDup_Permutation.
  - apply NoDup_ListNoDup, List.NoDup_filter, NoDup_ListNoDup, NoDup_fst_map_to_list.
  - apply NoDup_elements.
  - intros k. rewrite elem_of_elements, elem_of_difference, !elem_of_dom.
    rewrite list_elem_of_In, List.filter_In, <- list_elem_of_In, elem_of_keys.
    rewrite negb_true_iff, bool_decide_eq_false. done.
Qed.

Lemma checkEnvExample_spec (artifacts : Artifacts) (e : Artifact) :
  Checker.firstFound (EnvExamples artifacts) = Some e ->
  Checker.checkEnvExample ReadFile Join basePath artifacts
  = if HasEnv artifacts then
      match Checker.firstPrimary (EnvFiles artifacts) with
      | Some p =>
          map (fun key => Checker.env002 (Path e) key (Path p))
            (List.filter
               (fun key => negb (bool_decide
                                   (is_Some (Checker.parseEnvFile ReadFile
                                               (Join basePath (Path p)) !! key))))
               (map fst (map_to_list
                           (Checker.parseEnvFile ReadFile (Join basePath (Path e))))))
      | None => []
      end
    else [Checker.env003 (Path e)].
Proof.
  intros He. unfold Checker.checkEnvExample, HasEnvExample.
  rewrite (firstFound_anyFound _ _ He), He. cbn [andb].
  destruct (HasEnv artifacts); cbn [negb app]; [|done].
  destruct (Checker.firstPrimary (EnvFiles artifacts)) as [p|]; [|done].
  apply missing_keys_fold.
Qed.

End EnvExample.

(** C6, as the code has it.  With an example file found: when no environment
    file of any name is found, the check gives exactly one finding, the
    [ENV003] warning at the example file; when a primary file ([.env] or
    [.env.local]) is found, it gives exactly one [ENV002] warning for every
    key of the example that the primary file lacks, and nothing else. *)
Theorem checkEnvExample_findings
    (ReadFile : string -> option string) (Join : string -> string -> string)
    (basePath : string) (artifacts : Artifacts) (e : Artifact) :
  Checker.firstFound (EnvExamples artifacts) = Some e ->
  (HasEnv artifacts = false ->
   Checker.checkEnvExample ReadFile Join basePath artifacts = [Checker.env003 (Path e)])
  /\ (forall p, Checker.firstPrimary (EnvFiles artifacts) = Some p ->
        Checker.checkEnvExample ReadFile Join basePath artifacts
        ≡ₚ map (fun key => Checker.env002 (Path e) key (Path p))
             (Spec.missingKeys
                (Checker.parseEnvFile ReadFile (Join basePath (Path e)))
                (Checker.parseEnvFile ReadFile (Join basePath (Path p))))
        /\ Forall (fun f => Code f = "ENV002")
             (Checker.checkEnvExample ReadFile Join basePath artifacts))
  /\ Code (Checker.env003 (Path e)) = "ENV003"
  /\ Severity_ (Checker.env003 (Path e)) = SeverityWarning
  /\ Files (Checker.env003 (Path e)) = [ {| File := Path e; Line := 0; Column := 0 |} ]
  /\ forall key envPath,
       Code (Checker.env002 (Path e) key envPath) = "ENV002"
       /\ Severity_ (Checker.env002 (Path e) key envPath) = SeverityWarning.
Proof.
  intros He. split; [|split; [|done]].
  - intros Hno. by rewrite (checkEnvExample_spec _ _ _ _ _ He), Hno.
  - intros p Hp. rewrite (checkEnvExample_spec _ _ _ _ _ He).
    unfold HasEnv. rewrite (firstPrimary_anyFound _ _ Hp), Hp. split.
    + apply fmap_Permutation, missing_keys_perm.
    + apply Forall_forall. intros f Hf%list_elem_of_In.
      apply in_map_iff in Hf as (key & <- & _). done.
Qed.

Lemma checkEnvExample_findings_witness :
  Checker.checkEnvExample Demo.files Demo.join "/app" Demo.artifactsNoEnv
  = [Checker.env003 ".env.example"]
  /\ Checker.checkEnvExample Demo.files Demo.join "/app" Demo.artifacts
     ≡ₚ [Checker.env002 ".env.example" "B" ".env"].
Proof.
  split.
  - apply (checkEnvExample_findings Demo.files Demo.join "/app" Demo.artifactsNoEnv
             (mkArtifact ".env.example" true)); reflexivity.
  - destruct (checkEnvExample_findings Demo.files Demo.join "/app" Demo.artifacts
                (mkArtifact ".env.example" true) eq_refl) as (_ & H & _).
    destruct (H (mkArtifact ".env" true) eq_refl) as [Hperm _].
    vm_compute in Hperm. vm_compute. exact Hperm.
Defined.

(** C6 as stated fails: an example file and [.env.development] as the only
    environment file.  No primary file exists, and the check gives no
    [ENV003]; the key [B] of the example is in no environment file, and the
    check gives no [ENV002] either. *)
Lemma checkEnvExample_other_env_file :
  HasEnvExample Demo.artifactsDevOnly = true
  /\ Checker.firstPrimary (EnvFiles Demo.artifactsDevOnly) = None
  /\ is_Some (Checker.parseEnvFile Demo.files (Demo.join "/app" ".env.example") !! "B")
  /\ Checker.parseEnvFile Demo.files (Demo.join "/app" ".env.development") !! "B" = None
  /\ Checker.checkEnvExample Demo.files Demo.join "/app" Demo.artifactsDevOnly = []
  /\ length (List.filter (fun f => bool_decide (Code f = "ENV003"))
               (Checker.checkEnvExample Demo.files Demo.join "/app" Demo.artifactsDevOnly))
     <> 1%nat.
Proof.
  repeat split; try (vm_compute; reflexivity).
  - exists "". vm_compute. reflexivity.
  - vm_compute. discriminate.
Qed.

(** C10.  With an example file found and an environment file found, but no
    found environment file at the path [.env] or [.env.local], the check
    gives no finding at all. *)
Theorem checkEnvExample_without_primary
    (ReadFile : string -> option string) (Join : string -> string -> string)
    (basePath : string) (artifacts : Artifacts) :
  HasEnvExample artifacts = true ->
  HasEnv artifacts = true ->
  (forall e, In e (EnvFiles artifacts) -> Found e = true ->
             Path e <> ".env" /\ Path e <> ".env.local") ->
  Checker.checkEnvExample ReadFile Join basePath artifacts = [].
Proof.
  intros Hex Henv Hnone. unfold Checker.checkEnvExample.
  rewrite Hex, Henv, (firstPrimary_none _ Hnone). cbn [andb negb].
  by destruct (Checker.firstFound (EnvExamples artifacts)).
Qed.

Lemma checkEnvExample_without_primary_witness :
  Checker.checkEnvExample Demo.files Demo.join "/app" Demo.artifactsDevOnly = [].
Proof.
  apply (checkEnvExample_without_primary Demo.files Demo.join "/app" Demo.artifactsDevOnly);
    [reflexivity | reflexivity |].
  intros e He Hf. cbn in He.
  destruct He as [<-|[<-|[<-|[<-|[]]]]]; try discriminate Hf.
  split; discriminate.
Defined.

(** ** The dependency graph validator *)

Lemma mapFormDeps_spec :
  forall (content : list Yaml.Node) (deps : list string),
    Checker.mapFormDeps content deps = deps ++ map Yaml.Value (Spec.evens content).
Proof.
  fix IH 1. intros [|k [|v rest]] deps; cbn [Checker.mapFormDeps Spec.evens map].
  - by rewrite app_nil_r.
  - done.
  - rewrite IH, <- app_assoc. done.
Qed.

Lemma extractDependsOn_spec (node : Yaml.Node) :
  Checker.extractDependsOn node = Spec.references node.
Proof.
  unfold Checker.extractDependsOn, Spec.references.
  destruct (Yaml.Kind_ node); try done.
  - rewrite (fold_left_emit _
               (fun item => if bool_decide (Yaml.Kind_ item = Yaml.ScalarNode)
                            then [Yaml.Value item] else [])).
    + cbn [app]. induction (Yaml.Content node) as [|item items IH]; [done|].
      cbn [flat_map omap list_omap]. rewrite IH.
      by destruct (bool_decide (Yaml.Kind_ item = Yaml.ScalarNode)).
    + intros acc item. destruct (bool_decide _); [done | by rewrite app_nil_r].
  - by rewrite mapFormDeps_spec.
Qed.

Lemma references_sequence (deps : list (string * Yaml.Node)) :
  Spec.references (Yaml.sequence (map (fun d => Yaml.scalar (fst d)) deps)) = map fst deps.
Proof.
  unfold Spec.references. cbn [Yaml.sequence Yaml.Kind_ Yaml.Content].
  induction deps as [|d deps IH]; [done|]. cbn [map omap list_omap].
  rewrite IH. done.
Qed.

Lemma references_mapping (deps : list (string * Yaml.Node)) :
  Spec.references (Yaml.mapping (map (fun d => (Yaml.scalar (fst d), snd d)) deps))
  = map fst deps.
Proof.
  unfold Spec.references. cbn [Yaml.mapping Yaml.Kind_ Yaml.Content].
  induction deps as [|d deps IH]; [done|]. cbn [map flat_map fst snd app Spec.evens].
  rewrite IH. done.
Qed.

Section DependsOn.
Variable ReadFile : string -> option string.
Variable Join : string -> string -> string.
Variable Unmarshal : string -> option (gmap string Yaml.Node).
Variable basePath : string.

Lemma serviceNames_spec (services : gmap string Yaml.Node) (dep : string) :
  bool_decide
    (dep ∈ fold_left (fun (names : gset string) name => {[name]} ∪ names)
             (map fst (map_to_list services)) ∅)
  = bool_decide (is_Some (services !! dep)).
Proof.
  apply bool_decide_ext. rewrite fold_insert_keys, elem_of_keys, elem_of_empty. tauto.
Qed.

Lemma dependsOnFile_step_spec (findings : list Finding) (composeFile : Artifact) :
  Checker.dependsOnFile_step ReadFile Join Unmarshal basePath findings composeFile
  = findings ++ Spec.composeFileUnknown ReadFile Join Unmarshal basePath composeFile.
Proof.
  unfold Checker.dependsOnFile_step, Spec.composeFileUnknown.
  destruct (Found composeFile); cbn [negb]; [|by rewrite app_nil_r].
  destruct (ReadFile (Join basePath (Path composeFile))) as [content|];
    [|by rewrite app_nil_r].
  destruct (Unmarshal content) as [services|]; [|by rewrite app_nil_r].
  cbv zeta.
  rewrite (fold_left_emit _
             (fun svc => map (fun dep => Checker.cmp001 (fst svc) dep (Path composeFile))
                           (List.filter
                              (fun dep => negb (bool_decide (is_Some (services !! dep))))
                              (Spec.references (snd svc))))).
  - f_equal. unfold Spec.unknownReferences. rewrite map_flat_map.
    apply flat_map_eq. intros svc. by rewrite map_map.
  - intros acc svc. rewrite extractDependsOn_spec.
    rewrite (fold_left_emit _
               (fun dep => if negb (bool_decide (is_Some (services !! dep)))
                           then [Checker.cmp001 (fst svc) dep (Path composeFile)] else [])).
    + by rewrite flat_map_cond.
    + intros acc' dep. unfold Checker.dependsOn_step. rewrite serviceNames_spec.
      destruct (negb _); [done | by rewrite app_nil_r].
Qed.

Lemma checkComposeDependsOn_spec (artifacts : Artifacts) :
  Checker.checkComposeDependsOn ReadFile Join Unmarshal basePath artifacts
  = flat_map (Spec.composeFileUnknown ReadFile Join Unmarshal basePath)
      (ComposeFiles artifacts).
Proof.
  unfold Checker.checkComposeDependsOn.
  by rewrite (fold_left_emit _ _ dependsOnFile_step_spec).
Qed.

End DependsOn.

(** C7.  The findings of [checkComposeDependsOn] are, up to the order in
    which the services of a file are visited, one [CMP001] finding for every
    reference of a service of a compose file (found, readable, parsed) to a
    name that is not among the services of that file: a blocking finding that
    names the service and the missing target and is located at the file, line
    0.  The references of a service are the same whether [depends_on] lists
    the names or maps them to whatever values. *)
Theorem checkComposeDependsOn_unknown_references
    (ReadFile : string -> option string) (Join : string -> string -> string)
    (Unmarshal : string -> option (gmap string Yaml.Node))
    (basePath : string) (artifacts : Artifacts) :
  Checker.checkComposeDependsOn ReadFile Join Unmarshal basePath artifacts
  ≡ₚ flat_map (Spec.composeFileUnknown ReadFile Join Unmarshal basePath)
       (ComposeFiles artifacts)
  /\ (forall deps : list (string * Yaml.Node),
        Checker.extractDependsOn (Yaml.sequence (map (fun d => Yaml.scalar (fst d)) deps))
        = map fst deps
        /\ Checker.extractDependsOn
             (Yaml.mapping (map (fun d => (Yaml.scalar (fst d), snd d)) deps))
           = map fst deps)
  /\ forall svcName dep composePath,
       Code (Checker.cmp001 svcName dep composePath) = "CMP001"
       /\ Severity_ (Checker.cmp001 svcName dep composePath) = SeverityBlocking
       /\ Title (Checker.cmp001 svcName dep composePath)
          = "Service " +:+ svcName +:+ " depends on unknown service " +:+ dep
       /\ Files (Checker.cmp001 svcName dep composePath)
          = [ {| File := composePath; Line := 0; Column := 0 |} ].
Proof.
  split; [by rewrite checkComposeDependsOn_spec|]. split; [|done].
  intros deps. rewrite !extractDependsOn_spec.
  by rewrite references_sequence, references_mapping.
Qed.

(** The sample of the specification: [web] depends on [cache], which is not
    declared; the list form and the mapping form give the same finding. *)
Lemma checkComposeDependsOn_sample :
  Checker.checkComposeDependsOn Demo.files Demo.join Demo.unmarshal "/app" Demo.artifacts
  = [Checker.cmp001 "web" "cache" "compose.yaml"]
  /\ Checker.checkComposeDependsOn Demo.files Demo.join Demo.unmarshal "/app"
       Demo.artifactsMapForm
     = [Checker.cmp001 "web" "cache" "compose.yml"].
Proof. split; vm_compute; reflexivity. Qed.

Lemma passesProfile_minimal (f : Finding) :
  Spec.passesProfile Profiles.minimal f = Spec.hasSeverity SeverityBlocking f.
Proof. unfold Spec.passesProfile, Spec.hasSeverity. by destruct (Severity_ f). Qed.

Lemma passesProfile_ci (f : Finding) :
  Spec.passesProfile Profiles.ci f = negb (Spec.hasSeverity SeverityInfo f).
Proof. unfold Spec.passesProfile, Spec.hasSeverity. by destruct (Severity_ f). Qed.

Lemma length_filter_not_info (l : list Finding) :
  length (List.filter (fun f => negb (Spec.hasSeverity SeverityInfo f)) l)
  = (length (List.filter (Spec.hasSeverity SeverityBlocking) l)
     + length (List.filter (Spec.hasSeverity SeverityWarning) l))%nat.
Proof.
  induction l as [|f l IH]; [done|].
  unfold Spec.hasSeverity in *. cbn [List.filter].
  destruct (Severity_ f); repeat case_bool_decide; try done; cbn [negb length]; lia.
Qed.

(** C8.  The scan drops the findings whose code is in [ignore_codes] first
    and hands the rest to the profile, which keeps a finding exactly when its
    severity is not below [min_severity], it is not an info finding unless
    [include_info], its code is in [enabled_codes] unless that list is empty,
    and its code is not in [disabled_codes].  On 1 blocking, 2 warning and 3
    info findings, profile [minimal] keeps exactly the blocking one and
    profile [ci] exactly the blocking and the two warning ones, no info. *)
Theorem filters_in_order_and_profiles
    (cfg : Config.Config) (p : Profiles.Profile) (raw : list Finding) :
  Checker.filterScan cfg p raw
  = List.filter (Spec.passesProfile p) (List.filter (Spec.notIgnored cfg) raw)
  /\ (length (List.filter (Spec.hasSeverity SeverityBlocking) raw) = 1%nat ->
      length (List.filter (Spec.hasSeverity SeverityWarning) raw) = 2%nat ->
      length (List.filter (Spec.hasSeverity SeverityInfo) raw) = 3%nat ->
      Profiles.FilterFindings Profiles.minimal raw
      = List.filter (Spec.hasSeverity SeverityBlocking) raw
      /\ length (Profiles.FilterFindings Profiles.minimal raw) = 1%nat
      /\ Profiles.FilterFindings Profiles.ci raw
         = List.filter (fun f => negb (Spec.hasSeverity SeverityInfo f)) raw
      /\ length (Profiles.FilterFindings Profiles.ci raw) = 3%nat
      /\ List.filter (Spec.hasSeverity SeverityInfo) (Profiles.FilterFindings Profiles.ci raw)
         = []).
Proof.
  split.
  - unfold Checker.filterScan. by rewrite filterIgnoredFindings_spec, FilterFindings_spec.
  - intros Hb Hw Hi.
    rewrite !FilterFindings_spec.
    rewrite (filter_ext _ _ passesProfile_minimal), (filter_ext _ _ passesProfile_ci).
    repeat split; try done.
    + rewrite length_filter_not_info. lia.
    + clear. induction raw as [|f l IH]; [done|]. cbn [List.filter].
      destruct (Spec.hasSeverity SeverityInfo f) eqn:Hf; cbn [negb List.filter]; [done|].
      by rewrite Hf.
Qed.

Lemma filters_in_order_and_profiles_witness :
  Profiles.FilterFindings Profiles.minimal Demo.sixFindings
  = [NewFinding "ENV001" SeverityBlocking "${DATABASE_URL} referenced but not defined"]
  /\ length (Profiles.FilterFindings Profiles.ci Demo.sixFindings) = 3%nat.
Proof.
  destruct (filters_in_order_and_profiles
              (Config.mkConfig [] [] []) Profiles.default Demo.sixFindings) as [_ H].
  destruct H as (Hmin & _ & _ & Hci & _); [reflexivity..|].
  split; [rewrite Hmin; reflexivity | exact Hci].
Defined.

(** ** The custom rule engine *)

Section CustomRules.
Variable ReadFile : string -> option string.
Variable Join : string -> string -> string.
Variable Compile : string -> option (string -> bool).
Variable basePath : string.
Variable artifacts : Artifacts.

Local Abbreviation definedVars :=
  (Checker.collectDefinedVars ReadFile Join basePath artifacts).

Lemma customRule_step_app (findings : list Finding) (rule : Config.CustomRule) :
  Checker.customRule_step Compile definedVars findings rule
  = findings ++ Checker.customRule_step Compile definedVars [] rule.
Proof.
  unfold Checker.customRule_step.
  destruct (Config.Required rule); cbn [negb]; [|by rewrite app_nil_r].
  destruct (Compile (Config.Pattern rule)) as [pattern|]; [|by rewrite app_nil_r].
  destruct (existsb pattern (elements definedVars)); cbn [negb app];
    [by rewrite app_nil_r | done].
Qed.

Lemma matches_defined (pattern : string -> bool) :
  existsb pattern (elements definedVars) = true
  <-> exists name,
        Spec.definedAnywhere ReadFile Join basePath artifacts name = true
        /\ pattern name = true.
Proof.
  rewrite existsb_exists. split; intros (name & H1 & H2); exists name; split; try done.
  - rewrite <- collectDefinedVars_spec. apply bool_decide_eq_true_2.
    by apply elem_of_elements, list_elem_of_In.
  - rewrite <- collectDefinedVars_spec in H1. apply bool_decide_eq_true in H1.
    by apply list_elem_of_In, elem_of_elements.
Qed.

Lemma checkCustomRules_spec (cfg : Config.Config) :
  Checker.checkCustomRules ReadFile Join Compile basePath artifacts cfg
  = flat_map (Checker.customRule_step Compile definedVars []) (Config.CustomRules cfg).
Proof.
  unfold Checker.checkCustomRules.
  destruct (Config.CustomRules cfg) as [|r rules]; [done|].
  cbn [length Nat.eqb]. by rewrite (fold_left_emit _ _ customRule_step_app).
Qed.

End CustomRules.

(** C9.  The output of [checkCustomRules] is what the rules contribute, rule
    after rule.  A rule that is not required contributes nothing; a rule
    whose pattern does not compile contributes nothing; a required rule whose
    pattern compiles contributes nothing when a name defined in an
    environment file matches it, and otherwise exactly one finding with the
    code [CUSTOM-] followed by its id, at the severity [blocking] or [info]
    when the rule says so and [warning] for any other value. *)
Theorem checkCustomRules_per_rule
    (ReadFile : string -> option string) (Join : string -> string -> string)
    (Compile : string -> option (string -> bool))
    (basePath : string) (artifacts : Artifacts) (cfg : Config.Config) :
  let contribution :=
    Checker.customRule_step Compile
      (Checker.collectDefinedVars ReadFile Join basePath artifacts) [] in
  Checker.checkCustomRules ReadFile Join Compile basePath artifacts cfg
  = flat_map contribution (Config.CustomRules cfg)
  /\ forall rule : Config.CustomRule,
       (Config.Required rule = false -> contribution rule = [])
       /\ (Compile (Config.Pattern rule) = None -> contribution rule = [])
       /\ (forall pattern,
             Config.Required rule = true ->
             Compile (Config.Pattern rule) = Some pattern ->
             ((exists name,
                  Spec.definedAnywhere ReadFile Join basePath artifacts name = true
                  /\ pattern name = true) ->
              contribution rule = [])
             /\ ((forall name,
                     Spec.definedAnywhere ReadFile Join basePath artifacts name = true ->
                     pattern name = false) ->
                 exists f,
                   contribution rule = [f]
                   /\ Code f = "CUSTOM-" +:+ Config.ID rule
                   /\ Severity_ f
                      = if string_dec (Config.Severity rule) "blocking" then SeverityBlocking
                        else if string_dec (Config.Severity rule) "info" then SeverityInfo
                        else SeverityWarning)).
Proof.
  intros contribution. split; [apply checkCustomRules_spec|].
  intros rule. subst contribution. unfold Checker.customRule_step.
  split; [by intros ->|]. split.
  { intros ->. by destruct (Config.Required rule). }
  intros pattern -> ->. cbn [negb]. split.
  - intros Hex. apply matches_defined in Hex. by rewrite Hex.
  - intros Hall.
    assert (existsb pattern
              (elements (Checker.collectDefinedVars ReadFile Join basePath artifacts))
            = false) as ->.
    { apply not_true_is_false. intros (name & H1 & H2)%matches_defined.
      rewrite (Hall name H1) in H2. discriminate. }
    cbn [negb app]. eexists. split; [done|]. split; [done|].
    cbn. unfold Checker.ruleSeverity.
    destruct (string_dec (Config.Severity rule) "blocking") as [->|H1]; [done|].
    rewrite bool_decide_eq_false_2 by done.
    destruct (string_dec (Config.Severity rule) "info") as [->|H2]; [done|].
    by rewrite bool_decide_eq_false_2 by done.
Qed.

(** The names the sample environment file defines. *)
Lemma Demo_defined (name : string) :
  Spec.definedAnywhere Demo.files Demo.join "/app" Demo.artifacts name = true ->
  name = "K" \/ name = "SEP" \/ name = "A".
Proof.
  unfold Spec.definedAnywhere. cbn [existsb EnvFiles Demo.artifacts Found Path andb orb].
  rewrite orb_false_r. intros [v Hv]%bool_decide_eq_true.
  apply elem_of_map_to_list in Hv.
  assert (map_to_list (Checker.parseEnvFile Demo.files (Demo.join "/app" ".env"))
          = [("K", "v"); ("SEP", ""); ("A", "2")]) as Hl by (vm_compute; reflexivity).
  rewrite Hl in Hv. rewrite !elem_of_cons, elem_of_nil in Hv.
  destruct Hv as [Hv|[Hv|[Hv|[]]]]; injection Hv as -> _; auto.
Qed.

Lemma checkCustomRules_per_rule_witness :
  Checker.customRule_step Demo.compile
    (Checker.collectDefinedVars Demo.files Demo.join "/app" Demo.artifacts) []
    (Config.mkCustomRule "OPTIONAL" "^REDIS_" false "never evaluated" "blocking") = []
  /\ Checker.customRule_step Demo.compile
       (Checker.collectDefinedVars Demo.files Demo.join "/app" Demo.artifacts) []
       (Config.mkCustomRule "BROKEN" "^(" true "does not compile" "blocking") = []
  /\ Checker.customRule_step Demo.compile
       (Checker.collectDefinedVars Demo.files Demo.join "/app" Demo.artifacts) []
       (Config.mkCustomRule "A_REQUIRED" "^A" true "A must be defined" "info") = []
  /\ exists f,
       Checker.customRule_step Demo.compile
         (Checker.collectDefinedVars Demo.files Demo.join "/app" Demo.artifacts) []
         (Config.mkCustomRule "DB_REQUIRED" "^DATABASE_" true
            "Database configuration variables must be defined" "blocking") = [f]
       /\ Code f = "CUSTOM-DB_REQUIRED" /\ Severity_ f = SeverityBlocking.
Proof.
  pose proof (checkCustomRules_per_rule Demo.files Demo.join Demo.compile "/app"
                Demo.artifacts Demo.config) as [_ H].
  cbv zeta in H. split; [|split; [|split]].
  - destruct (H (Config.mkCustomRule "OPTIONAL" "^REDIS_" false "never evaluated"
                   "blocking")) as (H1 & _).
    apply H1. reflexivity.
  - destruct (H (Config.mkCustomRule "BROKEN" "^(" true "does not compile" "blocking"))
      as (_ & H2 & _).
    apply H2. reflexivity.
  - destruct (H (Config.mkCustomRule "A_REQUIRED" "^A" true "A must be defined" "info"))
      as (_ & _ & H3).
    destruct (H3 (fun name => Strings.HasPrefix name "A") eq_refl eq_refl) as [H3a _].
    apply H3a. exists "A". split; vm_compute; reflexivity.
  - destruct (H (Config.mkCustomRule "DB_REQUIRED" "^DATABASE_" true
                   "Database configuration variables must be defined" "blocking"))
      as (_ & _ & H3).
    destruct (H3 (fun name => Strings.HasPrefix name "DATABASE_") eq_refl eq_refl)
      as [_ H3b].
    destruct H3b as (f & Hf & Hc & Hs).
    + intros name [->|[->| ->]]%Demo_defined; reflexivity.
    + exists f. split; [exact Hf|]. split; [exact Hc | exact Hs].
Defined.


(* ===================================================================== *)
(** * Further properties *)
(* ===================================================================== *)

(** ** The report *)

Lemma CalculateSummary_fold (l : list Finding) :
  forall s : Report.ReportSummary,
    fold_left Report.CalculateSummary_step l s
    = {| Report.TotalFindings := Report.TotalFindings s + Z.of_nat (length l);
         Report.BlockingCount :=
           Report.BlockingCount s + Props.countSeverity SeverityBlocking l;
         Report.WarningCount :=
           Report.WarningCount s + Props.countSeverity SeverityWarning l;
         Report.InfoCount := Report.InfoCount s + Props.countSeverity SeverityInfo l |}.
Proof.
  unfold Props.countSeverity.
  induction l as [|f l IH]; intros [t b w i]; cbn [fold_left].
  - cbn. f_equal; lia.
  - rewrite IH. unfold Report.CalculateSummary_step, Spec.hasSeverity.
    cbn [List.filter Report.TotalFindings Report.BlockingCount Report.WarningCount
           Report.InfoCount].
    destruct (Severity_ f); repeat case_bool_decide; try done;
      cbn [length Report.TotalFindings Report.BlockingCount Report.WarningCount
             Report.InfoCount]; f_equal; lia.
Qed.

Lemma count_severities (l : list Finding) :
  Z.of_nat (length l)
  = Props.countSeverity SeverityBlocking l + Props.countSeverity SeverityWarning l
    + Props.countSeverity SeverityInfo l.
Proof.
  unfold Props.countSeverity, Spec.hasSeverity.
  induction l as [|f l IH]; [done|]. cbn [List.filter length].
  destruct (Severity_ f); repeat case_bool_decide; try done; cbn [length]; lia.
Qed.

(** X1.  After [CalculateSummary] the summary counts the findings of the
    report as they are now, whatever the summary held before: the total is
    the number of findings, each count the number of findings of its
    severity, and the three counts add up to the total.  The findings are
    not touched.  (A severity is one of the three constants, as in every
    finding the checks build.) *)
Theorem CalculateSummary_counts (r : Report.Report) :
  let s := Report.Summary (Report.CalculateSummary r) in
  Report.TotalFindings s = Z.of_nat (length (Report.Findings r))
  /\ Report.BlockingCount s = Props.countSeverity SeverityBlocking (Report.Findings r)
  /\ Report.WarningCount s = Props.countSeverity SeverityWarning (Report.Findings r)
  /\ Report.InfoCount s = Props.countSeverity SeverityInfo (Report.Findings r)
  /\ Report.TotalFindings s
     = Report.BlockingCount s + Report.WarningCount s + Report.InfoCount s
  /\ Report.Findings (Report.CalculateSummary r) = Report.Findings r.
Proof.
  cbv zeta. unfold Report.CalculateSummary. cbn [Report.Summary Report.Findings].
  rewrite CalculateSummary_fold.
  cbn [Report.TotalFindings Report.BlockingCount Report.WarningCount Report.InfoCount].
  rewrite !Z.add_0_l. repeat split; try done. apply count_severities.
Qed.

Lemma countSeverity_pos (s : Severity) (l : list Finding) :
  Props.countSeverity s l > 0 <-> exists f, In f l /\ Severity_ f = s.
Proof.
  unfold Props.countSeverity. split.
  - intros H. destruct (List.filter (Spec.hasSeverity s) l) as [|f fs] eqn:Hf;
      [cbn in H; lia|].
    assert (In f (List.filter (Spec.hasSeverity s) l)) as Hin by (rewrite Hf; by left).
    apply filter_In in Hin as [Hin Hs]. exists f. split; [done|].
    by apply bool_decide_eq_true in Hs.
  - intros (f & Hin & Hs).
    assert (In f (List.filter (Spec.hasSeverity s) l)) as Hin'.
    { apply filter_In. split; [done|]. by apply bool_decide_eq_true_2. }
    destruct (List.filter (Spec.hasSeverity s) l); [done|]. cbn [length]. lia.
Qed.

Lemma BlockingCount_CalculateSummary (r : Report.Report) :
  Report.BlockingCount (Report.Summary (Report.CalculateSummary r))
  = Props.countSeverity SeverityBlocking (Report.Findings r).
Proof.
  unfold Report.CalculateSummary. cbn [Report.Summary].
  rewrite CalculateSummary_fold. cbn [Report.BlockingCount]. apply Z.add_0_l.
Qed.

(** X2.  Once the summary is calculated, [HasBlocking] holds exactly when
    the report has a blocking finding. *)
Theorem HasBlocking_after_CalculateSummary (r : Report.Report) :
  Report.HasBlocking (Report.CalculateSummary r) = true
  <-> exists f, In f (Report.Findings r) /\ Severity_ f = SeverityBlocking.
Proof.
  unfold Report.HasBlocking. rewrite BlockingCount_CalculateSummary.
  rewrite <- countSeverity_pos. rewrite Z.gtb_gt. lia.
Qed.

Lemma sublist_filter {A : Type} (p : A -> bool) (l : list A) :
  sublist (List.filter p l) l.
Proof.
  induction l as [|x l IH]; [constructor|]. cbn [List.filter].
  destruct (p x); [by apply sublist_skip | by apply sublist_cons].
Qed.

Lemma FilterBySeverity_spec (r : Report.Report) (minSeverity : Severity) :
  Report.FilterBySeverity r minSeverity
  = List.filter (Props.atLeast minSeverity) (Report.Findings r).
Proof.
  unfold Report.FilterBySeverity. cbv zeta.
  rewrite (fold_left_step_ext _
             (fun result f => if Props.atLeast minSeverity f then result ++ [f] else result)).
  - by rewrite fold_left_keep.
  - intros acc f. unfold Props.atLeast. by rewrite Z.geb_leb.
Qed.

(** X3.  [FilterBySeverity] keeps, in their order, the findings at or above
    the threshold: at [info] it returns every finding, and at a higher
    threshold it returns what filtering the result of a lower threshold
    gives. *)
Theorem FilterBySeverity_thresholds (r : Report.Report) (low high : Severity) :
  SeverityLevel low <= SeverityLevel high ->
  Report.FilterBySeverity r SeverityInfo = Report.Findings r
  /\ Report.FilterBySeverity r high
     = List.filter (Props.atLeast high) (Report.FilterBySeverity r low)
  /\ sublist (Report.FilterBySeverity r high) (Report.FilterBySeverity r low)
  /\ Forall (fun f => SeverityLevel high <= SeverityLevel (Severity_ f))
       (Report.FilterBySeverity r high).
Proof.
  intros Hle. rewrite !FilterBySeverity_spec.
  assert (List.filter (Props.atLeast high) (Report.Findings r)
          = List.filter (Props.atLeast high)
              (List.filter (Props.atLeast low) (Report.Findings r))) as Heq.
  { rewrite filter_filter. apply filter_ext. intros f. unfold Props.atLeast.
    destruct (Z.leb_spec (SeverityLevel high) (SeverityLevel (Severity_ f)));
      [|by rewrite andb_false_r].
    rewrite andb_true_r. symmetry. apply Z.leb_le. lia. }
  split; [|split; [exact Heq|split]].
  - apply filter_all. intros f. unfold Props.atLeast. by destruct (Severity_ f).
  - rewrite Heq. apply sublist_filter.
  - apply List.Forall_forall. intros f [_ Hf]%filter_In. by apply Z.leb_le in Hf.
Qed.

Lemma FilterBySeverity_thresholds_witness :
  Report.FilterBySeverity
    (Report.mkReport "/app" Demo.artifacts Demo.sixFindings (Report.mkReportSummary 0 0 0 0))
    SeverityBlocking
  = List.filter (Props.atLeast SeverityBlocking)
      (Report.FilterBySeverity
         (Report.mkReport "/app" Demo.artifacts Demo.sixFindings
            (Report.mkReportSummary 0 0 0 0))
         SeverityWarning).
Proof.
  apply (FilterBySeverity_thresholds
           (Report.mkReport "/app" Demo.artifacts Demo.sixFindings
              (Report.mkReportSummary 0 0 0 0)) SeverityWarning SeverityBlocking).
  vm_compute. discriminate.
Defined.

(** ** The profiles *)

Lemma Get_cases (name : string) (p : Profiles.Profile) :
  Profiles.Get name = Some p ->
  (name = "default" /\ p = Profiles.default) \/ (name = "strict" /\ p = Profiles.strict)
  \/ (name = "ci" /\ p = Profiles.ci) \/ (name = "minimal" /\ p = Profiles.minimal)
  \/ (name = "full" /\ p = Profiles.full).
Proof.
  unfold Profiles.Get.
  repeat (destruct (string_dec name _) as [->|?]; [intros [= <-]; tauto|]).
  discriminate.
Qed.

Lemma passesProfile_builtin (name : string) (p : Profiles.Profile) (f : Finding) :
  Profiles.Get name = Some p ->
  Spec.passesProfile p f = Props.atLeast (Profiles.MinSeverity p) f.
Proof.
  intros H. apply Get_cases in H.
  destruct H as [[_ ->]|[[_ ->]|[[_ ->]|[[_ ->]| [_ ->]]]]];
    unfold Spec.passesProfile, Props.atLeast; by destruct (Severity_ f).
Qed.

(** X4.  A built-in profile carries the name it is registered under, and its
    filter is the severity floor alone: what [FilterFindings] keeps is what
    [FilterBySeverity] keeps at the profile's minimum severity (the profiles
    that leave info findings out are those whose floor is above info, and no
    built-in profile lists codes). *)
Theorem builtin_profile_is_floor (name : string) (p : Profiles.Profile) (r : Report.Report) :
  Profiles.Get name = Some p ->
  Profiles.Name p = name
  /\ Profiles.FilterFindings p (Report.Findings r)
     = Report.FilterBySeverity r (Profiles.MinSeverity p).
Proof.
  intros H. split.
  - apply Get_cases in H.
    by destruct H as [[-> ->]|[[-> ->]|[[-> ->]|[[-> ->]| [-> ->]]]]].
  - rewrite FilterFindings_spec, FilterBySeverity_spec. apply filter_ext.
    intros f. by apply (passesProfile_builtin name).
Qed.

Lemma builtin_profile_is_floor_witness :
  Profiles.Name Profiles.ci = "ci"
  /\ Profiles.FilterFindings Profiles.ci Demo.sixFindings
     = Report.FilterBySeverity
         (Report.mkReport "/app" Demo.artifacts Demo.sixFindings
            (Report.mkReportSummary 0 0 0 0)) SeverityWarning.
Proof.
  apply (builtin_profile_is_floor "ci" Profiles.ci
           (Report.mkReport "/app" Demo.artifacts Demo.sixFindings
              (Report.mkReportSummary 0 0 0 0))).
  reflexivity.
Defined.

(** X5.  Filtering by a profile twice changes nothing more, and filtering by
    a profile and dropping the ignored codes can be done in either order. *)
Theorem FilterFindings_idempotent_commutes
    (p : Profiles.Profile) (cfg : Config.Config) (l : list Finding) :
  Profiles.FilterFindings p (Profiles.FilterFindings p l) = Profiles.FilterFindings p l
  /\ Profiles.FilterFindings p (Checker.filterIgnoredFindings l cfg)
     = Checker.filterIgnoredFindings (Profiles.FilterFindings p l) cfg
  /\ Checker.filterIgnoredFindings (Checker.filterIgnoredFindings l cfg) cfg
     = Checker.filterIgnoredFindings l cfg.
Proof.
  rewrite !FilterFindings_spec, !filterIgnoredFindings_spec, !filter_filter.
  repeat split; apply filter_ext; intros f.
  - by destruct (Spec.passesProfile p f).
  - apply andb_comm.
  - by destruct (Spec.notIgnored cfg f).
Qed.

Lemma BuiltinProfiles_lookup (name : string) :
  Registry.BuiltinProfiles !! name = Profiles.Get name.
Proof.
  unfold Registry.BuiltinProfiles, Profiles.Get. cbn [list_to_map foldr fst snd uncurry].
  repeat (destruct (string_dec name _) as [->|?];
          [by rewrite ?lookup_insert_eq, ?lookup_insert_ne by done|]).
  rewrite !lookup_insert_ne by done. apply lookup_empty.
Qed.

(** X6.  [List] returns each of the five profile names once, and [Get]
    finds a profile exactly for the names [List] returns: for any other name
    it returns nil. *)
Theorem List_names_Get (name : string) :
  Registry.List ≡ₚ ["default"; "strict"; "ci"; "minimal"; "full"]
  /\ (In name Registry.List <-> is_Some (Profiles.Get name)).
Proof.
  assert (Registry.List = map fst (map_to_list Registry.BuiltinProfiles)) as HL.
  { unfold Registry.List.
    rewrite (fold_left_emit _ (fun kv => [fst kv])) by done.
    cbn [app]. apply flat_map_singleton. }
  split.
  - rewrite HL. apply NoDup_Permutation.
    + apply NoDup_fst_map_to_list.
    + apply NoDup_ListNoDup. repeat constructor; cbn; intuition discriminate.
    + intros x. rewrite elem_of_keys, BuiltinProfiles_lookup.
      rewrite !elem_of_cons, elem_of_nil. unfold Profiles.Get. split.
      * repeat (destruct (string_dec x _) as [->|?]; [tauto|]). by intros [? ?].
      * intros [->|[->|[->|[->|[->|[]]]]]]; by eexists.
  - rewrite HL, <- list_elem_of_In, elem_of_keys, BuiltinProfiles_lookup. done.
Qed.

(** ** The order of versions *)

Lemma firstDifference_opp (a b : list Z) :
  Spec.firstDifference b a = - Spec.firstDifference a b.
Proof.
  revert b. induction a as [|x a IH]; intros [|y b]; cbn [Spec.firstDifference]; try done.
  rewrite (Z.eqb_sym y x). destruct (Z.eqb_spec x y); [apply IH|].
  destruct (Z.sgn_spec (x - y)) as [[? ->]|[[? ->]|[? ->]]];
    destruct (Z.sgn_spec (y - x)) as [[? ->]|[[? ->]|[? ->]]]; lia.
Qed.

Lemma firstDifference_refl (a : list Z) : Spec.firstDifference a a = 0.
Proof.
  induction a as [|x a IH]; [done|]. cbn [Spec.firstDifference].
  by rewrite Z.eqb_refl.
Qed.

Lemma firstDifference_trans3 (a0 a1 a2 b0 b1 b2 c0 c1 c2 : Z) :
  Spec.firstDifference [a0; a1; a2] [b0; b1; b2] <= 0 ->
  Spec.firstDifference [b0; b1; b2] [c0; c1; c2] <= 0 ->
  Spec.firstDifference [a0; a1; a2] [c0; c1; c2] <= 0.
Proof.
  cbn [Spec.firstDifference].
  repeat match goal with
         | |- context [Z.eqb ?x ?y] => destruct (Z.eqb_spec x y)
         end;
  repeat match goal with
         | |- context [Z.sgn ?x] =>
             destruct (Z.sgn_spec x) as [[? ->]|[[? ->]|[? ->]]]
         end; lia.
Qed.

Lemma CompareVersions_opp (v1 v2 : string) :
  Tools.CompareVersions v2 v1 = - Tools.CompareVersions v1 v2.
Proof.
  rewrite !CompareVersions_spec. unfold Spec.compareSegments. apply firstDifference_opp.
Qed.

(** X7.  [CompareVersions] is symmetric in its verdict: a version compares
    equal to itself, and swapping the arguments negates the result. *)
Theorem CompareVersions_swap (v1 v2 : string) :
  Tools.CompareVersions v1 v1 = 0
  /\ Tools.CompareVersions v2 v1 = - Tools.CompareVersions v1 v2.
Proof.
  rewrite !CompareVersions_spec. unfold Spec.compareSegments.
  split; [apply firstDifference_refl | apply firstDifference_opp].
Qed.

(** X8.  [CompareVersions] orders versions consistently: when [a] is not
    above [b] and [b] is not above [c], then [a] is not above [c].  A tool
    that satisfies a minimum therefore satisfies every lower minimum. *)
Theorem CompareVersions_transitive (a b c : string) :
  Tools.CompareVersions a b <= 0 ->
  Tools.CompareVersions b c <= 0 ->
  Tools.CompareVersions a c <= 0.
Proof.
  rewrite !CompareVersions_spec. unfold Spec.compareSegments. cbn [map].
  apply firstDifference_trans3.
Qed.

Lemma CompareVersions_transitive_witness :
  Tools.CompareVersions "1.9" "20.10.0" <= 0.
Proof.
  apply (CompareVersions_transitive "1.9" "v2.0.1" "20.10.0"); vm_compute; discriminate.
Defined.

Lemma Split_cons_other (c : ascii) (s : string) (sep : ascii) :
  c <> sep ->
  exists h t, Strings.Split s sep = h :: t
              /\ Strings.Split (String c s) sep = String c h :: t.
Proof.
  intros Hc. unfold Strings.Split. cbn [Strings.SplitFrom].
  destruct (ascii_dec c sep); [done|].
  destruct (SplitFrom_head s sep (String c EmptyString)) as (h & t & H0 & H1).
  exists h, t. split; [done|]. by rewrite H1.
Qed.

Lemma segmentValue_skip (c : ascii) (h : string) :
  Tools.isDigit c = false -> Spec.segmentValue (String c h) = Spec.segmentValue h.
Proof.
  intros Hc. unfold Spec.segmentValue, Strings.TrimFunc.
  cbn [Strings.TrimLeftFunc]. by rewrite Hc.
Qed.

Lemma parseVersion_prefix (p v : string) :
  Props.noDigitNoDot p = true ->
  Tools.parseVersion (p +:+ v) = Tools.parseVersion v.
Proof.
  rewrite !parseVersion_spec. induction p as [|c p IH]; [done|].
  cbn [Props.noDigitNoDot]. intros [[Hd Hdot]%andb_true_iff Hp]%andb_true_iff.
  apply negb_true_iff in Hd. apply negb_true_iff, bool_decide_eq_false in Hdot.
  rewrite app_cons.
  destruct (Split_cons_other c (p +:+ v) "." Hdot) as (h & t & H0 & H1).
  rewrite H1. rewrite <- (IH Hp), H0. cbn [map]. by rewrite segmentValue_skip.
Qed.

(** X9.  Text without digits and dots in front of a version is ignored on
    either side: [v1.2.3], [V1.2.3] and [go1.2.3] compare as [1.2.3]. *)
Theorem CompareVersions_ignores_prefix (p v1 v2 : string) :
  Props.noDigitNoDot p = true ->
  Tools.CompareVersions (p +:+ v1) v2 = Tools.CompareVersions v1 v2
  /\ Tools.CompareVersions v1 (p +:+ v2) = Tools.CompareVersions v1 v2.
Proof.
  intros Hp. unfold Tools.CompareVersions. cbv zeta.
  by rewrite !(parseVersion_prefix p) by done.
Qed.

Lemma CompareVersions_ignores_prefix_witness :
  Tools.CompareVersions ("go" +:+ "1.21.5") "1.21" = Tools.CompareVersions "1.21.5" "1.21".
Proof.
  apply (CompareVersions_ignores_prefix "go" "1.21.5" "1.21"). reflexivity.
Defined.

Lemma decimalFrom_nonneg (s : string) :
  forall n, Spec.allDigits s = true -> 0 <= n -> 0 <= Spec.decimalFrom n s.
Proof. intros n Hs Hn. pose proof (decimalFrom_mono s n Hs Hn). lia. Qed.

Lemma segmentValue_nonneg (seg : string) : 0 <= Spec.segmentValue seg.
Proof.
  unfold Spec.segmentValue.
  destruct (Strings.TrimFunc seg _) as [|a r]; [done|].
  assert (0 <= Tools.maxInt) by (unfold Tools.maxInt; lia).
  destruct (Spec.allDigits (String a r)) eqn:Hd.
  - pose proof (decimalFrom_nonneg (String a r) 0 Hd). lia.
  - destruct (_ >? _); lia.
Qed.

Lemma segmentAt_nonneg (v : string) (i : nat) : 0 <= Spec.segmentAt Spec.segmentValue v i.
Proof.
  unfold Spec.segmentAt. destruct (_ !! i); [apply segmentValue_nonneg | done].
Qed.

(** X10.  A version without any number (the empty version of a tool whose
    output could not be read, or a word) is never above another version, and
    no version is below it. *)
Theorem CompareVersions_no_number (p v : string) :
  Props.noDigitNoDot p = true ->
  Tools.CompareVersions p v <= 0 /\ 0 <= Tools.CompareVersions v p.
Proof.
  intros Hp.
  assert (Tools.CompareVersions p v <= 0) as H.
  { replace p with (p +:+ "") by apply app_empty_r.
    replace (Tools.CompareVersions (p +:+ "") v) with (Tools.CompareVersions "" v)
      by (unfold Tools.CompareVersions; cbv zeta; by rewrite (parseVersion_prefix p)).
    rewrite CompareVersions_spec. unfold Spec.compareSegments. cbn [map].
    pose proof (segmentAt_nonneg v 0). pose proof (segmentAt_nonneg v 1).
    pose proof (segmentAt_nonneg v 2).
    change (Spec.segmentAt Spec.segmentValue "" 0) with 0.
    change (Spec.segmentAt Spec.segmentValue "" 1) with 0.
    change (Spec.segmentAt Spec.segmentValue "" 2) with 0.
    cbn [Spec.firstDifference].
    repeat match goal with
           | |- context [Z.eqb ?x ?y] => destruct (Z.eqb_spec x y)
           end;
    repeat match goal with
           | |- context [Z.sgn ?x] =>
               destruct (Z.sgn_spec x) as [[? ->]|[[? ->]|[? ->]]]
           end; lia. }
  split; [exact H|]. rewrite (CompareVersions_opp p v). lia.
Qed.

Lemma CompareVersions_no_number_witness :
  Tools.CompareVersions "" "20.10.0" <= 0 /\ 0 <= Tools.CompareVersions "20.10.0" "".
Proof. apply (CompareVersions_no_number "" "20.10.0"). reflexivity. Defined.

(** ** The tool version checks *)

Lemma CheckVersions_step_app (tools : gmap string VersionCheck.ToolInfo)
    (results : list VersionCheck.VersionCheck) (req : string * string) :
  VersionCheck.CheckVersions_step tools results req
  = results ++ VersionCheck.CheckVersions_step tools [] req.
Proof.
  unfold VersionCheck.CheckVersions_step. destruct req as [tool minVersion].
  destruct (bool_decide (minVersion = "")); [by rewrite app_nil_r|].
  destruct (tools !! tool) as [info|]; cbn [negb orb]; [|done].
  by destruct (VersionCheck.Available info).
Qed.

Lemma checkToolVersions_step_app (findings : list Finding)
    (check : VersionCheck.VersionCheck) :
  VersionCheck.checkToolVersions_step findings check
  = findings ++ VersionCheck.checkToolVersions_step [] check.
Proof.
  unfold VersionCheck.checkToolVersions_step.
  destruct (VersionCheck.CheckAvailable check); cbn [negb]; [|done].
  destruct (VersionCheck.Satisfied check); cbn [negb]; [by rewrite app_nil_r | done].
Qed.

Lemma flat_map_flat_map {A B C : Type} (g : B -> list C) (h : A -> list B) (l : list A) :
  flat_map g (flat_map h l) = flat_map (fun x => flat_map g (h x)) l.
Proof.
  induction l as [|x l IH]; [done|]. cbn [flat_map].
  by rewrite flat_map_app, IH.
Qed.

Lemma toolOutcome_step (tools : gmap string VersionCheck.ToolInfo) (req : string * string) :
  flat_map (VersionCheck.checkToolVersions_step [])
    (VersionCheck.CheckVersions_step tools [] req)
  = ScanProps.toolOutcome tools req.
Proof.
  unfold VersionCheck.CheckVersions_step, ScanProps.toolOutcome.
  destruct req as [tool minVersion]. cbn [fst snd].
  destruct (bool_decide (minVersion = "")); [done|].
  destruct (tools !! tool) as [info|]; cbn [negb orb]; [|done].
  destruct (VersionCheck.Available info); cbn [negb app flat_map]; [|done].
  unfold VersionCheck.checkToolVersions_step.
  cbn [VersionCheck.CheckAvailable VersionCheck.Satisfied negb].
  rewrite Z.geb_leb.
  destruct (Z.leb_spec 0 (Tools.CompareVersions (VersionCheck.Version info) minVersion));
    destruct (Z.ltb_spec (Tools.CompareVersions (VersionCheck.Version info) minVersion) 0);
    try lia; done.
Qed.

Lemma checkToolVersions_spec (tools : gmap string VersionCheck.ToolInfo)
    (versions : VersionCheck.ToolVersions) :
  VersionCheck.checkToolVersions tools versions
  = flat_map (ScanProps.toolOutcome tools)
      (map_to_list (VersionCheck.requirementsOf versions)).
Proof.
  unfold VersionCheck.checkToolVersions, VersionCheck.CheckVersions.
  rewrite (fold_left_emit _ _ (CheckVersions_step_app tools)).
  rewrite (fold_left_emit _ _ checkToolVersions_step_app). cbn [app].
  rewrite flat_map_flat_map. apply flat_map_eq, toolOutcome_step.
Qed.

Lemma requirements_perm (versions : VersionCheck.ToolVersions) :
  map_to_list (VersionCheck.requirementsOf versions)
  ≡ₚ List.filter (fun req => negb (bool_decide (snd req = "")))
       (ScanProps.configuredTools versions).
Proof.
  unfold VersionCheck.requirementsOf, ScanProps.configuredTools.
  cbn [List.filter snd].
  destruct (bool_decide (VersionCheck.Docker versions = ""));
    destruct (bool_decide (VersionCheck.DockerCompose versions = ""));
    destruct (bool_decide (VersionCheck.Go versions = ""));
    destruct (bool_decide (VersionCheck.Node versions = ""));
    destruct (bool_decide (VersionCheck.Python versions = "")); cbn [negb].
  all: repeat (rewrite map_to_list_insert
                 by (rewrite ?lookup_insert_ne by done; apply lookup_empty)).
  all: rewrite map_to_list_empty.
  all: match goal with |- _ ≡ₚ ?l => rewrite (Permutation_rev l) end.
  all: reflexivity.
Qed.

Lemma toolOutcome_filter (tools : gmap string VersionCheck.ToolInfo)
    (reqs : list (string * string)) :
  flat_map (ScanProps.toolOutcome tools)
    (List.filter (fun req => negb (bool_decide (snd req = ""))) reqs)
  = flat_map (ScanProps.toolOutcome tools) reqs.
Proof.
  induction reqs as [|req reqs IH]; [reflexivity|].
  cbn [List.filter flat_map].
  destruct (bool_decide (snd req = "")) eqn:Hreq; cbn [negb flat_map]; rewrite IH.
  - unfold ScanProps.toolOutcome at 2. rewrite Hreq. reflexivity.
  - reflexivity.
Qed.

(** X11.  [checkToolVersions] reports, in some order, for each of the five
    tools a configuration can name: nothing when its minimum is empty; one
    blocking [TOOL001] when the probe does not know the tool or found it
    unavailable; one warning [TOOL002] when the tool is available and its
    version compares below the minimum; nothing when it is at or above. *)
Theorem checkToolVersions_outcomes (tools : gmap string VersionCheck.ToolInfo)
    (versions : VersionCheck.ToolVersions) :
  VersionCheck.checkToolVersions tools versions
  ≡ₚ flat_map (ScanProps.toolOutcome tools) (ScanProps.configuredTools versions).
Proof.
  rewrite checkToolVersions_spec,
    <- (toolOutcome_filter tools (ScanProps.configuredTools versions)).
  apply Permutation_flat_map, requirements_perm.
Qed.

(** ** The required variables *)

Lemma checkRequiredEnvVars_spec (ReadFile : string -> option string)
    (Join : string -> string -> string) (basePath : string) (artifacts : Artifacts)
    (cfg : Config.Config) :
  Scan.checkRequiredEnvVars ReadFile Join basePath artifacts cfg
  = map Scan.req001
      (List.filter
         (fun name => negb (Spec.definedAnywhere ReadFile Join basePath artifacts name))
         (Config.RequiredEnvVars cfg)).
Proof.
  unfold Scan.checkRequiredEnvVars.
  destruct (Config.RequiredEnvVars cfg) as [|r required] eqn:Hr; [done|].
  cbn [length Nat.eqb]. cbv zeta.
  rewrite (fold_left_emit _
             (fun required =>
                if negb (Spec.definedAnywhere ReadFile Join basePath artifacts required)
                then [Scan.req001 required] else [])).
  - cbn [app]. generalize (r :: required). intros l.
    induction l as [|x l IH]; [done|]. cbn [flat_map List.filter].
    destruct (negb _); cbn [map app]; by rewrite IH.
  - intros acc x. rewrite collectDefinedVars_spec.
    destruct (negb _); [done | by rewrite app_nil_r].
Qed.

(** X12.  [checkRequiredEnvVars] reports one blocking [REQ001] for each
    entry of [required_env_vars] that no found environment file defines, in
    the order of the list and as often as the name is listed; the names the
    other checks exempt as standard are not exempt here. *)
Theorem checkRequiredEnvVars_undefined (ReadFile : string -> option string)
    (Join : string -> string -> string) (basePath : string) (artifacts : Artifacts)
    (cfg : Config.Config) :
  Scan.checkRequiredEnvVars ReadFile Join basePath artifacts cfg
  = map Scan.req001
      (List.filter
         (fun name => negb (Spec.definedAnywhere ReadFile Join basePath artifacts name))
         (Config.RequiredEnvVars cfg))
  /\ forall name,
       In name (Config.RequiredEnvVars cfg) ->
       Checker.isStandardVar name = true ->
       Spec.definedAnywhere ReadFile Join basePath artifacts name = false ->
       In (Scan.req001 name)
          (Scan.checkRequiredEnvVars ReadFile Join basePath artifacts cfg).
Proof.
  rewrite checkRequiredEnvVars_spec. split; [done|].
  intros name Hin _ Hundef. apply in_map, filter_In. by rewrite Hundef.
Qed.

Lemma checkRequiredEnvVars_undefined_witness :
  In (Scan.req001 "HOME")
     (Scan.checkRequiredEnvVars Sample.files Demo.join "/app" Sample.artifacts
        Sample.config).
Proof.
  destruct (checkRequiredEnvVars_undefined Sample.files Demo.join "/app" Sample.artifacts
              Sample.config) as [_ H].
  apply H; [right; left; reflexivity | reflexivity | reflexivity].
Defined.

(** ** The hints of the README *)

Lemma firstHint_spec (text : string) (patterns : list (string * string)) :
  Scan.firstHint text patterns []
  = match List.find (fun p => StringsMore.Contains text (fst p)) patterns with
    | Some p => [Scan.hint001 (snd p)]
    | None => []
    end.
Proof.
  induction patterns as [|p rest IH]; [done|]. cbn [Scan.firstHint List.find].
  by destruct (StringsMore.Contains text (fst p)).
Qed.

Lemma find_first {A : Type} (p : A -> bool) (before after : list A) (x : A) :
  Forall (fun y => p y = false) before -> p x = true ->
  List.find p (before ++ x :: after) = Some x.
Proof.
  intros Hb Hx. induction Hb as [|y l Hy _ IH]; cbn [app List.find].
  - by rewrite Hx.
  - by rewrite Hy.
Qed.

(** X13.  [checkReadmeHints] reports at most one [HINT001], and only for a
    command of its table that the lower-cased text of a found, readable
    README contains. *)
Theorem checkReadmeHints_at_most_one (ReadFile : string -> option string)
    (Join : string -> string -> string) (ToLower : string -> string)
    (basePath : string) (detected : Scan.Detected) :
  (length (Scan.checkReadmeHints ReadFile Join ToLower basePath detected) <= 1)%nat
  /\ forall f,
       In f (Scan.checkReadmeHints ReadFile Join ToLower basePath detected) ->
       exists readme content pattern hint,
         Scan.Readme detected = Some readme /\ Found readme = true
         /\ ReadFile (Join basePath (Path readme)) = Some content
         /\ In (pattern, hint) Scan.hintPatterns
         /\ StringsMore.Contains (ToLower content) pattern = true
         /\ f = Scan.hint001 hint.
Proof.
  unfold Scan.checkReadmeHints.
  destruct (Scan.Readme detected) as [readme|]; [|split; [cbn; lia | intros f []]].
  destruct (Found readme) eqn:Hfound; cbn [negb]; [|split; [cbn; lia | intros f []]].
  destruct (ReadFile (Join basePath (Path readme))) as [content|] eqn:Hread;
    [|split; [cbn; lia | intros f []]].
  cbv zeta. rewrite firstHint_spec.
  destruct (List.find _ Scan.hintPatterns) as [[pattern hint]|] eqn:Hfind;
    [|split; [cbn; lia | intros f []]].
  split; [cbn; lia|]. intros f [<-|[]].
  apply find_some in Hfind as [Hin Hc].
  by exists readme, content, pattern, hint.
Qed.

Lemma checkReadmeHints_at_most_one_witness :
  exists readme content pattern hint,
    Scan.Readme Sample.detected = Some readme /\ Found readme = true
    /\ Sample.files (Demo.join "/app" (Path readme)) = Some content
    /\ In (pattern, hint) Scan.hintPatterns
    /\ StringsMore.Contains (Sample.toLower content) pattern = true
    /\ Scan.hint001 "docker-compose up" = Scan.hint001 hint.
Proof.
  destruct (checkReadmeHints_at_most_one Sample.files Demo.join Sample.toLower "/app"
              Sample.detected) as [_ H].
  apply (H (Scan.hint001 "docker-compose up")). vm_compute. left. reflexivity.
Defined.

(** X14.  The table is tried from the top and the first command found wins:
    when the lower-cased README contains the command of a row and of no row
    above it, that row's hint is the one reported, wherever the commands
    stand in the text; when it contains none, nothing is reported. *)
Theorem checkReadmeHints_first_row (ReadFile : string -> option string)
    (Join : string -> string -> string) (ToLower : string -> string)
    (basePath : string) (detected : Scan.Detected) (readme : Artifact) (content : string) :
  Scan.Readme detected = Some readme ->
  Found readme = true ->
  ReadFile (Join basePath (Path readme)) = Some content ->
  (forall before pattern hint after,
     Scan.hintPatterns = before ++ (pattern, hint) :: after ->
     Forall (fun row => StringsMore.Contains (ToLower content) (fst row) = false) before ->
     StringsMore.Contains (ToLower content) pattern = true ->
     Scan.checkReadmeHints ReadFile Join ToLower basePath detected = [Scan.hint001 hint])
  /\ (Forall (fun row => StringsMore.Contains (ToLower content) (fst row) = false)
        Scan.hintPatterns ->
      Scan.checkReadmeHints ReadFile Join ToLower basePath detected = []).
Proof.
  intros Hreadme Hfound Hread. unfold Scan.checkReadmeHints.
  rewrite Hreadme, Hfound, Hread. cbn [negb]. cbv zeta. rewrite firstHint_spec. split.
  - intros before pattern hint after -> Hbefore Hc.
    by rewrite (find_first (fun p => StringsMore.Contains (ToLower content) (fst p))
                  before after (pattern, hint) Hbefore Hc).
  - intros Hnone. destruct (List.find _ Scan.hintPatterns) as [row|] eqn:Hfind; [|done].
    apply find_some in Hfind as [Hin Hc].
    rewrite List.Forall_forall in Hnone. by rewrite (Hnone row Hin) in Hc.
Qed.

Lemma checkReadmeHints_first_row_witness :
  Scan.checkReadmeHints Sample.files Demo.join Sample.toLower "/app" Sample.detected
  = [Scan.hint001 "docker-compose up"].
Proof.
  destruct (checkReadmeHints_first_row Sample.files Demo.join Sample.toLower "/app"
              Sample.detected (mkArtifact "README.md" true) Sample.readmeText)
    as [H _]; [reflexivity | reflexivity | reflexivity |].
  apply (H [("docker compose up", "docker compose up")] "docker-compose up"
           "docker-compose up"
           [ ("pnpm install", "pnpm install"); ("pnpm dev", "pnpm dev");
             ("npm install", "npm install"); ("npm run dev", "npm run dev");
             ("yarn install", "yarn install"); ("yarn dev", "yarn dev");
             ("go run", "go run"); ("make run", "make run"); ("make dev", "make dev") ]).
  - reflexivity.
  - repeat constructor.
  - vm_compute. reflexivity.
Defined.

(** ** The build contexts *)

Section Build.
Variable ReadFile : string -> option string.
Variable Join : string -> string -> string.
Variable Join3 : string -> string -> string -> string.
Variable UnmarshalBuild : string -> option (gmap string Scan.Build).
Variable NotExist : string -> bool.
Variable basePath : string.

Lemma buildService_step_spec (composePath : string) (findings : list Finding)
    (svc : string * Scan.Build) :
  Scan.buildService_step Join Join3 NotExist basePath composePath findings svc
  = findings ++ ScanProps.buildOutcome NotExist Join Join3 basePath composePath svc.
Proof.
  unfold Scan.buildService_step, ScanProps.buildOutcome. destruct svc as [svcName build].
  cbn [fst snd].
  assert (forall context dockerfile,
            (if bool_decide (context = "") then findings
             else
               if NotExist (Join basePath context)
               then (if NotExist (Join3 basePath context dockerfile)
                     then findings ++ [Scan.build001 svcName dockerfile context
                                         (Join context dockerfile) composePath]
                     else findings) ++ [Scan.build002 svcName context composePath]
               else if NotExist (Join3 basePath context dockerfile)
                    then findings ++ [Scan.build001 svcName dockerfile context
                                        (Join context dockerfile) composePath]
                    else findings)
            = findings ++
                (if bool_decide (context = "") then []
                 else (if NotExist (Join3 basePath context dockerfile)
                       then [Scan.build001 svcName dockerfile context
                               (Join context dockerfile) composePath]
                       else [])
                      ++ (if NotExist (Join basePath context)
                          then [Scan.build002 svcName context composePath] else [])))
    as Hgen.
  { intros context dockerfile. destruct (bool_decide (context = "")); [by rewrite app_nil_r|].
    destruct (NotExist (Join3 basePath context dockerfile));
      destruct (NotExist (Join basePath context)); cbn [app];
      by rewrite <- ?app_assoc, ?app_nil_r. }
  destruct build as [|s|m|]; cbn [Scan.buildContext];
    [by rewrite bool_decide_eq_true_2, app_nil_r by done | apply Hgen | apply Hgen
    | by rewrite bool_decide_eq_true_2, app_nil_r by done].
Qed.

Lemma buildFile_step_spec (findings : list Finding) (composeFile : Artifact) :
  Scan.buildFile_step ReadFile Join Join3 UnmarshalBuild NotExist basePath findings
    composeFile
  = findings ++ ScanProps.buildFileOutcome ReadFile UnmarshalBuild NotExist Join Join3
                  basePath composeFile.
Proof.
  unfold Scan.buildFile_step, ScanProps.buildFileOutcome.
  destruct (Found composeFile); cbn [negb]; [|by rewrite app_nil_r].
  destruct (ReadFile (Join basePath (Path composeFile))) as [content|];
    [|by rewrite app_nil_r].
  destruct (UnmarshalBuild content) as [services|]; [|by rewrite app_nil_r].
  generalize (map_to_list services). intros l. revert findings.
  induction l as [|svc l IH]; intros findings; cbn [fold_left flat_map];
    [by rewrite app_nil_r|].
  by rewrite IH, buildService_step_spec, <- app_assoc.
Qed.

Lemma checkBuildContexts_spec (artifacts : Artifacts) :
  Scan.checkBuildContexts ReadFile Join Join3 UnmarshalBuild NotExist basePath artifacts
  = flat_map (ScanProps.buildFileOutcome ReadFile UnmarshalBuild NotExist Join Join3
                basePath)
      (ComposeFiles artifacts).
Proof.
  unfold Scan.checkBuildContexts.
  by rewrite (fold_left_emit _ _ buildFile_step_spec).
Qed.

End Build.


(** ** [CheckWithOptions] *)

Lemma firstPerName_In (occs : list Spec.occurrence) (o : Spec.occurrence) :
  In o (Spec.firstPerName occs) -> In o occs.
Proof.
  induction occs as [|x occs IH]; [done|]. cbn [Spec.firstPerName].
  intros [->|[H _]%filter_In]; [by left | right; by apply IH].
Qed.

Lemma firstFound_none (l : list Artifact) :
  Checker.firstFound l = None -> anyFound l = false.
Proof.
  induction l as [|x l IH]; [done|]. cbn [Checker.firstFound anyFound].
  by destruct (Found x).
Qed.

Lemma checkEnvExample_codes (ReadFile : string -> option string)
    (Join : string -> string -> string) (basePath : string) (artifacts : Artifacts)
    (f : Finding) :
  In f (Checker.checkEnvExample ReadFile Join basePath artifacts) ->
  (Code f = "ENV002" \/ Code f = "ENV003") /\ Severity_ f = SeverityWarning.
Proof.
  destruct (Checker.firstFound (EnvExamples artifacts)) as [e|] eqn:He.
  - rewrite (checkEnvExample_spec ReadFile Join basePath artifacts e He).
    destruct (HasEnv artifacts).
    + destruct (Checker.firstPrimary _) as [p|]; [|done].
      intros (k & <- & _)%in_map_iff. split; [by left | done].
    + intros [<-|[]]. split; [by right | done].
  - unfold Checker.checkEnvExample, HasEnvExample.
    by rewrite (firstFound_none _ He).
Qed.

Section Scan.
Variable ReadFile : string -> option string.
Variable Join : string -> string -> string.
Variable Join3 : string -> string -> string -> string.
Variable Unmarshal : string -> option (gmap string Yaml.Node).
Variable UnmarshalBuild : string -> option (gmap string Scan.Build).
Variable Compile : string -> option (string -> bool).
Variable ToLower : string -> string.
Variable NotExist : string -> bool.
Variable DetectTools : gmap string VersionCheck.ToolInfo.
Variable basePath : string.
Variable tree : Filepath.entry.
Variable artifacts : Artifacts.
Variable detected : Scan.Detected.

Local Abbreviation run :=
  (Scan.CheckWithOptions ReadFile Join Join3 Unmarshal UnmarshalBuild Compile ToLower
     NotExist DetectTools basePath tree artifacts detected).

(** The checks that always run. *)
Local Abbreviation basic :=
  (Checker.checkComposeEnvRefs ReadFile Join basePath artifacts
   ++ Checker.checkEnvExample ReadFile Join basePath artifacts
   ++ Checker.checkComposeDependsOn ReadFile Join Unmarshal basePath artifacts
   ++ Scan.checkBuildContexts ReadFile Join Join3 UnmarshalBuild NotExist basePath artifacts
   ++ Scan.addLanguageInfo detected
   ++ Scan.checkReadmeHints ReadFile Join ToLower basePath detected).

Lemma CheckWithOptions_spec (opts : Scan.Options) :
  run opts
  = let found :=
      basic
      ++ (if Scan.EnableSourceScanning opts
          then Checker.checkSourceCodeEnvRefs ReadFile Join basePath tree artifacts
          else [])
      ++ match Scan.Config_ opts with
         | Some cfg =>
             (match Scan.CheckToolVersions opts, Scan.ToolVersions cfg with
              | true, Some versions => VersionCheck.checkToolVersions DetectTools versions
              | _, _ => []
              end)
             ++ Checker.checkCustomRules ReadFile Join Compile basePath artifacts
                  (Scan.Base cfg)
             ++ Scan.checkRequiredEnvVars ReadFile Join basePath artifacts (Scan.Base cfg)
         | None => []
         end in
    match Scan.Config_ opts with
    | Some cfg => List.filter (Spec.notIgnored (Scan.Base cfg)) found
    | None => found
    end.
Proof.
  unfold Scan.CheckWithOptions. cbv zeta. cbn [app].
  destruct (Scan.Config_ opts) as [cfg|].
  - rewrite filterIgnoredFindings_spec. f_equal.
    destruct (Scan.EnableSourceScanning opts), (Scan.CheckToolVersions opts),
      (Scan.ToolVersions cfg); cbn [app]; by rewrite <- ?app_assoc, ?app_nil_r.
  - destruct (Scan.EnableSourceScanning opts), (Scan.CheckToolVersions opts);
      cbn [app]; by rewrite <- ?app_assoc, ?app_nil_r.
Qed.

(** Where a finding of the scan comes from. *)
Lemma CheckWithOptions_origin (opts : Scan.Options) (f : Finding) :
  In f (run opts) ->
  (In f basic
   \/ (Scan.EnableSourceScanning opts = true
       /\ In f (Checker.checkSourceCodeEnvRefs ReadFile Join basePath tree artifacts))
   \/ exists cfg,
        Scan.Config_ opts = Some cfg
        /\ ((Scan.CheckToolVersions opts = true
             /\ exists versions,
                  Scan.ToolVersions cfg = Some versions
                  /\ In f (VersionCheck.checkToolVersions DetectTools versions))
            \/ In f (Checker.checkCustomRules ReadFile Join Compile basePath artifacts
                       (Scan.Base cfg))
            \/ In f (Scan.checkRequiredEnvVars ReadFile Join basePath artifacts
                       (Scan.Base cfg))))
  /\ forall cfg, Scan.Config_ opts = Some cfg -> Spec.notIgnored (Scan.Base cfg) f = true.
Proof.
  rewrite CheckWithOptions_spec. cbv zeta. intros Hin.
  assert (In f (basic
      ++ (if Scan.EnableSourceScanning opts
          then Checker.checkSourceCodeEnvRefs ReadFile Join basePath tree artifacts
          else [])
      ++ match Scan.Config_ opts with
         | Some cfg =>
             (match Scan.CheckToolVersions opts, Scan.ToolVersions cfg with
              | true, Some versions => VersionCheck.checkToolVersions DetectTools versions
              | _, _ => []
              end)
             ++ Checker.checkCustomRules ReadFile Join Compile basePath artifacts
                  (Scan.Base cfg)
             ++ Scan.checkRequiredEnvVars ReadFile Join basePath artifacts (Scan.Base cfg)
         | None => []
         end)
          /\ forall cfg, Scan.Config_ opts = Some cfg
                         -> Spec.notIgnored (Scan.Base cfg) f = true) as [Hfound Hkept].
  { destruct (Scan.Config_ opts) as [cfg|]; [|by split].
    apply filter_In in Hin as [Hin Hk]. split; [done|]. by intros ? [= <-]. }
  split; [|done]. clear Hin Hkept.
  apply in_app_or in Hfound as [H|H]; [by left|].
  apply in_app_or in H as [H|H].
  - right; left. by destruct (Scan.EnableSourceScanning opts).
  - right; right. destruct (Scan.Config_ opts) as [cfg|]; [|done].
    exists cfg. split; [done|].
    apply in_app_or in H as [H|H]; [|apply in_app_or in H; tauto].
    left. destruct (Scan.CheckToolVersions opts); [|done]. split; [done|].
    destruct (Scan.ToolVersions cfg) as [versions|]; [|done]. by exists versions.
Qed.

(** The codes and severities of the checks that always run, the first
    apart. *)
Lemma others_codes (f : Finding) :
  In f (Checker.checkEnvExample ReadFile Join basePath artifacts
        ++ Checker.checkComposeDependsOn ReadFile Join Unmarshal basePath artifacts
        ++ Scan.checkBuildContexts ReadFile Join Join3 UnmarshalBuild NotExist basePath
             artifacts
        ++ Scan.addLanguageInfo detected
        ++ Scan.checkReadmeHints ReadFile Join ToLower basePath detected) ->
  In (Code f, Severity_ f)
     [ ("ENV002", SeverityWarning); ("ENV003", SeverityWarning);
       ("CMP001", SeverityBlocking); ("BUILD001", SeverityBlocking);
       ("BUILD002", SeverityBlocking); ("LANG001", SeverityInfo);
       ("HINT001", SeverityInfo) ].
Proof.
  clear Compile DetectTools tree.
  intros H. repeat (apply in_app_or in H as [H|H]).
  - apply checkEnvExample_codes in H as [[H1|H1] H2]; rewrite H1, H2; cbn; tauto.
  - rewrite checkComposeDependsOn_spec in H.
    apply in_flat_map in H as (c & _ & H). unfold Spec.composeFileUnknown in H.
    destruct (Found c); [|done]. destruct (ReadFile _); [|done].
    destruct (Unmarshal _); [|done]. apply in_map_iff in H as (r & <- & _). cbn. tauto.
  - rewrite checkBuildContexts_spec in H.
    apply in_flat_map in H as (c & _ & H). unfold ScanProps.buildFileOutcome in H.
    destruct (Found c); [|done]. destruct (ReadFile _); [|done].
    destruct (UnmarshalBuild _); [|done].
    apply in_flat_map in H as (svc & _ & H). unfold ScanProps.buildOutcome in H.
    destruct (Scan.buildContext _) as [context dockerfile].
    destruct (bool_decide _); [done|].
    apply in_app_or in H as [H|H];
      [destruct (NotExist (Join3 _ _ _)) | destruct (NotExist (Join _ _))]; try done;
      destruct H as [<-|[]]; cbn; tauto.
  - unfold Scan.addLanguageInfo in H. destruct (negb _); [|done].
    destruct H as [<-|[]]. cbn. tauto.
  - unfold Scan.checkReadmeHints in H.
    destruct (Scan.Readme detected) as [readme|]; [|done].
    destruct (negb _); [done|]. destruct (ReadFile _); [|done].
    cbv zeta in H. rewrite firstHint_spec in H. destruct (List.find _ _); [|done].
    destruct H as [<-|[]]. cbn. tauto.
Qed.

Lemma basic_codes (f : Finding) :
  In f basic ->
  In (Code f, Severity_ f)
     [ ("ENV001", SeverityBlocking); ("ENV002", SeverityWarning);
       ("ENV003", SeverityWarning); ("CMP001", SeverityBlocking);
       ("BUILD001", SeverityBlocking); ("BUILD002", SeverityBlocking);
       ("LANG001", SeverityInfo); ("HINT001", SeverityInfo) ].
Proof.
  clear Compile DetectTools tree.
  intros [H|H]%in_app_or.
  - rewrite checkComposeEnvRefs_spec in H. apply in_map_iff in H as (o & <- & _).
    by left.
  - right. by apply others_codes.
Qed.

End Scan.

Lemma source_codes (ReadFile : string -> option string) (Join : string -> string -> string)
    (basePath : string) (tree : Filepath.entry) (artifacts : Artifacts) (f : Finding) :
  In f (Checker.checkSourceCodeEnvRefs ReadFile Join basePath tree artifacts) ->
  Code f = "SRC001" /\ Severity_ f = SeverityWarning.
Proof.
  rewrite checkSourceCodeEnvRefs_spec. by intros (o & <- & _)%in_map_iff.
Qed.

Lemma tool_codes (DetectTools : gmap string VersionCheck.ToolInfo)
    (versions : VersionCheck.ToolVersions) (f : Finding) :
  In f (VersionCheck.checkToolVersions DetectTools versions) ->
  (Code f = "TOOL001" /\ Severity_ f = SeverityBlocking)
  \/ (Code f = "TOOL002" /\ Severity_ f = SeverityWarning).
Proof.
  rewrite checkToolVersions_spec. intros (req & _ & H)%in_flat_map.
  unfold ScanProps.toolOutcome in H. destruct (bool_decide _); [done|].
  destruct (DetectTools !! _) as [info|]; [|destruct H as [<-|[]]; by left].
  destruct (VersionCheck.Available info); [|destruct H as [<-|[]]; by left].
  destruct (_ <? 0); [|done]. destruct H as [<-|[]]. by right.
Qed.

Lemma custom_codes (ReadFile : string -> option string) (Join : string -> string -> string)
    (Compile : string -> option (string -> bool)) (basePath : string)
    (artifacts : Artifacts) (cfg : Config.Config) (f : Finding) :
  In f (Checker.checkCustomRules ReadFile Join Compile basePath artifacts cfg) ->
  exists rule, In rule (Config.CustomRules cfg)
               /\ Code f = "CUSTOM-" +:+ Config.ID rule
               /\ Severity_ f = Checker.ruleSeverity rule.
Proof.
  rewrite checkCustomRules_spec. intros (rule & Hin & H)%in_flat_map.
  exists rule. split; [done|]. unfold Checker.customRule_step in H.
  destruct (negb _); [done|]. destruct (Compile _); [|done].
  destruct (negb _); [|done]. by destruct H as [<-|[]].
Qed.

Lemma required_codes (ReadFile : string -> option string)
    (Join : string -> string -> string) (basePath : string) (artifacts : Artifacts)
    (cfg : Config.Config) (f : Finding) :
  In f (Scan.checkRequiredEnvVars ReadFile Join basePath artifacts cfg) ->
  Code f = "REQ001" /\ Severity_ f = SeverityBlocking.
Proof.
  rewrite checkRequiredEnvVars_spec. by intros (name & <- & _)%in_map_iff.
Qed.

Lemma custom_code_prefix (id : string) :
  Strings.HasPrefix ("CUSTOM-" +:+ id) "CUSTOM-" = true.
Proof. rewrite !app_cons. cbn. apply HasPrefix_empty. Qed.

Ltac no_such_code :=
  let H := fresh in
  intros H; exfalso; vm_compute in H; first [discriminate | by destruct H].

(** X16.  Every finding of a scan has a code of the fixed table with the
    severity the table gives it, or is the finding of a custom rule of the
    configuration: its code is [CUSTOM-] followed by the rule's ID, and its
    severity is the one the rule's severity text resolves to. *)
Theorem CheckWithOptions_codes (ReadFile : string -> option string)
    (Join : string -> string -> string) (Join3 : string -> string -> string -> string)
    (Unmarshal : string -> option (gmap string Yaml.Node))
    (UnmarshalBuild : string -> option (gmap string Scan.Build))
    (Compile : string -> option (string -> bool)) (ToLower : string -> string)
    (NotExist : string -> bool) (DetectTools : gmap string VersionCheck.ToolInfo)
    (basePath : string) (tree : Filepath.entry) (artifacts : Artifacts)
    (detected : Scan.Detected) (opts : Scan.Options) :
  List.Forall (ScanProps.wellCoded (ScanProps.rulesOf opts))
    (Scan.CheckWithOptions ReadFile Join Join3 Unmarshal UnmarshalBuild Compile ToLower
       NotExist DetectTools basePath tree artifacts detected opts).
Proof.
  apply List.Forall_forall. intros f Hin.
  apply CheckWithOptions_origin in Hin as [[H|[[_ H]|(cfg & Hcfg & [(_ & v & _ & H)|[H|H]])]] _].
  - left. apply basic_codes in H. unfold ScanProps.taxonomy. cbn in H |- *. tauto.
  - left. apply source_codes in H as [-> ->]. cbn. tauto.
  - left. apply tool_codes in H as [[-> ->]|[-> ->]]; cbn; tauto.
  - right. unfold ScanProps.rulesOf. rewrite Hcfg. by apply custom_codes in H.
  - left. apply required_codes in H as [-> ->]. cbn. tauto.
Qed.

(** X17.  The optional checks are gated: a [SRC001] finding is only there
    when source scanning is enabled, a [TOOL001] or [TOOL002] only when the
    tool check is requested and the configuration has tool versions, and a
    [REQ001] or a custom finding only with a configuration. *)
Theorem CheckWithOptions_gates (ReadFile : string -> option string)
    (Join : string -> string -> string) (Join3 : string -> string -> string -> string)
    (Unmarshal : string -> option (gmap string Yaml.Node))
    (UnmarshalBuild : string -> option (gmap string Scan.Build))
    (Compile : string -> option (string -> bool)) (ToLower : string -> string)
    (NotExist : string -> bool) (DetectTools : gmap string VersionCheck.ToolInfo)
    (basePath : string) (tree : Filepath.entry) (artifacts : Artifacts)
    (detected : Scan.Detected) (opts : Scan.Options) (f : Finding) :
  In f (Scan.CheckWithOptions ReadFile Join Join3 Unmarshal UnmarshalBuild Compile ToLower
          NotExist DetectTools basePath tree artifacts detected opts) ->
  (Code f = "SRC001" -> Scan.EnableSourceScanning opts = true)
  /\ (Code f = "TOOL001" \/ Code f = "TOOL002" ->
      Scan.CheckToolVersions opts = true
      /\ exists cfg versions,
           Scan.Config_ opts = Some cfg /\ Scan.ToolVersions cfg = Some versions)
  /\ (Code f = "REQ001" \/ Strings.HasPrefix (Code f) "CUSTOM-" = true ->
      exists cfg, Scan.Config_ opts = Some cfg).
Proof.
  intros Hin.
  apply CheckWithOptions_origin in Hin as [[H|[[Hs H]|(cfg & Hcfg & [(Ht & v & Hv & H)|[H|H]])]] _].
  - apply basic_codes in H. cbn in H.
    split; [|split]; intros Hc; exfalso;
      repeat (destruct H as [[= H1 _]|H];
              [rewrite <- H1 in Hc; vm_compute in Hc;
               first [discriminate | by destruct Hc]|]);
      done.
  - apply source_codes in H as [Hc _]. rewrite Hc.
    split; [done|]. split; no_such_code.
  - split; [|split]; [|intros _; by split; [|exists cfg, v] | intros _; by exists cfg].
    apply tool_codes in H as [[Hc _]|[Hc _]]; rewrite Hc; no_such_code.
  - apply custom_codes in H as (rule & _ & Hc & _).
    pose proof (custom_code_prefix (Config.ID rule)) as Hp. rewrite <- Hc in Hp.
    split; [|split]; intros Hx; [| |by exists cfg]; exfalso.
    + rewrite Hx in Hp. discriminate.
    + destruct Hx as [Hx|Hx]; rewrite Hx in Hp; discriminate.
  - apply required_codes in H as [Hc _]. rewrite Hc.
    split; [no_such_code|]. split; [no_such_code | by exists cfg].
Qed.

Lemma CheckWithOptions_gates_witness :
  Scan.EnableSourceScanning Sample.options = true.
Proof.
  destruct (CheckWithOptions_gates Sample.files Demo.join Sample.join3 Demo.unmarshal
              Sample.unmarshalBuild Demo.compile Sample.toLower Sample.notExist
              Sample.tools "/app" Demo.tree Sample.artifacts Sample.detected
              Sample.options (Checker.src001 "PORT" "main.go" 2)) as [H _].
  - vm_compute. repeat (first [left; reflexivity | right]).
  - apply H. reflexivity.
Defined.

(** X18.  [Check], the scan without options, only produces findings of the
    eight codes of the checks that always run: no source, tool, required
    variable or custom finding, and nothing is filtered. *)
Theorem Check_basic_codes (ReadFile : string -> option string)
    (Join : string -> string -> string) (Join3 : string -> string -> string -> string)
    (Unmarshal : string -> option (gmap string Yaml.Node))
    (UnmarshalBuild : string -> option (gmap string Scan.Build))
    (Compile : string -> option (string -> bool)) (ToLower : string -> string)
    (NotExist : string -> bool) (DetectTools : gmap string VersionCheck.ToolInfo)
    (basePath : string) (tree : Filepath.entry) (artifacts : Artifacts)
    (detected : Scan.Detected) :
  Scan.Check ReadFile Join Join3 Unmarshal UnmarshalBuild Compile ToLower NotExist
    DetectTools basePath tree artifacts detected
  = Checker.checkComposeEnvRefs ReadFile Join basePath artifacts
    ++ Checker.checkEnvExample ReadFile Join basePath artifacts
    ++ Checker.checkComposeDependsOn ReadFile Join Unmarshal basePath artifacts
    ++ Scan.checkBuildContexts ReadFile Join Join3 UnmarshalBuild NotExist basePath
         artifacts
    ++ Scan.addLanguageInfo detected
    ++ Scan.checkReadmeHints ReadFile Join ToLower basePath detected
  /\ List.Forall (fun f => In (Code f) ScanProps.basicCodes)
       (Scan.Check ReadFile Join Join3 Unmarshal UnmarshalBuild Compile ToLower NotExist
          DetectTools basePath tree artifacts detected).
Proof.
  unfold Scan.Check. rewrite CheckWithOptions_spec.
  cbn [Scan.EnableSourceScanning Scan.Config_ Scan.CheckToolVersions]. cbv zeta.
  rewrite !app_nil_r. split; [done|].
  apply List.Forall_forall. intros f H.
  apply basic_codes in H.
  cbn in H |- *.
  repeat (destruct H as [[= <- _]|H]; [tauto|]). done.
Qed.

(** X19.  The list [ignore_codes] only removes findings at the end of the
    scan: the scan with the list gives the findings of the scan with the
    same configuration and an empty list, in their order, without those
    whose code is listed; no finding of a listed code is ever returned. *)
Theorem CheckWithOptions_ignore_codes (ReadFile : string -> option string)
    (Join : string -> string -> string) (Join3 : string -> string -> string -> string)
    (Unmarshal : string -> option (gmap string Yaml.Node))
    (UnmarshalBuild : string -> option (gmap string Scan.Build))
    (Compile : string -> option (string -> bool)) (ToLower : string -> string)
    (NotExist : string -> bool) (DetectTools : gmap string VersionCheck.ToolInfo)
    (basePath : string) (tree : Filepath.entry) (artifacts : Artifacts)
    (detected : Scan.Detected) (sourceScanning checkTools : bool)
    (rules : list Config.CustomRule) (ignored required : list string)
    (versions : option VersionCheck.ToolVersions) :
  let scan codes :=
    Scan.CheckWithOptions ReadFile Join Join3 Unmarshal UnmarshalBuild Compile ToLower
      NotExist DetectTools basePath tree artifacts detected
      (Scan.mkOptions sourceScanning
         (Some (Scan.mkSettings (Config.mkConfig rules codes required) versions))
         checkTools) in
  scan ignored
  = List.filter (fun f => negb (Config.ShouldIgnoreCode ignored (Code f))) (scan [])
  /\ List.Forall (fun f => ~ In (Code f) ignored) (scan ignored).
Proof.
  cbv beta zeta.
  assert (forall codes (f : Finding),
            Spec.notIgnored (Config.mkConfig rules codes required) f
            = negb (Config.ShouldIgnoreCode codes (Code f))) as Hkeep.
  { intros codes f. unfold Spec.notIgnored. cbn [Config.IgnoreCodes].
    by rewrite ShouldIgnoreCode_spec. }
  rewrite !CheckWithOptions_spec.
  cbn [Scan.Config_ Scan.EnableSourceScanning Scan.CheckToolVersions Scan.Base
         Scan.ToolVersions]. cbv zeta.
  rewrite !checkCustomRules_spec, !checkRequiredEnvVars_spec.
  cbn [Config.CustomRules Config.RequiredEnvVars].
  rewrite (filter_all (Spec.notIgnored (Config.mkConfig rules [] required)))
    by (intros f; by rewrite Hkeep).
  split.
  - apply filter_ext. intros f. apply Hkeep.
  - apply List.Forall_forall. intros f [_ Hf]%filter_In.
    rewrite Hkeep, ShouldIgnoreCode_spec in Hf.
    apply negb_true_iff, bool_decide_eq_false in Hf. by rewrite <- list_elem_of_In.
Qed.




(** ** The detector *)

Section Detect.
Variable fileExists : string -> bool.
Variable Join : string -> string -> string.
Variable IsAbs : string -> bool.
Variable Glob : string -> list string.
Variable BaseName : string -> string.
Variable basePath : string.

Local Abbreviation present := (DetectProps.present fileExists Join basePath).
Local Abbreviation overrideArtifact :=
  (DetectProps.overrideArtifact fileExists Join IsAbs basePath).
Local Abbreviation manifestFound := (DetectProps.manifestFound fileExists Join Glob basePath).
Local Abbreviation manifestArtifact := (DetectProps.manifestArtifact Join Glob BaseName basePath).

Lemma fold_found (names : list string) (acc : list Artifact) :
  fold_left
    (fun acc name =>
       if fileExists (Join basePath name) then acc ++ [mkArtifact name true] else acc)
    names acc
  = acc ++ map DetectProps.foundArtifact (List.filter present names).
Proof.
  clear IsAbs Glob BaseName.
  rewrite (fold_left_emit _
             (fun name => if present name then [DetectProps.foundArtifact name] else [])).
  - f_equal. apply flat_map_cond.
  - intros a name. unfold DetectProps.present. destruct (fileExists _);
      [done | by rewrite app_nil_r].
Qed.

Lemma fold_candidates (names : list string) (acc : list Artifact) :
  fold_left
    (fun acc name => acc ++ [mkArtifact name (fileExists (Join basePath name))]) names acc
  = acc ++ map (DetectProps.candidateArtifact fileExists Join basePath) names.
Proof.
  clear IsAbs Glob BaseName.
  rewrite (fold_left_emit _
             (fun name => [DetectProps.candidateArtifact fileExists Join basePath name]))
    by done.
  by rewrite flat_map_singleton.
Qed.

Lemma fold_overrides (overrides : list string) :
  forall st : list Artifact * list Artifact,
    fold_left
      (fun st override =>
         let fullPath := if negb (IsAbs override) then Join basePath override else override in
         let found := fileExists fullPath in
         if StringsMore.Contains override "example"
         then (fst st, snd st ++ [mkArtifact override found])
         else (fst st ++ [mkArtifact override found], snd st))
      overrides st
    = (fst st ++ map overrideArtifact
                   (List.filter (fun o => negb (DetectProps.isExample o)) overrides),
       snd st ++ map overrideArtifact (List.filter DetectProps.isExample overrides)).
Proof.
  clear Glob BaseName.
  induction overrides as [|o overrides IH]; intros [envs examples];
    cbn [fold_left List.filter map fst snd]; [by rewrite !app_nil_r|].
  rewrite IH. unfold DetectProps.isExample, DetectProps.overrideArtifact.
  destruct (StringsMore.Contains o "example"); cbn [negb fst snd map];
    by rewrite <- ?app_assoc.
Qed.

Lemma detectEnvFiles_spec (overrides : list string) :
  Detector.detectEnvFiles fileExists Join IsAbs basePath overrides [] []
  = match overrides with
    | [] =>
        (map (DetectProps.candidateArtifact fileExists Join basePath)
           Detector.envCandidates,
         map DetectProps.foundArtifact (List.filter present Detector.exampleCandidates))
    | _ :: _ =>
        (map overrideArtifact
           (List.filter (fun o => negb (DetectProps.isExample o)) overrides),
         map overrideArtifact (List.filter DetectProps.isExample overrides))
    end.
Proof.
  clear Glob BaseName.
  unfold Detector.detectEnvFiles. destruct overrides as [|o overrides].
  - cbn [length Nat.ltb Nat.leb]. cbv zeta. by rewrite fold_found, fold_candidates.
  - cbn [length Nat.ltb Nat.leb]. by rewrite fold_overrides.
Qed.

Lemma detectComposeFiles_spec (override : string) :
  Detector.detectComposeFiles fileExists Join IsAbs basePath override []
  = if bool_decide (override = "")
    then map DetectProps.foundArtifact (List.filter present Detector.composeCandidates)
    else if Found (overrideArtifact override) then [overrideArtifact override]
         else overrideArtifact override
              :: map DetectProps.foundArtifact
                   (List.filter present Detector.composeCandidates).
Proof.
  clear Glob BaseName.
  unfold Detector.detectComposeFiles.
  destruct (bool_decide (override = "")); cbn [negb]; [by rewrite fold_found|].
  cbv zeta. cbn [app]. unfold DetectProps.overrideArtifact. cbn [Found].
  destruct (fileExists _); [done|]. by rewrite fold_found.
Qed.

Lemma manifest_fold (rows : list Detector.manifest) :
  forall (found_ : list Artifact) (detectedLang packageManager : string),
    Forall (fun m => Detector.lang m <> "") rows ->
    fold_left (Detector.detectManifests_step fileExists Join Glob BaseName basePath) rows
      (found_, detectedLang, packageManager)
    = (found_ ++ map manifestArtifact (List.filter manifestFound rows),
       (if bool_decide (detectedLang = "")
        then match List.find manifestFound rows with
             | Some m => Detector.lang m
             | None => ""
             end
        else detectedLang),
       (if bool_decide (packageManager = "")
        then match List.find (fun m => manifestFound m && DetectProps.namesManager m) rows with
             | Some m => Detector.pkgMgr m
             | None => ""
             end
        else packageManager)).
Proof.
  clear IsAbs.
  induction rows as [|m rows IH]; intros found_ dl pm Hrows.
  - cbn [fold_left List.filter map List.find]. rewrite app_nil_r.
    do 2 case_bool_decide; by subst.
  - apply Forall_cons in Hrows as [Hm Hrows]. cbn [fold_left List.filter List.find].
    assert (Detector.detectManifests_step fileExists Join Glob BaseName basePath
              (found_, dl, pm) m
            = if manifestFound m
              then (found_ ++ [manifestArtifact m],
                    (if bool_decide (dl = "") then Detector.lang m else dl),
                    (if DetectProps.namesManager m && bool_decide (pm = "")
                     then Detector.pkgMgr m else pm))
              else (found_, dl, pm)) as ->.
    { unfold Detector.detectManifests_step, DetectProps.manifestFound,
        DetectProps.manifestArtifact, DetectProps.namesManager, DetectProps.present.
      destruct (StringsMore.Contains (Detector.file m) "*").
      - by destruct (Glob _).
      - by destruct (fileExists _). }
    destruct (manifestFound m) eqn:Hf; cbn [andb]; [|by rewrite IH].
    rewrite IH by done. cbn [map]. rewrite <- app_assoc. cbn [app].
    f_equal; [f_equal|].
    + destruct (bool_decide (dl = "")) eqn:Hdl; [|by rewrite Hdl].
      by rewrite bool_decide_eq_false_2.
    + unfold DetectProps.namesManager.
      destruct (bool_decide (Detector.pkgMgr m = "")) eqn:Hp,
        (bool_decide (pm = "")) eqn:Hpm; cbn [negb andb]; by rewrite ?Hp, ?Hpm.
Qed.

Lemma manifests_langs : Forall (fun m => Detector.lang m <> "") Detector.manifests.
Proof. unfold Detector.manifests. repeat constructor; done. Qed.

Lemma detectManifests_spec :
  Detector.detectManifests fileExists Join Glob BaseName basePath ([], "", "")
  = (map manifestArtifact (List.filter manifestFound Detector.manifests),
     match List.find manifestFound Detector.manifests with
     | Some m => Detector.lang m
     | None => ""
     end,
     match List.find (fun m => manifestFound m && DetectProps.namesManager m)
             Detector.manifests with
     | Some m => Detector.pkgMgr m
     | None => ""
     end).
Proof.
  unfold Detector.detectManifests. by rewrite manifest_fold by apply manifests_langs.
Qed.

End Detect.

Lemma anyFound_candidates (fileExists : string -> bool) (Join : string -> string -> string)
    (basePath : string) (names : list string) :
  anyFound (map (DetectProps.candidateArtifact fileExists Join basePath) names)
  = existsb (DetectProps.present fileExists Join basePath) names.
Proof.
  induction names as [|n names IH]; [done|]. cbn [map anyFound existsb Found
    DetectProps.candidateArtifact]. rewrite IH.
  by destruct (DetectProps.present fileExists Join basePath n).
Qed.

Lemma firstFound_present (p : string -> bool) (names : list string) :
  Checker.firstFound (map DetectProps.foundArtifact (List.filter p names))
  = DetectProps.foundArtifact <$> List.find p names.
Proof.
  induction names as [|n names IH]; [done|]. cbn [List.filter List.find].
  by destruct (p n).
Qed.

Lemma firstPrimary_candidates (fileExists : string -> bool)
    (Join : string -> string -> string) (basePath : string) (names : list string) :
  Checker.firstPrimary (map (DetectProps.candidateArtifact fileExists Join basePath) names)
  = DetectProps.foundArtifact
      <$> List.find (fun n => DetectProps.present fileExists Join basePath n
                              && DetectProps.isPrimaryName n) names.
Proof.
  induction names as [|n names IH]; [done|].
  cbn [map Checker.firstPrimary List.find DetectProps.candidateArtifact Found Path].
  rewrite IH. unfold DetectProps.isPrimaryName.
  destruct (DetectProps.present fileExists Join basePath n) eqn:Hn; cbn [andb]; [|done].
  destruct (_ || _); [|done].
  unfold DetectProps.candidateArtifact, DetectProps.foundArtifact. by rewrite Hn.
Qed.

(** X21.  [detectEnvFiles] has two regimes.  Without [--env] it lists the
    four standard environment files, each found or not, and of the standard
    example files those that exist.  With [--env] it lists the given paths
    and nothing else, each found or not: those whose path contains
    [example] as example files, the others as environment files; the
    standard names are not looked for. *)
Theorem detectEnvFiles_regimes (fileExists : string -> bool)
    (Join : string -> string -> string) (IsAbs : string -> bool) (basePath : string)
    (overrides : list string) :
  Detector.detectEnvFiles fileExists Join IsAbs basePath overrides [] []
  = match overrides with
    | [] =>
        (map (DetectProps.candidateArtifact fileExists Join basePath)
           Detector.envCandidates,
         map DetectProps.foundArtifact
           (List.filter (DetectProps.present fileExists Join basePath)
              Detector.exampleCandidates))
    | _ :: _ =>
        (map (DetectProps.overrideArtifact fileExists Join IsAbs basePath)
           (List.filter (fun o => negb (DetectProps.isExample o)) overrides),
         map (DetectProps.overrideArtifact fileExists Join IsAbs basePath)
           (List.filter DetectProps.isExample overrides))
    end.
Proof. apply detectEnvFiles_spec. Qed.

(** X22.  [detectComposeFiles]: without [--compose] the standard compose
    files that exist are listed, in the order of the table; a [--compose]
    file that exists is the only one listed; one that does not exist is
    listed as not found, followed by the standard files that exist. *)
Theorem detectComposeFiles_override (fileExists : string -> bool)
    (Join : string -> string -> string) (IsAbs : string -> bool)
    (basePath override : string) :
  Detector.detectComposeFiles fileExists Join IsAbs basePath override []
  = if bool_decide (override = "")
    then map DetectProps.foundArtifact
           (List.filter (DetectProps.present fileExists Join basePath)
              Detector.composeCandidates)
    else if Found (DetectProps.overrideArtifact fileExists Join IsAbs basePath override)
         then [DetectProps.overrideArtifact fileExists Join IsAbs basePath override]
         else DetectProps.overrideArtifact fileExists Join IsAbs basePath override
              :: map DetectProps.foundArtifact
                   (List.filter (DetectProps.present fileExists Join basePath)
                      Detector.composeCandidates).
Proof. apply detectComposeFiles_spec. Qed.

(** X23.  The language [Detect] reports is that of the first row of the
    manifest table that is found, and the package manager that of the first
    found row that names one, whatever the language of that row; the
    manifests are the found rows in table order.  [addLanguageInfo] then
    gives one [LANG001] exactly when a manifest was found, and its text
    names the package manager exactly when a found row names one. *)
Theorem Detect_language (fileExists : string -> bool) (Join : string -> string -> string)
    (IsAbs : string -> bool) (Glob : string -> list string) (BaseName : string -> string)
    (basePath composeOverride : string) (envOverrides : list string) :
  let detected :=
    snd (Detector.Detect fileExists Join IsAbs Glob BaseName basePath composeOverride
           envOverrides) in
  let found := DetectProps.manifestFound fileExists Join Glob basePath in
  let language := List.find found Detector.manifests in
  let manager := List.find (fun m => found m && DetectProps.namesManager m)
                   Detector.manifests in
  Scan.Manifests detected
  = map (DetectProps.manifestArtifact Join Glob BaseName basePath)
      (List.filter found Detector.manifests)
  /\ Scan.DetectedLang detected = from_option Detector.lang "" language
  /\ Scan.PackageManager detected = from_option Detector.pkgMgr "" manager
  /\ Scan.addLanguageInfo detected
     = match language with
       | None => []
       | Some m =>
           [Scan.lang001
              ("Detected " +:+ Detector.lang m +:+ " project"
               +:+ match manager with
                   | Some m' => " with " +:+ Detector.pkgMgr m'
                   | None => ""
                   end)]
       end.
Proof.
  cbv zeta. unfold Detector.Detect.
  destruct (Detector.detectEnvFiles _ _ _ _ _ _ _) as [envFiles envExamples].
  rewrite detectManifests_spec. cbn [snd Scan.Manifests Scan.DetectedLang
    Scan.PackageManager].
  split; [done|]. split; [by destruct (List.find _ _)|].
  split; [by destruct (List.find (fun m => _ && _) _)|].
  unfold Scan.addLanguageInfo. cbn [Scan.DetectedLang Scan.PackageManager].
  destruct (List.find (DetectProps.manifestFound fileExists Join Glob basePath)
              Detector.manifests) as [m|] eqn:Hm; [|done].
  assert (Detector.lang m <> "") as Hlang.
  { apply find_some in Hm as [Hin _]. pose proof manifests_langs as Hall.
    rewrite Forall_forall in Hall. apply Hall. by apply list_elem_of_In. }
  rewrite bool_decide_eq_false_2 by done. cbn [negb].
  destruct (List.find (fun m => _ && _) Detector.manifests) as [m'|] eqn:Hm'.
  - apply find_some in Hm' as [_ [_ Hn]%andb_true_iff]. unfold DetectProps.namesManager in Hn.
    rewrite Hn. by rewrite !app_assoc_s.
  - by rewrite app_empty_r.
Qed.

(** X24.  Detection and the example check together, without [--env]: when
    no standard example file exists nothing is reported; when one exists and
    none of the four standard environment files does, the one [ENV003]
    names the first example file that exists; when [.env] or [.env.local]
    exists, the keys of that example missing from the first of the two are
    reported as [ENV002]; when only [.env.development] or [.env.dev] exists,
    nothing is reported. *)
Theorem Detect_checkEnvExample (fileExists : string -> bool)
    (Join : string -> string -> string) (IsAbs : string -> bool)
    (Glob : string -> list string) (BaseName : string -> string)
    (ReadFile : string -> option string) (basePath composeOverride : string) :
  let artifacts :=
    fst (Detector.Detect fileExists Join IsAbs Glob BaseName basePath composeOverride [])
  in
  let present := DetectProps.present fileExists Join basePath in
  Checker.checkEnvExample ReadFile Join basePath artifacts
  = match List.find present Detector.exampleCandidates with
    | None => []
    | Some example =>
        if existsb present Detector.envCandidates then
          match List.find (fun n => present n && DetectProps.isPrimaryName n)
                  Detector.envCandidates with
          | Some env =>
              map (fun key => Checker.env002 example key env)
                (List.filter
                   (fun key =>
                      negb (bool_decide
                              (is_Some (Checker.parseEnvFile ReadFile (Join basePath env)
                                          !! key))))
                   (map fst (map_to_list
                               (Checker.parseEnvFile ReadFile (Join basePath example)))))
          | None => []
          end
        else [Checker.env003 example]
    end.
Proof.
  cbv zeta. unfold Detector.Detect. rewrite detectEnvFiles_spec.
  destruct (Detector.detectManifests _ _ _ _ _ _) as [[found_ dl] pm]. cbn [fst].
  set (artifacts := {| ComposeFiles := _ |}).
  pose proof (firstFound_present (DetectProps.present fileExists Join basePath)
                Detector.exampleCandidates) as Hex.
  destruct (List.find _ Detector.exampleCandidates) as [example|] eqn:Hfind.
  - rewrite (checkEnvExample_spec ReadFile Join basePath artifacts
               (DetectProps.foundArtifact example)) by exact Hex.
    unfold HasEnv. cbn [EnvFiles artifacts]. rewrite anyFound_candidates.
    destruct (existsb _ Detector.envCandidates); [|done].
    rewrite firstPrimary_candidates.
    by destruct (List.find (fun n => _ && _) Detector.envCandidates).
  - unfold Checker.checkEnvExample, HasEnvExample. cbn [EnvExamples artifacts].
    by rewrite (firstFound_none _ Hex).
Qed.

(** ** The values of the environment resolver *)

Lemma lastBinding_In (k : string) (bs : list (string * string)) (v : string) :
  Spec.lastBinding k bs = Some v -> In (k, v) bs.
Proof.
  induction bs as [|[k' v'] bs IH]; [done|]. cbn [Spec.lastBinding].
  destruct (Spec.lastBinding k bs) as [w|].
  - intros [= ->]. right. by apply IH.
  - destruct (string_dec k' k) as [->|]; [|done]. intros [= ->]. by left.
Qed.

Lemma TrimFunc_last (f : ascii -> bool) (s : string) :
  Spec.headKept f (Strings.rev (Strings.TrimFunc s f)).
Proof.
  unfold Strings.TrimFunc, Strings.TrimRightFunc. rewrite rev_involutive.
  apply TrimLeftFunc_head.
Qed.

(** X25.  No value that [parseEnvFile] stores begins or ends with a single
    or a double quote. *)
Theorem parseEnvFile_values_unquoted (ReadFile : string -> option string)
    (path k v : string) :
  Checker.parseEnvFile ReadFile path !! k = Some v ->
  Spec.headKept (Strings.ContainsByte Checker.quotes) v
  /\ Spec.headKept (Strings.ContainsByte Checker.quotes) (Strings.rev v).
Proof.
  unfold Checker.parseEnvFile. destruct (ReadFile path) as [data|]; [|done].
  rewrite fold_step_bindings, fold_bind_lookup.
  destruct (Spec.lastBinding k _) as [w|] eqn:Hlast; [|by rewrite lookup_empty].
  intros [= ->]. apply lastBinding_In, list_elem_of_In, list_elem_of_omap in Hlast.
  destruct Hlast as (text & _ & Hb). unfold Spec.bindingOf in Hb.
  destruct (Strings.TrimSpace text) as [|c line]; [done|].
  destruct (ascii_dec c "#"); [done|].
  destruct (Strings.IndexByte _ _) as [i|]; [|done].
  injection Hb as _ <-. unfold Spec.trimQuotes, Strings.Trim.
  split; [apply TrimFunc_head | apply TrimFunc_last].
Qed.

Lemma parseEnvFile_values_unquoted_witness :
  Spec.headKept (Strings.ContainsByte Checker.quotes) "v"
  /\ Spec.headKept (Strings.ContainsByte Checker.quotes) (Strings.rev "v").
Proof.
  apply (parseEnvFile_values_unquoted Demo.files "/app/.env" "K" "v").
  vm_compute. reflexivity.
Defined.

(** X26.  A scan with the default configuration, which [runScan] uses when
    the project has no configuration file, finds what the scan without a
    configuration finds, whether or not [--check-tools] is given. *)
Theorem default_config_is_no_config (ReadFile : string -> option string)
    (Join : string -> string -> string) (Join3 : string -> string -> string -> string)
    (Unmarshal : string -> option (gmap string Yaml.Node))
    (UnmarshalBuild : string -> option (gmap string Scan.Build))
    (Compile : string -> option (string -> bool)) (ToLower : string -> string)
    (NotExist : string -> bool) (DetectTools : gmap string VersionCheck.ToolInfo)
    (basePath : string) (tree : Filepath.entry) (artifacts : Artifacts)
    (detected : Scan.Detected) (sourceScanning checkTools : bool) :
  Scan.CheckWithOptions ReadFile Join Join3 Unmarshal UnmarshalBuild Compile ToLower
    NotExist DetectTools basePath tree artifacts detected
    (Scan.mkOptions sourceScanning (Some Scan.DefaultConfig) checkTools)
  = Scan.CheckWithOptions ReadFile Join Join3 Unmarshal UnmarshalBuild Compile ToLower
      NotExist DetectTools basePath tree artifacts detected
      (Scan.mkOptions sourceScanning None false).
Proof.
  rewrite !CheckWithOptions_spec.
  cbn [Scan.Config_ Scan.EnableSourceScanning Scan.CheckToolVersions Scan.Base
         Scan.ToolVersions Scan.DefaultConfig]. cbv zeta.
  rewrite checkCustomRules_spec, checkRequiredEnvVars_spec.
  cbn [Config.CustomRules Config.RequiredEnvVars flat_map List.filter map app].
  rewrite filter_all; [by destruct checkTools|]. intros f. unfold Spec.notIgnored. cbn [Config.IgnoreCodes].
  rewrite bool_decide_eq_false_2; [done | apply not_elem_of_nil].
Qed.

Section Undefined.
Variable ReadFile : string -> option string.
Variable Join : string -> string -> string.
Variable Join3 : string -> string -> string -> string.
Variable Unmarshal : string -> option (gmap string Yaml.Node).
Variable UnmarshalBuild : string -> option (gmap string Scan.Build).
Variable Compile : string -> option (string -> bool).
Variable ToLower : string -> string.
Variable NotExist : string -> bool.
Variable DetectTools : gmap string VersionCheck.ToolInfo.
Variable basePath : string.
Variable tree : Filepath.entry.
Variable artifacts : Artifacts.
Variable detected : Scan.Detected.

(** The checks a finding about an undefined variable comes from. *)
Lemma undefined_origin (opts : Scan.Options) (f : Finding) :
  In f (Scan.CheckWithOptions ReadFile Join Join3 Unmarshal UnmarshalBuild Compile ToLower
          NotExist DetectTools basePath tree artifacts detected opts) ->
  (Code f = "ENV001" -> In f (Checker.checkComposeEnvRefs ReadFile Join basePath artifacts))
  /\ (Code f = "SRC001"
      -> In f (Checker.checkSourceCodeEnvRefs ReadFile Join basePath tree artifacts))
  /\ (Code f = "REQ001"
      -> exists cfg, In f (Scan.checkRequiredEnvVars ReadFile Join basePath artifacts cfg)).
Proof.
  intros Hin.
  apply CheckWithOptions_origin in Hin
    as [[H|[[Hs H]|(cfg & Hcfg & [(Ht & v & Hv & H)|[H|H]])]] _].
  - apply in_app_or in H as [H|H].
    + split; [done|]. rewrite checkComposeEnvRefs_spec in H.
      apply in_map_iff in H as (o & <- & _). split; no_such_code.
    + apply others_codes in H. cbn in H.
      split; [|split]; intros Hc; exfalso;
        repeat (destruct H as [[= H1 _]|H]; [rewrite <- H1 in Hc; discriminate|]); done.
  - split; [|split; [done|]]; apply source_codes in H as [-> _]; no_such_code.
  - apply tool_codes in H as [[Hc _]|[Hc _]]; rewrite Hc; split; [|split| |split];
      no_such_code.
  - apply custom_codes in H as (rule & _ & Hc & _).
    pose proof (custom_code_prefix (Config.ID rule)) as Hp. rewrite <- Hc in Hp.
    split; [|split]; intros Hx; rewrite Hx in Hp; discriminate.
  - split; [|split; [|by exists (Scan.Base cfg)]];
      apply required_codes in H as [-> _]; no_such_code.
Qed.

End Undefined.

(** X27.  A variable that a found environment file defines is never
    reported as undefined by a scan: no [ENV001], no [SRC001] and no
    [REQ001] finding names it, whatever the options. *)
Theorem defined_never_reported (ReadFile : string -> option string)
    (Join : string -> string -> string) (Join3 : string -> string -> string -> string)
    (Unmarshal : string -> option (gmap string Yaml.Node))
    (UnmarshalBuild : string -> option (gmap string Scan.Build))
    (Compile : string -> option (string -> bool)) (ToLower : string -> string)
    (NotExist : string -> bool) (DetectTools : gmap string VersionCheck.ToolInfo)
    (basePath : string) (tree : Filepath.entry) (artifacts : Artifacts)
    (detected : Scan.Detected) (opts : Scan.Options) (name : string) :
  Spec.definedAnywhere ReadFile Join basePath artifacts name = true ->
  let findings :=
    Scan.CheckWithOptions ReadFile Join Join3 Unmarshal UnmarshalBuild Compile ToLower
      NotExist DetectTools basePath tree artifacts detected opts in
  (forall path line, ~ In (Checker.env001 name path line) findings)
  /\ (forall path line, ~ In (Checker.src001 name path line) findings)
  /\ ~ In (Scan.req001 name) findings.
Proof.
  intros Hdef. cbv zeta. split; [|split].
  - intros path line Hin. apply undefined_origin in Hin as [H _].
    specialize (H eq_refl). rewrite checkComposeEnvRefs_spec in H.
    apply in_map_iff in H as (o & Ho & [_ Hr]%filter_In).
    assert (Spec.occVar o = name) as Hname.
    { apply env001Title_inj. by apply (f_equal Title) in Ho. }
    unfold Spec.reportable in Hr. by rewrite Hname, Hdef in Hr.
  - intros path line Hin. apply undefined_origin in Hin as (_ & H & _).
    specialize (H eq_refl). rewrite checkSourceCodeEnvRefs_spec in H.
    apply in_map_iff in H as (o & Ho & Hin).
    assert (Spec.occVar o = name) as Hname.
    { apply src001Title_inj. by apply (f_equal Title) in Ho. }
    apply firstPerName_In, filter_In in Hin as [_ Hr].
    unfold Spec.reportable in Hr. by rewrite Hname, Hdef in Hr.
  - intros Hin. apply undefined_origin in Hin as (_ & _ & H).
    destruct (H eq_refl) as (cfg & Hreq). rewrite checkRequiredEnvVars_spec in Hreq.
    apply in_map_iff in Hreq as (name' & Hn & [_ Hr]%filter_In).
    assert (name' = name) as ->.
    { apply (f_equal Title) in Hn. by apply wrap_inj in Hn. }
    by rewrite Hdef in Hr.
Qed.

Lemma defined_never_reported_witness :
  ~ In (Scan.req001 "A") Sample.findings.
Proof.
  destruct (defined_never_reported Sample.files Demo.join Sample.join3 Demo.unmarshal
              Sample.unmarshalBuild Demo.compile Sample.toLower Sample.notExist
              Sample.tools "/app" Demo.tree Sample.artifacts Sample.detected
              Sample.options "A") as (_ & _ & H); [reflexivity | exact H].
Defined.
